(** * Otway-Rees handshake: the server side (Server.py)

    A shallow embedding of [Server.py] and the properties of the
    session worker, the stoppable-entity substrate and the listening
    server that the specification states about it.

    The program is Python 2 ([from Queue import Queue]).  Every entity is
    a thread that owns queues and talks to the others only through
    them.  The embedding keeps:

    - the Python values that travel on queues ([value]);
    - a store of [Queue] objects indexed by identity, with the blocking
      behaviour of [Queue.get] and [Queue.put];
    - the instance attributes of an entity as a record threaded through
      a state monad that also carries the exception or the suspension
      that ends an execution;
    - the functions imported from [Utils], which is not part of the
      sources at hand, as section variables. *)

From Stdlib Require Import ZArith Lia Ascii String.
From stdpp Require Import base option list strings pretty gmap.

Local Open Scope string_scope.
Local Open Scope Z_scope.
Local Open Scope list_scope.

(** ** Python values *)

(** The values that can sit in a queue or in an instance attribute:
    [None], integers, byte strings, [Queue] objects (compared by
    identity, as [Queue] defines no [__eq__]), tuples and lists.  On this
    universe Python's [==] is structural equality. *)
#[warnings="-register-all"]
Inductive value : Type :=
| VNone
| VInt (z : Z)
| VStr (s : string)
| VQueue (q : nat)
| VTuple (l : list value)
| VList (l : list value).

Fixpoint value_eqb (a b : value) : bool :=
  let fix all_eqb (x y : list value) : bool :=
    match x, y with
    | [], [] => true
    | a' :: x', b' :: y' => value_eqb a' b' && all_eqb x' y'
    | _, _ => false
    end in
  match a, b with
  | VNone, VNone => true
  | VInt x, VInt y => Z.eqb x y
  | VStr x, VStr y => String.eqb x y
  | VQueue x, VQueue y => Nat.eqb x y
  | VTuple x, VTuple y => all_eqb x y
  | VList x, VList y => all_eqb x y
  | _, _ => false
  end.

(** The exceptions the program raises itself or gets from a built-in. *)
Inductive exn : Type :=
| IndexError
| InvalidMessage
| TypeError
| ValueError
| AttributeError
| NotImplementedError
| OtherException (name : string).

Definition exn_eqb (a b : exn) : bool :=
  match a, b with
  | IndexError, IndexError | InvalidMessage, InvalidMessage
  | TypeError, TypeError | ValueError, ValueError
  | AttributeError, AttributeError
  | NotImplementedError, NotImplementedError => true
  | OtherException x, OtherException y => String.eqb x y
  | _, _ => false
  end.

(** The result of an expression that may raise. *)
Inductive result (A : Type) : Type :=
| Ok (a : A)
| Raise (e : exn).
Arguments Ok {A} a.
Arguments Raise {A} e.

(** ** Built-ins *)

Module Py.

(** [s[i:i+1]] for every position of a string: what iterating over a
    [str] yields. *)
Fixpoint chars (s : string) : list value :=
  match s with
  | EmptyString => []
  | String c rest => VStr (String c EmptyString) :: chars rest
  end.

(** [len(v)].  [Queue.Queue] is an old-style class of Python 2 with no
    [__len__]: on an instance the lookup of the method fails with
    [AttributeError], where [None] and a number give [TypeError]. *)
Definition len (v : value) : result Z :=
  match v with
  | VStr s => Ok (Z.of_nat (String.length s))
  | VTuple l | VList l => Ok (Z.of_nat (length l))
  | VQueue _ => Raise AttributeError
  | VNone | VInt _ => Raise TypeError
  end.

(** The elements of an iterable, in order: [list(v)]. *)
Definition elements (v : value) : result (list value) :=
  match v with
  | VStr s => Ok (chars s)
  | VTuple l | VList l => Ok l
  | _ => Raise TypeError
  end.

(** [v[i]] for a literal index [i >= 0]; a [Queue] has no
    [__getitem__]. *)
Definition getitem (v : value) (i : nat) : result value :=
  match v with
  | VQueue _ => Raise AttributeError
  | _ =>
      match elements v with
      | Ok l => match l !! i with
                | Some x => Ok x
                | None => Raise IndexError
                end
      | Raise e => Raise e
      end
  end.

Fixpoint init_string (s : string) : string :=
  match s with
  | EmptyString => EmptyString
  | String c EmptyString => EmptyString
  | String c rest => String c (init_string rest)
  end.

(** [v[:-1]]: all but the last element, of the same type as [v]. *)
Definition drop_last (v : value) : result value :=
  match v with
  | VStr s => Ok (VStr (init_string s))
  | VTuple l => Ok (VTuple (removelast l))
  | VList l => Ok (VList (removelast l))
  | VQueue _ => Raise AttributeError
  | VNone | VInt _ => Raise TypeError
  end.

(** [s.split(sep)] for a one-character separator. *)
Fixpoint split (sep : ascii) (s : string) : list string :=
  match s with
  | EmptyString => [EmptyString]
  | String c rest =>
      if Ascii.eqb c sep then EmptyString :: split sep rest
      else match split sep rest with
           | [] => [String c EmptyString]
           | field :: fields => String c field :: fields
           end
  end.

(** [v.split(':')]: only strings have the method. *)
Definition split_colon (v : value) : result value :=
  match v with
  | VStr s => Ok (VList (VStr <$> split ":"%char s))
  | _ => Raise AttributeError
  end.

(** [a, b = v] *)
Definition unpack2 (v : value) : result (value * value) :=
  match elements v with
  | Ok [a; b] => Ok (a, b)
  | Ok _ => Raise ValueError
  | Raise e => Raise e
  end.

End Py.

(** ** Signals and instance attributes

    [hello_signal], [error_signal] (line 10-11), [finish_signal] (line 32)
    and [max_connections_signal] (line 51) are assigned once by the
    constructors and never again; they are the constants below. *)

Definition hello_signal : value := VStr "HELLO".
Definition error_signal : value := VStr "ERROR".
Definition finish_signal : value := VStr "FINISH".
Definition max_connections_signal : value := VStr "MAX_CONNECTIONS_REACHED".

(** What a worker knows of the entity it connects to: its two queues. *)
Module Endpoint.
Record t : Type := Build {
  input_queue : nat;
  output_queue : nat
}.
End Endpoint.

(** The instance attributes of a [ServerWorker] (lines 94-107, with those
    of [AbstractEntity] and [AbstractStoppableEntity]): the two queues by
    identity, and every value that [run] stores. *)
Module Worker.

Record t : Type := Build {
  input_queue : nat;
  output_queue : nat;
  waiting_queues : list value;
  server_key : value;
  server_id : value;
  trusted_server : Endpoint.t;
  trusted_server_input_queue : value;
  trusted_server_output_queue : value;
  trusted_random_value : value;
  client_random_value : value;
  client_client_id : value;
  client_server_id : value;
  trusted_nonce : value;
  session_key : value;
  nonce : value
}.

Definition set_waiting_queues (x : list value) (w : t) : t :=
  Build (input_queue w) (output_queue w) x (server_key w) (server_id w)
    (trusted_server w) (trusted_server_input_queue w)
    (trusted_server_output_queue w) (trusted_random_value w)
    (client_random_value w) (client_client_id w) (client_server_id w)
    (trusted_nonce w) (session_key w) (nonce w).

Definition set_trusted_server_input_queue (x : value) (w : t) : t :=
  Build (input_queue w) (output_queue w) (waiting_queues w) (server_key w)
    (server_id w) (trusted_server w) x
    (trusted_server_output_queue w) (trusted_random_value w)
    (client_random_value w) (client_client_id w) (client_server_id w)
    (trusted_nonce w) (session_key w) (nonce w).

Definition set_trusted_server_output_queue (x : value) (w : t) : t :=
  Build (input_queue w) (output_queue w) (waiting_queues w) (server_key w)
    (server_id w) (trusted_server w) (trusted_server_input_queue w)
    x (trusted_random_value w)
    (client_random_value w) (client_client_id w) (client_server_id w)
    (trusted_nonce w) (session_key w) (nonce w).

Definition set_trusted_random_value (x : value) (w : t) : t :=
  Build (input_queue w) (output_queue w) (waiting_queues w) (server_key w)
    (server_id w) (trusted_server w) (trusted_server_input_queue w)
    (trusted_server_output_queue w) x
    (client_random_value w) (client_client_id w) (client_server_id w)
    (trusted_nonce w) (session_key w) (nonce w).

Definition set_client_random_value (x : value) (w : t) : t :=
  Build (input_queue w) (output_queue w) (waiting_queues w) (server_key w)
    (server_id w) (trusted_server w) (trusted_server_input_queue w)
    (trusted_server_output_queue w) (trusted_random_value w)
    x (client_client_id w) (client_server_id w)
    (trusted_nonce w) (session_key w) (nonce w).

Definition set_client_client_id (x : value) (w : t) : t :=
  Build (input_queue w) (output_queue w) (waiting_queues w) (server_key w)
    (server_id w) (trusted_server w) (trusted_server_input_queue w)
    (trusted_server_output_queue w) (trusted_random_value w)
    (client_random_value w) x (client_server_id w)
    (trusted_nonce w) (session_key w) (nonce w).

Definition set_client_server_id (x : value) (w : t) : t :=
  Build (input_queue w) (output_queue w) (waiting_queues w) (server_key w)
    (server_id w) (trusted_server w) (trusted_server_input_queue w)
    (trusted_server_output_queue w) (trusted_random_value w)
    (client_random_value w) (client_client_id w) x
    (trusted_nonce w) (session_key w) (nonce w).

Definition set_trusted_nonce (x : value) (w : t) : t :=
  Build (input_queue w) (output_queue w) (waiting_queues w) (server_key w)
    (server_id w) (trusted_server w) (trusted_server_input_queue w)
    (trusted_server_output_queue w) (trusted_random_value w)
    (client_random_value w) (client_client_id w) (client_server_id w)
    x (session_key w) (nonce w).

Definition set_session_key (x : value) (w : t) : t :=
  Build (input_queue w) (output_queue w) (waiting_queues w) (server_key w)
    (server_id w) (trusted_server w) (trusted_server_input_queue w)
    (trusted_server_output_queue w) (trusted_random_value w)
    (client_random_value w) (client_client_id w) (client_server_id w)
    (trusted_nonce w) x (nonce w).

Definition set_nonce (x : value) (w : t) : t :=
  Build (input_queue w) (output_queue w) (waiting_queues w) (server_key w)
    (server_id w) (trusted_server w) (trusted_server_input_queue w)
    (trusted_server_output_queue w) (trusted_random_value w)
    (client_random_value w) (client_client_id w) (client_server_id w)
    (trusted_nonce w) (session_key w) x.

(** The attributes that the two processing methods never assign. *)
Definition wiring (w : t) :=
  (input_queue w, output_queue w, waiting_queues w, server_key w,
   server_id w, trusted_server w, trusted_server_input_queue w,
   trusted_server_output_queue w).

End Worker.

(** ** The world outside an entity *)

(** A [Queue] object: its capacity ([maxsize <= 0] is unbounded) and its
    content, oldest first. *)
Record Queue : Type := mkQueue {
  maxsize : Z;
  items : list value
}.

(** One completed queue operation. *)
Inductive event : Type :=
| EvGet (q : nat) (v : value)
| EvPut (q : nat) (v : value).

(** - [queues]: the [Queue] objects by identity; an identity that is not
      in the map is a [Queue()] nothing has touched yet;
    - [next_queue]: the identity the next [Queue(...)] call gets;
    - [random_keys], [random_pos]: the results of the successive calls
      of [Utils.generate_random_key], and how many were made;
    - [log]: the queue operations completed so far, oldest first;
    - [started]: the workers whose [start()] was called. *)
Record world : Type := mkWorld {
  queues : gmap nat Queue;
  next_queue : nat;
  random_keys : nat -> value;
  random_pos : nat;
  log : list event;
  started : list Worker.t
}.

Definition queue_at (w : world) (q : nat) : Queue :=
  default (mkQueue 0 []) (queues w !! q).

Definition set_queue (q : nat) (x : Queue) (w : world) : world :=
  mkWorld (<[q := x]> (queues w)) (next_queue w) (random_keys w)
    (random_pos w) (log w) (started w).

Definition add_log (e : event) (w : world) : world :=
  mkWorld (queues w) (next_queue w) (random_keys w) (random_pos w)
    (log w ++ [e]) (started w).

(** [Queue.put] waits while [maxsize > 0] and [qsize() == maxsize]. *)
Definition full (x : Queue) : bool :=
  (0 <? maxsize x) && (Z.of_nat (length (items x)) =? maxsize x).

(** ** The monad of a method

    A method runs on its object [self : S] and on the world.  It returns,
    raises, or suspends at a queue operation that cannot complete in
    this world ([Blocked]); [OutOfFuel] is the model's own answer when
    the bound on loop iterations it was given is used up.  In every case
    the attributes and the world are the ones at that point. *)
Inductive outcome (A : Type) : Type :=
| Returned (a : A)
| Raised (e : exn)
| Blocked
| OutOfFuel.
Arguments Returned {A} a.
Arguments Raised {A} e.
Arguments Blocked {A}.
Arguments OutOfFuel {A}.

Definition M (S A : Type) : Type := S -> world -> outcome A * S * world.

Definition ret {S A} (a : A) : M S A := fun s w => (Returned a, s, w).

Definition bind {S A B} (m : M S A) (f : A -> M S B) : M S B :=
  fun s w =>
    match m s w with
    | (Returned a, s', w') => f a s' w'
    | (Raised e, s', w') => (Raised e, s', w')
    | (Blocked, s', w') => (Blocked, s', w')
    | (OutOfFuel, s', w') => (OutOfFuel, s', w')
    end.

Notation "x <- m ;; k" := (bind m (fun x => k))
  (at level 100, m at next level, right associativity).
Notation "m ;;; k" := (bind m (fun _ => k))
  (at level 100, right associativity).

Definition raise {S A} (e : exn) : M S A := fun s w => (Raised e, s, w).

Definition lift {S A} (r : result A) : M S A :=
  match r with
  | Ok a => ret a
  | Raise e => raise e
  end.

(** [self.attr] and [self.attr = x] *)
Definition attr {S A} (f : S -> A) : M S A := fun s w => (Returned (f s), s, w).
Definition assign {S} (f : S -> S) : M S unit := fun s w => (Returned tt, f s, w).

(** The world after a completed [get] that took [v] and left [rest], and
    after a completed [put] of [v]. *)
Definition dequeue (q : nat) (v : value) (rest : list value) (w : world)
    : world :=
  add_log (EvGet q v) (set_queue q (mkQueue (maxsize (queue_at w q)) rest) w).

Definition enqueue (q : nat) (v : value) (w : world) : world :=
  add_log (EvPut q v)
    (set_queue q
       (mkQueue (maxsize (queue_at w q)) (items (queue_at w q) ++ [v])) w).

(** [queue.get()]: waits while the queue is empty. *)
Definition queue_get {S} (queue : value) : M S value :=
  fun s w =>
    match queue with
    | VQueue q =>
        match items (queue_at w q) with
        | [] => (Blocked, s, w)
        | v :: rest => (Returned v, s, dequeue q v rest w)
        end
    | _ => (Raised AttributeError, s, w)
    end.

(** [queue.put(v)]: waits while the queue is full. *)
Definition queue_put {S} (queue : value) (v : value) : M S unit :=
  fun s w =>
    match queue with
    | VQueue q =>
        if full (queue_at w q) then (Blocked, s, w)
        else (Returned tt, s, enqueue q v w)
    | _ => (Raised AttributeError, s, w)
    end.

(** [Queue(maxsize)] *)
Definition Queue_new {S} (size : Z) : M S nat :=
  fun s w =>
    (Returned (next_queue w), s,
     mkWorld (<[next_queue w := mkQueue size []]> (queues w))
       (Datatypes.S (next_queue w)) (random_keys w) (random_pos w) (log w)
       (started w)).

(** [Utils.generate_random_key()]: the next key, and the world after the
    draw. *)
Definition next_key (w : world) : value := random_keys w (random_pos w).

Definition drawn (w : world) : world :=
  mkWorld (queues w) (next_queue w) (random_keys w)
    (Datatypes.S (random_pos w)) (log w) (started w).

Definition generate_random_key {S} : M S value :=
  fun s w => (Returned (next_key w), s, drawn w).

(** [worker.start()] *)
Definition Thread_start {S} (worker : Worker.t) : M S unit :=
  fun s w =>
    (Returned tt, s,
     mkWorld (queues w) (next_queue w) (random_keys w) (random_pos w) (log w)
       (started w ++ [worker])).

Definition out_of_fuel {S A} : M S A := fun s w => (OutOfFuel, s, w).

(** [try: body / except caught: return handler] followed by [rest]: the
    handler leaves the method, so [rest] runs only when [body] completes. *)
Definition try_except {S A} (body : M S unit) (caught : list exn)
    (handler : M S A) (rest : M S A) : M S A :=
  fun s w =>
    match body s w with
    | (Returned _, s', w') => rest s' w'
    | (Raised e, s', w') =>
        if existsb (exn_eqb e) caught then handler s' w'
        else (Raised e, s', w')
    | (Blocked, s', w') => (Blocked, s', w')
    | (OutOfFuel, s', w') => (OutOfFuel, s', w')
    end.

(** ** class AbstractEntity (lines 7-26) *)

Module AbstractEntity.

(** The two queues every entity is built with. *)
Class Entity (S : Type) : Type := {
  input_queue : S -> nat;
  output_queue : S -> nat
}.

#[global] Instance Endpoint_Entity : Entity Endpoint.t :=
  {| input_queue := Endpoint.input_queue;
     output_queue := Endpoint.output_queue |}.

#[global] Instance Worker_Entity : Entity Worker.t :=
  {| input_queue := Worker.input_queue;
     output_queue := Worker.output_queue |}.

Definition establish_connection {S E} `{Entity E} (endpoint : E)
    : M S value :=
  queue_put (VQueue (input_queue endpoint)) hello_signal ;;;
  queue_get (VQueue (output_queue endpoint)).

Definition is_message_error (message : value) : bool :=
  value_eqb error_signal message.

Definition validate_message_length {S} (decrypted : value) (intended : Z)
    : M S unit :=
  n <- lift (Py.len decrypted) ;;
  if negb (n =? intended) then raise IndexError else ret tt.

End AbstractEntity.

(** ** class AbstractStoppableEntity (lines 29-45) *)

Module AbstractStoppableEntity.
Import AbstractEntity.

Class Stoppable (S : Type) `{Entity S} : Type := {
  waiting_queues : S -> list value;
  set_waiting_queues : list value -> S -> S;
  waiting_queues_set :
    forall l s, waiting_queues (set_waiting_queues l s) = l
}.

#[global] Instance Worker_Stoppable : Stoppable Worker.t :=
  {| waiting_queues := Worker.waiting_queues;
     set_waiting_queues := Worker.set_waiting_queues;
     waiting_queues_set := fun _ _ => eq_refl |}.

Section Methods.
Context {S : Type} `{Stoppable S}.

(** [for waiting_queue in qs: waiting_queue.put(v)] *)
Fixpoint put_each (qs : list value) (v : value) : M S unit :=
  match qs with
  | [] => ret tt
  | waiting_queue :: rest => queue_put waiting_queue v ;;; put_each rest v
  end.

Definition finish : M S unit :=
  qs <- attr waiting_queues ;;
  put_each qs finish_signal.

Definition is_finish_signal (message : value) : bool :=
  value_eqb message finish_signal.

(** [if queue not in self.waiting_queues:
      self.waiting_queues.append(queue)] *)
Definition remember (queue : value) (s : S) : S :=
  if negb (existsb (value_eqb queue) (waiting_queues s))
  then set_waiting_queues (waiting_queues s ++ [queue]) s
  else s.

Definition get_from_queue (queue : value) : M S value :=
  assign (remember queue) ;;;
  queue_get queue.

End Methods.

End AbstractStoppableEntity.

(** ** class ServerWorker (lines 93-182) *)

Module ServerWorker.
Import AbstractEntity AbstractStoppableEntity Worker.

(** [ServerWorker(server_id, server_key, trusted_server)]: the two
    [Queue()] of [AbstractEntity.__init__], no waiting queue, and [None]
    in every attribute of the run. *)
Definition __init__ {S} (server_id server_key : value)
    (trusted_server : Endpoint.t) : M S Worker.t :=
  input_queue <- Queue_new 0 ;;
  output_queue <- Queue_new 0 ;;
  ret (Worker.Build input_queue output_queue [] server_key server_id
         trusted_server VNone VNone VNone VNone VNone VNone VNone VNone
         VNone).

Section Methods.

(** [decrypt] and [prepare_inner_message] are imported from [Utils], which
    is not among the sources: each returns a value or raises.  [str] is
    the built-in, on whatever [generate_random_key] (the third import,
    above) returned. *)
Variable decrypt : value -> value -> result value.
Variable prepare_inner_message :
  value -> value -> value -> value -> value -> result value.
Variable str : value -> string.

(** The attributes after the three assignments of
    [unpack_message_from_client]. *)
Definition unpacked (m0 m1 m2 : value) (s : t) : t :=
  set_client_server_id m2 (set_client_client_id m1
    (set_client_random_value m0 s)).

Definition unpack_message_from_client (message : value) : M t unit :=
  validate_message_length message 4 ;;;
  m0 <- lift (Py.getitem message 0) ;;
  assign (set_client_random_value m0) ;;;
  m1 <- lift (Py.getitem message 1) ;;
  assign (set_client_client_id m1) ;;;
  m2 <- lift (Py.getitem message 2) ;;
  assign (set_client_server_id m2).

Definition validate_server_id_match : M t unit :=
  asserted <- attr client_server_id ;;
  own <- attr server_id ;;
  if negb (value_eqb asserted own) then raise InvalidMessage else ret tt.

Definition prepare_nested_message_for_trusted : M t value :=
  key <- generate_random_key ;;
  assign (set_nonce (VStr (str key))) ;;;
  a0 <- attr server_key ;;
  a1 <- attr nonce ;;
  a2 <- attr client_random_value ;;
  a3 <- attr client_client_id ;;
  a4 <- attr client_server_id ;;
  lift (prepare_inner_message a0 a1 a2 a3 a4).

Definition prepare_message_for_trusted_server (message : value)
    : M t value :=
  partial <- lift (Py.elements message) ;;
  nested <- prepare_nested_message_for_trusted ;;
  ret (VTuple (partial ++ [nested])).

Definition process_message_from_client_and_generate_message_to_trusted
    (message : value) : M t value :=
  try_except
    (unpack_message_from_client message ;;;
     validate_server_id_match)
    [IndexError; InvalidMessage]
    (ret error_signal)
    (prepare_message_for_trusted_server message).

(** The attributes after the assignments of [unpack_message_from_trusted]
    and [unpack_nested_message_from_trusted]. *)
Definition received (m0 nonce key : value) (s : t) : t :=
  set_session_key key (set_trusted_nonce nonce
    (set_trusted_random_value m0 s)).

Definition unpack_nested_message_from_trusted (encrypted_message : value)
    : M t unit :=
  key <- attr server_key ;;
  plain <- lift (decrypt encrypted_message key) ;;
  decrypted <- lift (Py.split_colon plain) ;;
  validate_message_length decrypted 2 ;;;
  fields <- lift (Py.unpack2 decrypted) ;;
  assign (set_trusted_nonce (fst fields)) ;;;
  assign (set_session_key (snd fields)).

Definition unpack_message_from_trusted (message : value) : M t unit :=
  validate_message_length message 3 ;;;
  m0 <- lift (Py.getitem message 0) ;;
  assign (set_trusted_random_value m0) ;;;
  m2 <- lift (Py.getitem message 2) ;;
  unpack_nested_message_from_trusted m2.

Definition validate_nested_message_from_trusted : M t unit :=
  echoed <- attr trusted_nonce ;;
  own <- attr nonce ;;
  if negb (value_eqb echoed own) then raise InvalidMessage else ret tt.

Definition validate_random_value_from_trusted : M t unit :=
  echoed <- attr trusted_random_value ;;
  sent <- attr client_random_value ;;
  if negb (value_eqb echoed sent) then raise InvalidMessage else ret tt.

Definition process_message_from_trusted_and_generate_response_for_client
    (message : value) : M t value :=
  try_except
    (unpack_message_from_trusted message ;;;
     validate_random_value_from_trusted ;;;
     validate_nested_message_from_trusted)
    [IndexError; InvalidMessage]
    (ret error_signal)
    (lift (Py.drop_last message)).

Definition connect_to_trusted : M t unit :=
  endpoint <- attr trusted_server ;;
  reply <- establish_connection endpoint ;;
  pair <- lift (Py.unpack2 reply) ;;
  assign (set_trusted_server_input_queue (fst pair)) ;;;
  assign (set_trusted_server_output_queue (snd pair)).

Definition run : M t unit :=
  own_input <- attr Worker.input_queue ;;
  message_from_client <- get_from_queue (VQueue own_input) ;;
  message_to_trusted <-
    process_message_from_client_and_generate_message_to_trusted
      message_from_client ;;
  if is_message_error message_to_trusted then
    own_output <- attr Worker.output_queue ;;
    queue_put (VQueue own_output) error_signal
  else
    connect_to_trusted ;;;
    to_trusted <- attr trusted_server_input_queue ;;
    queue_put to_trusted message_to_trusted ;;;
    from_trusted <- attr trusted_server_output_queue ;;
    message_from_trusted <- get_from_queue from_trusted ;;
    message_for_client <-
      process_message_from_trusted_and_generate_response_for_client
        message_from_trusted ;;
    own_output <- attr Worker.output_queue ;;
    queue_put (VQueue own_output) message_for_client.

(** [run] in three parts: lines 117-120, that wait for the Trusted
    Server's reply and answer the client; the [else] branch, lines
    115-120; and the whole method written with them. *)
Definition run_reply : M t unit :=
  from_trusted <- attr trusted_server_output_queue ;;
  message_from_trusted <- get_from_queue from_trusted ;;
  message_for_client <-
    process_message_from_trusted_and_generate_response_for_client
      message_from_trusted ;;
  own_output <- attr Worker.output_queue ;;
  queue_put (VQueue own_output) message_for_client.

Definition run_exchange (message_to_trusted : value) : M t unit :=
  connect_to_trusted ;;;
  to_trusted <- attr trusted_server_input_queue ;;
  queue_put to_trusted message_to_trusted ;;;
  run_reply.

Definition run_in_parts : M t unit :=
  own_input <- attr Worker.input_queue ;;
  message_from_client <- get_from_queue (VQueue own_input) ;;
  message_to_trusted <-
    process_message_from_client_and_generate_message_to_trusted
      message_from_client ;;
  if is_message_error message_to_trusted then
    own_output <- attr Worker.output_queue ;;
    queue_put (VQueue own_output) error_signal
  else run_exchange message_to_trusted.


End Methods.

(** The queue operations of a run that returns: a rejection, or one
    exchange with the Trusted Server. *)
Definition reply_shape (s : t) (evs : list event) : Prop :=
  exists from_trusted reply final,
    evs = [EvGet from_trusted reply; EvPut (Worker.output_queue s) final].

Definition exchange_shape (s : t) (evs : list event) : Prop :=
  exists handshake to_trusted message tail,
    reply_shape s tail /\
    evs = [EvPut (Endpoint.input_queue (trusted_server s)) hello_signal;
           EvGet (Endpoint.output_queue (trusted_server s)) handshake;
           EvPut to_trusted message] ++ tail.

Definition single_run (s : t) (evs : list event) : Prop :=
  exists message,
    evs = [EvGet (Worker.input_queue s) message;
           EvPut (Worker.output_queue s) error_signal] \/
    exists handshake to_trusted forwarded from_trusted reply final,
      evs = [EvGet (Worker.input_queue s) message;
             EvPut (Endpoint.input_queue (trusted_server s)) hello_signal;
             EvGet (Endpoint.output_queue (trusted_server s)) handshake;
             EvPut to_trusted forwarded;
             EvGet from_trusted reply;
             EvPut (Worker.output_queue s) final].

End ServerWorker.

(** ** class AbstractServer (lines 48-79) and class Server (lines 82-90) *)

Module AbstractServer.
Import AbstractEntity AbstractStoppableEntity.

(** What [AbstractServer.__init__] adds to a stoppable entity, and the
    method a subclass has to supply. *)
Class Listening (S : Type) `{Stoppable S} : Type := {
  running : S -> bool;
  set_running : bool -> S -> S;
  invoke_workers : S -> bool;
  get_new_worker : M S Worker.t
}.

Section Methods.
Context {S : Type} `{Listening S}.

Definition start_worker (worker : Worker.t) : M S unit :=
  invoke <- attr invoke_workers ;;
  if invoke then Thread_start worker else ret tt.

Definition connect : M S value :=
  worker <- get_new_worker ;;
  start_worker worker ;;;
  ret (VTuple [VQueue (Worker.input_queue worker);
               VQueue (Worker.output_queue worker)]).

Definition create_worker : M S Worker.t := get_new_worker.

(** One turn of [while self.running: ...]. *)
Definition run_body : M S unit :=
  own_input <- attr input_queue ;;
  message <- get_from_queue (VQueue own_input) ;;
  if is_finish_signal message then assign (set_running false)
  else
    pair <- connect ;;
    own_output <- attr output_queue ;;
    queue_put (VQueue own_output) pair.

(** The loop, for at most [fuel] turns. *)
Fixpoint run_loop (fuel : nat) : M S unit :=
  continue <- attr running ;;
  if continue then
    match fuel with
    | O => out_of_fuel
    | Datatypes.S fuel' => run_body ;;; run_loop fuel'
    end
  else ret tt.

Definition run (fuel : nat) : M S unit :=
  assign (set_running true) ;;;
  run_loop fuel.

End Methods.

End AbstractServer.

Module Server.
Import AbstractEntity AbstractStoppableEntity AbstractServer.

Record t : Type := Build {
  input_queue : nat;
  output_queue : nat;
  waiting_queues : list value;
  max_connections : Z;
  invoke_workers : bool;
  running : bool;
  server_id : value;
  server_key : value;
  trusted_server : Endpoint.t
}.

Definition set_waiting_queues (x : list value) (s : t) : t :=
  Build (input_queue s) (output_queue s) x (max_connections s)
    (invoke_workers s) (running s) (server_id s) (server_key s)
    (trusted_server s).

Definition set_running (x : bool) (s : t) : t :=
  Build (input_queue s) (output_queue s) (waiting_queues s)
    (max_connections s) (invoke_workers s) x (server_id s) (server_key s)
    (trusted_server s).

(** [Server(server_id, server_key, max_connections, trusted_server,
    invoke_workers)]: the two queues of [AbstractEntity.__init__], then
    the bounded input queue that replaces the first. *)
Definition __init__ {S} (server_id server_key : value) (max_connections : Z)
    (trusted_server : Endpoint.t) (invoke_workers : bool) : M S t :=
  _ <- Queue_new 0 ;;
  output_queue <- Queue_new 0 ;;
  input_queue <- Queue_new max_connections ;;
  ret (Build input_queue output_queue [] max_connections invoke_workers
         false server_id server_key trusted_server).

Definition get_new_worker : M t Worker.t :=
  a0 <- attr server_id ;;
  a1 <- attr server_key ;;
  a2 <- attr trusted_server ;;
  ServerWorker.__init__ a0 a1 a2.

#[global] Instance Server_Entity : Entity t :=
  {| AbstractEntity.input_queue := input_queue;
     AbstractEntity.output_queue := output_queue |}.

#[global] Instance Server_Stoppable : Stoppable t :=
  {| AbstractStoppableEntity.waiting_queues := waiting_queues;
     AbstractStoppableEntity.set_waiting_queues := set_waiting_queues;
     waiting_queues_set := fun _ _ => eq_refl |}.

#[global] Instance Server_Listening : Listening t :=
  {| AbstractServer.running := running;
     AbstractServer.set_running := set_running;
     AbstractServer.invoke_workers := invoke_workers;
     AbstractServer.get_new_worker := get_new_worker |}.

End Server.

(** ** What an execution did

    The predicates in which the properties of executions are stated. *)

(** [evs] are the operations of an execution that ended with [o], when
    the operations of a returning execution are the lists in [shape]:
    the whole of one if it returned, the beginning of one if not; and
    every value it put is in [good].  The execution did not stop for want
    of fuel. *)
Definition follows {A} (shape : list event -> Prop) (good : value -> Prop)
    (o : outcome A) (evs : list event) : Prop :=
  ((exists a, o = Returned a) -> shape evs) /\
  (exists more, shape (evs ++ more)) /\
  (forall q v, In (EvPut q v) evs -> good v) /\
  o <> OutOfFuel.

(** Every value that an execution of [m] puts on a queue is in [good]. *)
Definition puts_only {S A} (good : value -> Prop) (m : M S A) : Prop :=
  forall s w, exists evs,
    log (m s w).2 = log w ++ evs /\
    forall q v, In (EvPut q v) evs -> good v.

(** No execution of [m] takes a queue out of [waiting_queues]. *)
Definition keeps_waiting {S} `{AbstractStoppableEntity.Stoppable S} {A}
    (m : M S A) : Prop :=
  forall s w,
    incl (AbstractStoppableEntity.waiting_queues s)
      (AbstractStoppableEntity.waiting_queues (m s w).1.2).

(** What [run] puts on a queue. *)
Definition put_by_worker (v : value) : Prop :=
  v = error_signal \/ v = hello_signal \/ (exists l, v = VTuple l) \/
  Py.len v = Ok 2.

(** The list comparison inside [value_eqb], by itself. *)
Definition all_eqb : list value -> list value -> bool :=
  fix all_eqb (x y : list value) : bool :=
    match x, y with
    | [], [] => true
    | a' :: x', b' :: y' => value_eqb a' b' && all_eqb x' y'
    | _, _ => false
    end.

(** ** An instance to compute with

    A stand-in for [Utils]: a cipher that keeps the key next to the
    colon-joined plaintext, and decimal [str].  Then one worker of the
    server ["s1"], and worlds given by the content of their queues: the
    concrete inputs on which the examples run the program. *)

Module Demo.

Definition str (v : value) : string :=
  match v with
  | VStr s => s
  | VInt z => pretty z
  | _ => "object"
  end.

Definition encrypt (plain : string) (key : value) : value :=
  VTuple [VStr "sealed"; key; VStr plain].

Definition decrypt (block key : value) : result value :=
  match block with
  | VTuple [VStr "sealed"; key'; VStr plain] =>
      Ok (VStr (if value_eqb key key' then plain else "noise"))
  | _ => Raise TypeError
  end.

Definition prepare_inner_message (key a b c d : value) : result value :=
  Ok (encrypt (str a +:+ ":" +:+ str b +:+ ":" +:+ str c +:+ ":" +:+ str d)
        key).

(** A worker with queues 0 and 1, of the server ["s1"] with key 7, whose
    Trusted Server listens on queue 2 and answers on queue 3. *)
Definition worker : Worker.t :=
  Worker.Build 0 1 [] (VInt 7) (VStr "s1") (Endpoint.Build 2 3)
    VNone VNone VNone VNone VNone VNone VNone VNone VNone.

(** The world in which the given queues hold the given items, every
    generated key is 42, and nothing has happened yet. *)
Definition world_of (content : list (nat * list value)) : world :=
  mkWorld (list_to_map (prod_map id (mkQueue 0) <$> content)) 10
    (fun _ => VInt 42) 0 [] [].

Definition request : value :=
  VTuple [VStr "r"; VStr "c1"; VStr "s1"; VStr "from-c1"].

Definition request_for_s2 : value :=
  VTuple [VStr "r"; VStr "c1"; VStr "s2"; VStr "from-c1"].

Definition reply : value :=
  VTuple [VStr "r"; VStr "for-c1"; encrypt "42:session" (VInt 7)].

(** The worker when it has forwarded [request] on the session queues 4
    and 5, before it waits for the reply. *)
Definition worker_waiting : Worker.t :=
  Worker.Build 0 1 [VQueue 0] (VInt 7) (VStr "s1") (Endpoint.Build 2 3)
    (VQueue 4) (VQueue 5) VNone (VStr "r") (VStr "c1") (VStr "s1")
    VNone VNone (VStr "42").

End Demo.

(** ** More of the program

    [AbstractServer] on its own, the worlds that the allocation of a
    queue and the start of a thread leave, and what a listening server
    has done when it has served a list of requests. *)

(** [AbstractServer(max_connections, invoke_workers)] without a subclass
    (lines 48-79): [get_new_worker] raises [NotImplementedError]. *)
Module Abstract.
Import AbstractEntity AbstractStoppableEntity AbstractServer.

Record t : Type := Build {
  input_queue : nat;
  output_queue : nat;
  waiting_queues : list value;
  max_connections : Z;
  invoke_workers : bool;
  running : bool
}.

Definition set_waiting_queues (x : list value) (s : t) : t :=
  Build (input_queue s) (output_queue s) x (max_connections s)
    (invoke_workers s) (running s).

Definition set_running (x : bool) (s : t) : t :=
  Build (input_queue s) (output_queue s) (waiting_queues s)
    (max_connections s) (invoke_workers s) x.

Definition __init__ {S} (max_connections : Z) (invoke_workers : bool)
    : M S t :=
  _ <- Queue_new 0 ;;
  output_queue <- Queue_new 0 ;;
  input_queue <- Queue_new max_connections ;;
  ret (Build input_queue output_queue [] max_connections invoke_workers
         false).

Definition get_new_worker : M t Worker.t := raise NotImplementedError.

#[global] Instance Abstract_Entity : Entity t :=
  {| AbstractEntity.input_queue := input_queue;
     AbstractEntity.output_queue := output_queue |}.

#[global] Instance Abstract_Stoppable : Stoppable t :=
  {| AbstractStoppableEntity.waiting_queues := waiting_queues;
     AbstractStoppableEntity.set_waiting_queues := set_waiting_queues;
     waiting_queues_set := fun _ _ => eq_refl |}.

#[global] Instance Abstract_Listening : Listening t :=
  {| AbstractServer.running := running;
     AbstractServer.set_running := set_running;
     AbstractServer.invoke_workers := invoke_workers;
     AbstractServer.get_new_worker := get_new_worker |}.

End Abstract.

(** The world after [Queue(size)] and after [worker.start()]. *)
Definition allocated (size : Z) (w : world) : world :=
  mkWorld (<[next_queue w := mkQueue size []]> (queues w))
    (Datatypes.S (next_queue w)) (random_keys w) (random_pos w) (log w)
    (started w).

Definition with_started (worker : Worker.t) (w : world) : world :=
  mkWorld (queues w) (next_queue w) (random_keys w) (random_pos w) (log w)
    (started w ++ [worker]).

Module Served.

(** The worker that the server [s] builds when the next free queue is [n],
    and the pair of queues it hands out for it. *)
Definition worker (s : Server.t) (n : nat) : Worker.t :=
  Worker.Build n (Datatypes.S n) [] (Server.server_key s) (Server.server_id s)
    (Server.trusted_server s) VNone VNone VNone VNone VNone VNone VNone
    VNone VNone.

Definition answer (n : nat) : value :=
  VTuple [VQueue n; VQueue (Datatypes.S n)].

(** The world after [connect()] of the server [s]. *)
Definition connected (s : Server.t) (w : world) : world :=
  let w2 := allocated 0 (allocated 0 w) in
  if Server.invoke_workers s then with_started (worker s (next_queue w)) w2
  else w2.

(** For [k] requests served from the free queue [n] on: the workers, the
    pairs handed out, and the queue operations for the [requests]. *)
Fixpoint workers (s : Server.t) (n k : nat) : list Worker.t :=
  match k with
  | O => []
  | Datatypes.S k' => worker s n :: workers s (Datatypes.S (Datatypes.S n)) k'
  end.

Fixpoint answers (n k : nat) : list value :=
  match k with
  | O => []
  | Datatypes.S k' => answer n :: answers (Datatypes.S (Datatypes.S n)) k'
  end.

Fixpoint turns (own_input own_output n : nat) (requests : list value)
    : list event :=
  match requests with
  | [] => []
  | m :: rest =>
      EvGet own_input m :: EvPut own_output (answer n)
        :: turns own_input own_output (Datatypes.S (Datatypes.S n)) rest
  end.

End Served.

(** An execution of [m] changes a queue only by a [get] or a [put] that
    it logs, creates no queue, starts no thread, and calls
    [generate_random_key] at most [draws] times. *)
Definition event_queue (e : event) : nat :=
  match e with
  | EvGet q _ | EvPut q _ => q
  end.

Definition accounted {S A} (draws : nat) (m : M S A) : Prop :=
  forall s w, exists evs,
    log (m s w).2 = log w ++ evs /\
    (forall q, ~ In q (event_queue <$> evs) ->
               queue_at (m s w).2 q = queue_at w q) /\
    next_queue (m s w).2 = next_queue w /\
    started (m s w).2 = started w /\
    random_keys (m s w).2 = random_keys w /\
    (random_pos w <= random_pos (m s w).2 <= random_pos w + draws)%nat.

(** The world after [k] callers in turn tried [establish_connection] on
    an endpoint that does not answer. *)
Definition knocked {E} `{AbstractEntity.Entity E} (endpoint : E) (k : nat)
    (w : world) : world :=
  Nat.iter k
    (fun w' => (AbstractEntity.establish_connection endpoint tt w').2) w.

(** Servers to compute with: the listening server of ["s1"] with queues 0
    and 1, running and waiting on its input queue, and an abstract server
    with the same queues. *)
Module Scene.

Definition server : Server.t :=
  Server.Build 0 1 [VQueue 0] 5 true true (VStr "s1") (VInt 7)
    (Endpoint.Build 2 3).

Definition abstract_server : Abstract.t :=
  Abstract.Build 0 1 [] 5 true true.

(** The world of [Demo.world_of] in which queue 0 is bounded by 2. *)
Definition crowded (pending : list value) : world :=
  mkWorld {[ 0%nat := mkQueue 2 pending ]} 10 (fun _ => VInt 42) 0 [] [].

End Scene.

(** * Properties *)

(** ** Equality of values *)

Lemma value_nested_ind (P : value -> Prop) :
  P VNone -> (forall z, P (VInt z)) -> (forall s, P (VStr s)) ->
  (forall q, P (VQueue q)) ->
  (forall l, Forall P l -> P (VTuple l)) ->
  (forall l, Forall P l -> P (VList l)) ->
  forall v, P v.
Proof.
  intros HNone HInt HStr HQueue HTuple HList.
  fix IH 1. intros [ | z | s | q | l | l ].
  - exact HNone.
  - exact (HInt z).
  - exact (HStr s).
  - exact (HQueue q).
  - apply HTuple. induction l as [|x l IHl]; constructor; [apply IH|apply IHl].
  - apply HList. induction l as [|x l IHl]; constructor; [apply IH|apply IHl].
Qed.

Lemma all_eqb_eq (x : list value) :
  Forall (fun a => forall b, value_eqb a b = true <-> a = b) x ->
  forall y, all_eqb x y = true <-> x = y.
Proof.
  induction 1 as [|a x Ha _ IH]; intros [|b y]; simpl; try (split; congruence).
  rewrite andb_true_iff, Ha, IH. split; [intros [-> ->]|intros [= -> ->]]; auto.
Qed.

Lemma value_eqb_eq (a b : value) : value_eqb a b = true <-> a = b.
Proof.
  revert b. induction a using value_nested_ind; intros [] ; simpl;
    try (split; congruence).
  - rewrite Z.eqb_eq. split; congruence.
  - rewrite String.eqb_eq. split; congruence.
  - rewrite Nat.eqb_eq. split; congruence.
  - change (all_eqb l l0 = true <-> VTuple l = VTuple l0).
    rewrite (all_eqb_eq l H). split; congruence.
  - change (all_eqb l l0 = true <-> VList l = VList l0).
    rewrite (all_eqb_eq l H). split; congruence.
Qed.

Lemma value_eqb_refl (a : value) : value_eqb a a = true.
Proof. by apply value_eqb_eq. Qed.

Lemma value_eqb_neq (a b : value) : value_eqb a b = false <-> a <> b.
Proof.
  rewrite <- value_eqb_eq. destruct (value_eqb a b); split; congruence.
Qed.

#[local] Arguments value_eqb !a !b /.

(** ** Built-ins *)

Lemma length_chars (s : string) : length (Py.chars s) = String.length s.
Proof. induction s; simpl; congruence. Qed.

Lemma len_elements (v : value) (n : Z) :
  Py.len v = Ok n ->
  exists l, Py.elements v = Ok l /\ Z.of_nat (length l) = n.
Proof.
  destruct v; simpl; intros [= <-]; eexists; split; eauto.
  by rewrite length_chars.
Qed.

Lemma elements_len (v : value) (l : list value) :
  Py.elements v = Ok l -> Py.len v = Ok (Z.of_nat (length l)).
Proof.
  destruct v; simpl; intros [= <-]; auto. by rewrite length_chars.
Qed.

Lemma getitem_elements (v : value) (l : list value) (i : nat) :
  Py.elements v = Ok l ->
  Py.getitem v i = match l !! i with
                   | Some x => Ok x
                   | None => Raise IndexError
                   end.
Proof. intros H. unfold Py.getitem. rewrite H. by destruct v. Qed.

Lemma len_raise (v : value) (e : exn) :
  Py.len v = Raise e ->
  (e = TypeError \/ e = AttributeError) /\ Py.elements v = Raise TypeError.
Proof. destruct v; simpl; intros [= <-]; auto. Qed.

Lemma length_init_string (s : string) :
  String.length (Py.init_string s) = Nat.pred (String.length s).
Proof.
  induction s as [|c s IH]; simpl; auto.
  destruct s; simpl in *; auto.
Qed.

Lemma length_drop_last_list {A} (l : list A) :
  length (removelast l) = Nat.pred (length l).
Proof.
  induction l as [|x l IH]; simpl; auto.
  destruct l; simpl in *; auto.
Qed.

Lemma len_drop_last (v r : value) (n : Z) :
  Py.len v = Ok n -> 0 < n -> Py.drop_last v = Ok r -> Py.len r = Ok (n - 1).
Proof.
  destruct v; simpl; intros [= <-] Hn [= <-]; simpl; f_equal.
  - rewrite length_init_string. lia.
  - rewrite length_drop_last_list. lia.
  - rewrite length_drop_last_list. lia.
Qed.

(** ** Queues *)

Lemma queue_at_set_queue (q q' : nat) (x : Queue) (w : world) :
  queue_at (set_queue q x w) q' = if decide (q = q') then x else queue_at w q'.
Proof.
  unfold queue_at, set_queue; simpl. rewrite lookup_insert.
  by destruct (decide (q = q')).
Qed.

Lemma queue_at_add_log (e : event) (w : world) (q : nat) :
  queue_at (add_log e w) q = queue_at w q.
Proof. reflexivity. Qed.

Lemma queue_at_dequeue (q q' : nat) (v : value) (rest : list value) (w : world) :
  queue_at (dequeue q v rest w) q' =
  if decide (q = q') then mkQueue (maxsize (queue_at w q)) rest
  else queue_at w q'.
Proof. unfold dequeue. by rewrite queue_at_add_log, queue_at_set_queue. Qed.

Lemma queue_at_enqueue (q q' : nat) (v : value) (w : world) :
  queue_at (enqueue q v w) q' =
  if decide (q = q')
  then mkQueue (maxsize (queue_at w q)) (items (queue_at w q) ++ [v])
  else queue_at w q'.
Proof. unfold enqueue. by rewrite queue_at_add_log, queue_at_set_queue. Qed.

Lemma queue_at_drawn (w : world) (q : nat) : queue_at (drawn w) q = queue_at w q.
Proof. reflexivity. Qed.

Lemma maxsize_dequeue (q q' : nat) (v : value) (rest : list value) (w : world) :
  maxsize (queue_at (dequeue q v rest w) q') = maxsize (queue_at w q').
Proof. rewrite queue_at_dequeue. by destruct (decide (q = q')) as [->|]. Qed.

Lemma maxsize_enqueue (q q' : nat) (v : value) (w : world) :
  maxsize (queue_at (enqueue q v w) q') = maxsize (queue_at w q').
Proof. rewrite queue_at_enqueue. by destruct (decide (q = q')) as [->|]. Qed.

Lemma unbounded_not_full (x : Queue) : maxsize x <= 0 -> full x = false.
Proof.
  intros H. unfold full. destruct (0 <? maxsize x) eqn:E; auto.
  apply Z.ltb_lt in E. lia.
Qed.

Lemma log_dequeue (q : nat) (v : value) (rest : list value) (w : world) :
  log (dequeue q v rest w) = log w ++ [EvGet q v].
Proof. reflexivity. Qed.

Lemma log_enqueue (q : nat) (v : value) (w : world) :
  log (enqueue q v w) = log w ++ [EvPut q v].
Proof. reflexivity. Qed.

(** ** The two processing methods of the worker, case by case *)

Section WorkerMethods.
Variable decrypt : value -> value -> result value.
Variable prepare_inner_message :
  value -> value -> value -> value -> value -> result value.
Variable str : value -> string.

Abbreviation from_client :=
  (ServerWorker.process_message_from_client_and_generate_message_to_trusted
     prepare_inner_message str).
Abbreviation from_trusted :=
  (ServerWorker.process_message_from_trusted_and_generate_response_for_client
     decrypt).
Abbreviation run := (ServerWorker.run decrypt prepare_inner_message str).

Ltac unfold_monad :=
  repeat progress
    unfold bind, ret, raise, lift, attr, assign, try_except,
      AbstractEntity.validate_message_length.

Lemma from_client_not_sized (m : value) (e : exn) (s : Worker.t) (w : world) :
  Py.len m = Raise e ->
  from_client m s w = (Raised e, s, w).
Proof.
  intros H. destruct (len_raise _ _ H) as [[->| ->] _];
    unfold
      ServerWorker.process_message_from_client_and_generate_message_to_trusted,
      ServerWorker.unpack_message_from_client;
    unfold_monad; by rewrite H.
Qed.

Lemma from_client_wrong_length (m : value) (n : Z) (s : Worker.t) (w : world) :
  Py.len m = Ok n -> n <> 4 ->
  from_client m s w = (Returned error_signal, s, w).
Proof.
  intros H Hn.
  unfold ServerWorker.process_message_from_client_and_generate_message_to_trusted,
    ServerWorker.unpack_message_from_client.
  unfold_monad. rewrite H. simpl.
  destruct (n =? 4) eqn:E; [apply Z.eqb_eq in E; lia|]. reflexivity.
Qed.

Lemma from_client_other_server (m a b c d : value) (s : Worker.t) (w : world) :
  Py.elements m = Ok [a; b; c; d] -> c <> Worker.server_id s ->
  from_client m s w =
  (Returned error_signal, ServerWorker.unpacked a b c s, w).
Proof.
  intros H Hc. pose proof (elements_len _ _ H) as Hl.
  apply value_eqb_neq in Hc.
  unfold ServerWorker.process_message_from_client_and_generate_message_to_trusted,
    ServerWorker.unpack_message_from_client,
    ServerWorker.validate_server_id_match.
  rewrite !(getitem_elements _ _ _ H).
  unfold_monad. rewrite Hl. simpl. by rewrite Hc.
Qed.

Lemma from_client_accepted (m a b c d : value) (s : Worker.t) (w : world) :
  Py.elements m = Ok [a; b; c; d] -> c = Worker.server_id s ->
  from_client m s w =
  match prepare_inner_message (Worker.server_key s) (VStr (str (next_key w)))
          a b c with
  | Ok block =>
      (Returned (VTuple [a; b; c; d; block]),
       Worker.set_nonce (VStr (str (next_key w)))
         (ServerWorker.unpacked a b c s),
       drawn w)
  | Raise e =>
      (Raised e,
       Worker.set_nonce (VStr (str (next_key w)))
         (ServerWorker.unpacked a b c s),
       drawn w)
  end.
Proof.
  intros H Hc. pose proof (elements_len _ _ H) as Hl.
  apply value_eqb_eq in Hc.
  unfold ServerWorker.process_message_from_client_and_generate_message_to_trusted,
    ServerWorker.unpack_message_from_client,
    ServerWorker.validate_server_id_match,
    ServerWorker.prepare_message_for_trusted_server,
    ServerWorker.prepare_nested_message_for_trusted,
    generate_random_key.
  rewrite !(getitem_elements _ _ _ H).
  unfold_monad. rewrite Hl, H. simpl. rewrite Hc. simpl.
  by destruct (prepare_inner_message _ _ _ _ _).
Qed.

Ltac unfold_from_trusted_methods :=
  unfold ServerWorker.process_message_from_trusted_and_generate_response_for_client,
    ServerWorker.unpack_message_from_trusted,
    ServerWorker.unpack_nested_message_from_trusted,
    ServerWorker.validate_random_value_from_trusted,
    ServerWorker.validate_nested_message_from_trusted.

Ltac unfold_from_trusted := unfold_from_trusted_methods; unfold_monad.

Ltac unfold_from_trusted_on H :=
  unfold_from_trusted_methods; rewrite !(getitem_elements _ _ _ H);
  unfold_monad.

Lemma from_trusted_not_sized (m : value) (e : exn) (s : Worker.t) (w : world) :
  Py.len m = Raise e ->
  from_trusted m s w = (Raised e, s, w).
Proof.
  intros H. destruct (len_raise _ _ H) as [[->| ->] _];
    unfold_from_trusted; by rewrite H.
Qed.

Lemma from_trusted_wrong_length (m : value) (n : Z) (s : Worker.t) (w : world) :
  Py.len m = Ok n -> n <> 3 ->
  from_trusted m s w = (Returned error_signal, s, w).
Proof.
  intros H Hn. unfold_from_trusted. rewrite H. simpl.
  destruct (n =? 3) eqn:E; [apply Z.eqb_eq in E; lia|]. reflexivity.
Qed.

Lemma from_trusted_decrypt_raises (m r bc bs : value) (e : exn)
    (s : Worker.t) (w : world) :
  Py.elements m = Ok [r; bc; bs] ->
  decrypt bs (Worker.server_key s) = Raise e ->
  from_trusted m s w =
  (if existsb (exn_eqb e) [IndexError; InvalidMessage]
   then Returned error_signal else Raised e,
   Worker.set_trusted_random_value r s, w).
Proof.
  intros H Hd. pose proof (elements_len _ _ H) as Hl.
  unfold_from_trusted_on H. rewrite Hl. simpl. rewrite Hd. simpl.
  by destruct e.
Qed.

Lemma from_trusted_wrong_block_length (m r bc bs : value) (plain : string)
    (s : Worker.t) (w : world) :
  Py.elements m = Ok [r; bc; bs] ->
  decrypt bs (Worker.server_key s) = Ok (VStr plain) ->
  length (Py.split ":" plain) <> 2%nat ->
  from_trusted m s w =
  (Returned error_signal, Worker.set_trusted_random_value r s, w).
Proof.
  intros H Hd Hn. pose proof (elements_len _ _ H) as Hl.
  unfold_from_trusted_on H. rewrite Hl. simpl. rewrite Hd. simpl.
  rewrite length_fmap.
  destruct (Z.of_nat (length (Py.split ":" plain)) =? 2) eqn:E;
    [apply Z.eqb_eq in E; lia|]. reflexivity.
Qed.

Lemma from_trusted_two_fields (m r bc bs : value) (plain n k : string)
    (s : Worker.t) (w : world) :
  Py.elements m = Ok [r; bc; bs] ->
  decrypt bs (Worker.server_key s) = Ok (VStr plain) ->
  Py.split ":" plain = [n; k] ->
  from_trusted m s w =
  (if value_eqb r (Worker.client_random_value s)
      && value_eqb (VStr n) (Worker.nonce s)
   then match Py.drop_last m with
        | Ok reply => Returned reply
        | Raise e => Raised e
        end
   else Returned error_signal,
   ServerWorker.received r (VStr n) (VStr k) s, w).
Proof.
  intros H Hd Hf. pose proof (elements_len _ _ H) as Hl.
  unfold_from_trusted_on H. rewrite Hl. simpl. rewrite Hd. simpl.
  rewrite Hf. simpl.
  destruct (value_eqb r (Worker.client_random_value s)); simpl; auto.
  destruct (value_eqb (VStr n) (Worker.nonce s)); simpl; auto.
  by destruct (Py.drop_last m).
Qed.

Lemma from_trusted_not_a_string (m r bc bs plain : value)
    (s : Worker.t) (w : world) :
  Py.elements m = Ok [r; bc; bs] ->
  decrypt bs (Worker.server_key s) = Ok plain ->
  (forall text, plain <> VStr text) ->
  from_trusted m s w =
  (Raised AttributeError, Worker.set_trusted_random_value r s, w).
Proof.
  intros H Hd Hp. pose proof (elements_len _ _ H) as Hl.
  unfold_from_trusted_on H. rewrite Hl. simpl. rewrite Hd. simpl.
  destruct plain; simpl; auto. by destruct (Hp s0).
Qed.

Lemma list_of_length_4 {A} (l : list A) :
  Z.of_nat (length l) = 4 -> exists a b c d, l = [a; b; c; d].
Proof.
  destruct l as [|a [|b [|c [|d [|]]]]]; simpl; try lia. eauto.
Qed.

Lemma list_of_length_3 {A} (l : list A) :
  Z.of_nat (length l) = 3 -> exists a b c, l = [a; b; c].
Proof.
  destruct l as [|a [|b [|c [|]]]]; simpl; try lia. eauto.
Qed.

Lemma list_of_length_2 {A} (l : list A) :
  length l = 2%nat -> exists a b, l = [a; b].
Proof.
  destruct l as [|a [|b [|]]]; simpl; try lia. eauto.
Qed.

(** What the client leg can do, whatever the message. *)
Lemma from_client_summary (m : value) (s s' : Worker.t) (w w' : world)
    (o : outcome value) :
  from_client m s w = (o, s', w') ->
  log w' = log w /\ queues w' = queues w /\
  Worker.wiring s' = Worker.wiring s /\
  match o with
  | Returned v =>
      (v = error_signal /\ w' = w /\ Worker.nonce s' = Worker.nonce s) \/
      exists a b c d block,
        Py.elements m = Ok [a; b; c; d] /\ c = Worker.server_id s /\
        prepare_inner_message (Worker.server_key s)
          (VStr (str (next_key w))) a b c = Ok block /\
        v = VTuple [a; b; c; d; block] /\
        s' = Worker.set_nonce (VStr (str (next_key w)))
               (ServerWorker.unpacked a b c s) /\
        w' = drawn w
  | Raised e => True
  | _ => False
  end.
Proof.
  destruct (Py.len m) as [n|e] eqn:Hlen.
  2:{ rewrite (from_client_not_sized _ _ _ _ Hlen). by intros [= <- <- <-]. }
  destruct (decide (n = 4)) as [->|Hn].
  2:{ rewrite (from_client_wrong_length _ _ _ _ Hlen Hn).
      intros [= <- <- <-]. repeat split; auto. }
  destruct (len_elements _ _ Hlen) as (l & Hl & Hfour).
  destruct (list_of_length_4 _ Hfour) as (a & b & c & d & ->).
  destruct (value_eqb c (Worker.server_id s)) eqn:Hc.
  - apply value_eqb_eq in Hc.
    rewrite (from_client_accepted _ _ _ _ _ _ _ Hl Hc).
    destruct (prepare_inner_message _ _ _ _ _) as [block|e] eqn:Hp;
      intros [= <- <- <-]; repeat split; auto.
    right. exists a, b, c, d, block. repeat split; auto.
  - apply value_eqb_neq in Hc.
    rewrite (from_client_other_server _ _ _ _ _ _ _ Hl Hc).
    intros [= <- <- <-]. repeat split; auto.
Qed.

(** What the Trusted-Server leg can do, whatever the message. *)
Lemma from_trusted_summary (m : value) (s s' : Worker.t) (w w' : world)
    (o : outcome value) :
  from_trusted m s w = (o, s', w') ->
  w' = w /\ Worker.wiring s' = Worker.wiring s /\
  Worker.nonce s' = Worker.nonce s /\
  match o with
  | Returned v =>
      v = error_signal \/
      exists r bc bs plain n k,
        Py.elements m = Ok [r; bc; bs] /\
        decrypt bs (Worker.server_key s) = Ok (VStr plain) /\
        Py.split ":" plain = [n; k] /\
        r = Worker.client_random_value s /\
        VStr n = Worker.nonce s /\
        Py.drop_last m = Ok v /\
        s' = ServerWorker.received r (VStr n) (VStr k) s
  | Raised e => True
  | _ => False
  end.
Proof.
  destruct (Py.len m) as [len|e] eqn:Hlen.
  2:{ rewrite (from_trusted_not_sized _ _ _ _ Hlen). by intros [= <- <- <-]. }
  destruct (decide (len = 3)) as [->|Hn].
  2:{ rewrite (from_trusted_wrong_length _ _ _ _ Hlen Hn).
      intros [= <- <- <-]. repeat split; auto. }
  destruct (len_elements _ _ Hlen) as (l & Hl & Hthree).
  destruct (list_of_length_3 _ Hthree) as (r & bc & bs & ->).
  destruct (decrypt bs (Worker.server_key s)) as [plain|e] eqn:Hd.
  2:{ rewrite (from_trusted_decrypt_raises _ _ _ _ _ _ _ Hl Hd).
      destruct (existsb _ _); intros [= <- <- <-]; repeat split; auto. }
  destruct plain as [ | | text | | | ].
  3:{ destruct (decide (length (Py.split ":" text) = 2%nat)) as [Hf|Hf].
      - destruct (list_of_length_2 _ Hf) as (n & k & Hnk).
        rewrite (from_trusted_two_fields _ _ _ _ _ _ _ _ _ Hl Hd Hnk).
        destruct (value_eqb r _) eqn:Hr; simpl.
        + destruct (value_eqb (VStr n) _) eqn:Hnonce; simpl.
          * apply value_eqb_eq in Hr, Hnonce.
            destruct (Py.drop_last m) as [reply|e] eqn:Hdrop;
              intros [= <- <- <-]; repeat split; auto.
            right. exists r, bc, bs, text, n, k. repeat split; auto.
          * intros [= <- <- <-]. repeat split; auto.
        + intros [= <- <- <-]. repeat split; auto.
      - rewrite (from_trusted_wrong_block_length _ _ _ _ _ _ _ Hl Hd Hf).
        intros [= <- <- <-]. repeat split; auto. }
  all: rewrite (from_trusted_not_a_string _ _ _ _ _ _ _ Hl Hd);
    [by intros [= <- <- <-] | congruence].
Qed.

(** ** Sequencing and the queue primitives *)

Lemma bind_returned {S A B} (m : M S A) (f : A -> M S B) (a : A)
    (s s1 : S) (w w1 : world) :
  m s w = (Returned a, s1, w1) -> bind m f s w = f a s1 w1.
Proof. unfold bind. by intros ->. Qed.

Lemma get_from_queue_returned {S} `{AbstractStoppableEntity.Stoppable S}
    (q : nat) (v : value) (rest : list value) (s : S) (w : world) :
  items (queue_at w q) = v :: rest ->
  AbstractStoppableEntity.get_from_queue (VQueue q) s w =
  (Returned v, AbstractStoppableEntity.remember (VQueue q) s,
   dequeue q v rest w).
Proof.
  intros Hq. unfold AbstractStoppableEntity.get_from_queue, queue_get.
  unfold_monad. by rewrite Hq.
Qed.

Lemma queue_put_returned {S} (q : nat) (v : value) (s : S) (w : world) :
  full (queue_at w q) = false ->
  queue_put (VQueue q) v s w = (Returned tt, s, enqueue q v w).
Proof. intros Hq. unfold queue_put. by rewrite Hq. Qed.

Lemma is_message_error_spec (v : value) :
  AbstractEntity.is_message_error v = true <-> v = error_signal.
Proof.
  unfold AbstractEntity.is_message_error. rewrite value_eqb_eq.
  split; congruence.
Qed.

Lemma run_rejects (m : value) (rest : list value) (s s1 : Worker.t)
    (w : world) :
  items (queue_at w (Worker.input_queue s)) = m :: rest ->
  from_client m
    (AbstractStoppableEntity.remember (VQueue (Worker.input_queue s)) s)
    (dequeue (Worker.input_queue s) m rest w) =
  (Returned error_signal, s1, dequeue (Worker.input_queue s) m rest w) ->
  Worker.output_queue s1 = Worker.output_queue s ->
  maxsize (queue_at w (Worker.output_queue s)) <= 0 ->
  run s w =
  (Returned tt, s1,
   enqueue (Worker.output_queue s) error_signal
     (dequeue (Worker.input_queue s) m rest w)).
Proof.
  intros Hin Hc Hout Hroom. unfold ServerWorker.run.
  unfold attr at 1. unfold bind at 1.
  rewrite (bind_returned _ _ _ _ _ _ _ (get_from_queue_returned _ _ _ _ _ Hin)).
  rewrite (bind_returned _ _ _ _ _ _ _ Hc).
  change (AbstractEntity.is_message_error error_signal) with true.
  unfold attr, bind. rewrite Hout. apply queue_put_returned.
  apply unbounded_not_full. by rewrite maxsize_dequeue.
Qed.

Lemma remember_worker (queue : value) (s : Worker.t) :
  exists l,
    AbstractStoppableEntity.remember queue s = Worker.set_waiting_queues l s.
Proof.
  unfold AbstractStoppableEntity.remember. destruct (negb _).
  - eexists. reflexivity.
  - exists (Worker.waiting_queues s). by destruct s.
Qed.

(** ** What the two legs answer *)

(** C1. A 4-field client message whose third field is not the worker's own
    [server_id]: [run] takes the message, puts [ERROR] on its output
    queue and returns.  These two are its only queue operations, the
    attributes for the session queues of the Trusted Server are not
    assigned, no nonce is drawn, and every queue but the worker's own two
    is left as it was. *)
Theorem run_other_server_id_error_without_trusted_contact
    (s : Worker.t) (w : world) (m a b c d : value) (rest : list value) :
  items (queue_at w (Worker.input_queue s)) = m :: rest ->
  Py.elements m = Ok [a; b; c; d] ->
  c <> Worker.server_id s ->
  maxsize (queue_at w (Worker.output_queue s)) <= 0 ->
  exists s' w',
    run s w = (Returned tt, s', w') /\
    log w' = log w ++ [EvGet (Worker.input_queue s) m;
                       EvPut (Worker.output_queue s) error_signal] /\
    Worker.trusted_server_input_queue s' =
      Worker.trusted_server_input_queue s /\
    Worker.trusted_server_output_queue s' =
      Worker.trusted_server_output_queue s /\
    Worker.nonce s' = Worker.nonce s /\
    random_pos w' = random_pos w /\
    (forall q, q <> Worker.input_queue s -> q <> Worker.output_queue s ->
               queue_at w' q = queue_at w q).
Proof.
  intros Hin Hm Hc Hroom.
  destruct (remember_worker (VQueue (Worker.input_queue s)) s) as [l Hl].
  exists (ServerWorker.unpacked a b c
            (AbstractStoppableEntity.remember
               (VQueue (Worker.input_queue s)) s)),
    (enqueue (Worker.output_queue s) error_signal
       (dequeue (Worker.input_queue s) m rest w)).
  split.
  - apply run_rejects; auto.
    + apply (from_client_other_server _ _ _ _ d); auto. by rewrite Hl.
    + by rewrite Hl.
  - rewrite Hl. repeat split; auto.
    + rewrite log_enqueue, log_dequeue, <- app_assoc. reflexivity.
    + intros q Hq1 Hq2. rewrite queue_at_enqueue.
      destruct (decide (Worker.output_queue s = q)); [congruence|].
      rewrite queue_at_dequeue.
      destruct (decide (Worker.input_queue s = q)); congruence.
Qed.

(** C2. The Trusted Server's 3-field reply whose third field decrypts,
    under the worker's [server_key], to a string: when splitting it on
    [':'] does not give exactly 2 fields, or the first of them is not the
    worker's [nonce], the method returns [ERROR]. *)
Theorem from_trusted_bad_block_or_nonce_is_error
    (s : Worker.t) (w : world) (m r bc bs : value) (plain : string) :
  Py.elements m = Ok [r; bc; bs] ->
  decrypt bs (Worker.server_key s) = Ok (VStr plain) ->
  length (Py.split ":" plain) <> 2%nat \/
  VStr <$> head (Py.split ":" plain) <> Some (Worker.nonce s) ->
  exists s', from_trusted m s w = (Returned error_signal, s', w).
Proof.
  intros Hm Hd Hbad.
  destruct (decide (length (Py.split ":" plain) = 2%nat)) as [Hlen|Hlen].
  - destruct Hbad as [Hbad|Hbad]; [done|].
    destruct (list_of_length_2 _ Hlen) as (n & k & Hnk).
    rewrite (from_trusted_two_fields _ _ _ _ _ _ _ _ _ Hm Hd Hnk).
    rewrite Hnk in Hbad. simpl in Hbad.
    assert (value_eqb (VStr n) (Worker.nonce s) = false) as ->
      by (apply value_eqb_neq; congruence).
    rewrite andb_false_r. eauto.
  - rewrite (from_trusted_wrong_block_length _ _ _ _ _ _ _ Hm Hd Hlen). eauto.
Qed.

Lemma run_reply_rejects (m : value) (rest : list value) (s s1 : Worker.t)
    (w : world) (q : nat) :
  Worker.trusted_server_output_queue s = VQueue q ->
  items (queue_at w q) = m :: rest ->
  from_trusted m (AbstractStoppableEntity.remember (VQueue q) s)
    (dequeue q m rest w) =
  (Returned error_signal, s1, dequeue q m rest w) ->
  Worker.output_queue s1 = Worker.output_queue s ->
  maxsize (queue_at w (Worker.output_queue s)) <= 0 ->
  ServerWorker.run_reply decrypt s w =
  (Returned tt, s1,
   enqueue (Worker.output_queue s) error_signal (dequeue q m rest w)).
Proof.
  intros Hq Hitems Hleg Hout Hroom. unfold ServerWorker.run_reply.
  unfold attr at 1. unfold bind at 1. rewrite Hq.
  rewrite (bind_returned _ _ _ _ _ _ _
             (get_from_queue_returned _ _ _ _ _ Hitems)).
  rewrite (bind_returned _ _ _ _ _ _ _ Hleg).
  unfold attr, bind. rewrite Hout. apply queue_put_returned.
  apply unbounded_not_full. by rewrite maxsize_dequeue.
Qed.

(** C3. A message whose length is not the arity of its leg.  On the client
    leg (4) and on the Trusted-Server leg (3) the method returns [ERROR]
    and has changed neither an attribute nor the world: nothing was
    unpacked and no nonce was drawn.  For the decrypted block (2) it
    returns [ERROR] with only [trusted_random_value] assigned: the echoed
    nonce and the session key were not stored.  In [run], such a client
    message is answered by [ERROR] with no operation on a queue of the
    Trusted Server, and such a reply by [ERROR] in place of an answer. *)
Theorem wrong_arity_is_error_and_stops (s : Worker.t) (w : world) :
  (forall m n, Py.len m = Ok n -> n <> 4 ->
     from_client m s w = (Returned error_signal, s, w)) /\
  (forall m n, Py.len m = Ok n -> n <> 3 ->
     from_trusted m s w = (Returned error_signal, s, w)) /\
  (forall m r bc bs plain,
     Py.elements m = Ok [r; bc; bs] ->
     decrypt bs (Worker.server_key s) = Ok (VStr plain) ->
     length (Py.split ":" plain) <> 2%nat ->
     from_trusted m s w =
     (Returned error_signal, Worker.set_trusted_random_value r s, w)) /\
  (forall m n rest,
     items (queue_at w (Worker.input_queue s)) = m :: rest ->
     Py.len m = Ok n -> n <> 4 ->
     maxsize (queue_at w (Worker.output_queue s)) <= 0 ->
     run s w =
     (Returned tt,
      AbstractStoppableEntity.remember (VQueue (Worker.input_queue s)) s,
      enqueue (Worker.output_queue s) error_signal
        (dequeue (Worker.input_queue s) m rest w))) /\
  (forall q m n rest,
     Worker.trusted_server_output_queue s = VQueue q ->
     items (queue_at w q) = m :: rest ->
     Py.len m = Ok n -> n <> 3 ->
     maxsize (queue_at w (Worker.output_queue s)) <= 0 ->
     ServerWorker.run_reply decrypt s w =
     (Returned tt, AbstractStoppableEntity.remember (VQueue q) s,
      enqueue (Worker.output_queue s) error_signal (dequeue q m rest w))).
Proof.
  split; [|split; [|split; [|split]]].
  - intros m n. apply from_client_wrong_length.
  - intros m n. apply from_trusted_wrong_length.
  - intros m r bc bs plain. apply from_trusted_wrong_block_length.
  - intros m n rest Hin Hlen Hn Hroom.
    destruct (remember_worker (VQueue (Worker.input_queue s)) s) as [l Hl].
    apply run_rejects; auto.
    + by apply (from_client_wrong_length _ n).
    + by rewrite Hl.
  - intros q m n rest Hq Hin Hlen Hn Hroom.
    destruct (remember_worker (VQueue q) s) as [l Hl].
    apply run_reply_rejects; auto.
    + by apply (from_trusted_wrong_length _ n).
    + by rewrite Hl.
Qed.

(** C10, as amended.  The echoed random value.  [decrypt] runs on the
    third field of a 3-field reply before the first field is compared
    with the [client_random_value] taken from the client's message.  So
    for a reply whose first field is not that value: when [decrypt]
    gives a string, or raises [IndexError] or [InvalidMessage], the
    method returns [ERROR]; when it gives something that is not a string
    ([split] raises [AttributeError]) or raises anything else, that
    exception leaves the method and nothing is returned.  And whatever
    the reply, the method returns something else than [ERROR] only if the
    reply's first field equals [client_random_value]. *)
Theorem from_trusted_random_value_mismatch_is_error
    (s : Worker.t) (w : world) (m : value) :
  (forall r bc bs,
     Py.elements m = Ok [r; bc; bs] ->
     r <> Worker.client_random_value s ->
     match decrypt bs (Worker.server_key s) with
     | Ok (VStr plain) =>
         exists s', from_trusted m s w = (Returned error_signal, s', w)
     | Ok _ =>
         from_trusted m s w =
         (Raised AttributeError, Worker.set_trusted_random_value r s, w)
     | Raise e =>
         from_trusted m s w =
         (if existsb (exn_eqb e) [IndexError; InvalidMessage]
          then Returned error_signal else Raised e,
          Worker.set_trusted_random_value r s, w)
     end) /\
  (forall v s' w',
     from_trusted m s w = (Returned v, s', w') ->
     v <> error_signal ->
     Py.getitem m 0 = Ok (Worker.client_random_value s)).
Proof.
  split.
  - intros r bc bs Hm Hr.
    destruct (decrypt bs (Worker.server_key s)) as [plain|e] eqn:Hd.
    2:{ by apply (from_trusted_decrypt_raises _ r bc bs). }
    destruct plain as [ | |plain| | | ];
      try (apply (from_trusted_not_a_string _ r bc bs _ _ _ Hm Hd);
           intros text; discriminate).
    destruct (decide (length (Py.split ":" plain) = 2%nat)) as [Hlen|Hlen].
    + destruct (list_of_length_2 _ Hlen) as (n & k & Hnk).
      rewrite (from_trusted_two_fields _ _ _ _ _ _ _ _ _ Hm Hd Hnk).
      apply value_eqb_neq in Hr. rewrite Hr. simpl. eauto.
    + rewrite (from_trusted_wrong_block_length _ _ _ _ _ _ _ Hm Hd Hlen).
      eauto.
  - intros v s' w' Hrun Hv.
    destruct (from_trusted_summary _ _ _ _ _ _ Hrun) as (_ & _ & _ & Hcase).
    destruct Hcase as [->|(r & bc & bs & plain & n & k & Hm & _ & _ & Hr & _)];
      [done|].
    rewrite (getitem_elements _ _ _ Hm). simpl. by rewrite Hr.
Qed.

(** ** The queue operations of [run] *)

Abbreviation run_reply := (ServerWorker.run_reply decrypt).
Abbreviation run_exchange := (ServerWorker.run_exchange decrypt).

Lemma run_in_parts_eq (s : Worker.t) (w : world) :
  run s w = ServerWorker.run_in_parts decrypt prepare_inner_message str s w.
Proof. reflexivity. Qed.

Lemma follows_returned {A} (shape : list event -> Prop)
    (good : value -> Prop) (a : A) (evs : list event) :
  shape evs -> (forall q v, In (EvPut q v) evs -> good v) ->
  follows shape good (Returned a) evs.
Proof.
  intros Hs Hg. repeat split; auto.
  exists []. by rewrite app_nil_r.
Qed.

Lemma follows_stopped {A} (shape : list event -> Prop)
    (good : value -> Prop) (o : outcome A) (evs more : list event) :
  (forall a, o <> Returned a) -> o <> OutOfFuel ->
  shape (evs ++ more) -> (forall q v, In (EvPut q v) evs -> good v) ->
  follows shape good o evs.
Proof.
  intros Ho Hf Hs Hg. split; [|split; [|split]]; auto.
  - intros [a ->]. by destruct (Ho a).
  - by exists more.
Qed.

Lemma run_reply_events (s s' : Worker.t) (w w' : world) (o : outcome unit) :
  run_reply s w = (o, s', w') ->
  Worker.nonce s' = Worker.nonce s /\
  exists evs, log w' = log w ++ evs /\
    follows (ServerWorker.reply_shape s) put_by_worker o evs.
Proof.
  unfold ServerWorker.run_reply, AbstractStoppableEntity.get_from_queue.
  unfold attr at 1. unfold bind at 1. unfold assign at 1.
  unfold bind at 1. unfold bind at 1. unfold queue_get at 1.
  destruct (remember_worker (Worker.trusted_server_output_queue s) s)
    as [l Hl].
  rewrite Hl. set (s0 := Worker.set_waiting_queues l s).
  destruct (Worker.trusted_server_output_queue s) as [ | | |qo| | ] eqn:Hq.
  4:{ destruct (items (queue_at w qo)) as [|reply rest] eqn:Hitems.
      - intros [= <- <- <-]. split; [done|].
        exists []. rewrite app_nil_r. split; auto.
        apply (follows_stopped _ _ _ _
                 [EvGet qo VNone; EvPut (Worker.output_queue s) VNone]);
          try done.
        by exists qo, VNone, VNone.
      - unfold bind at 1.
        destruct (from_trusted reply s0 _) as [[o1 s1] w1] eqn:Hp.
        destruct (from_trusted_summary _ _ _ _ _ _ Hp) as (-> & Hw & Hn & Ho).
        assert (Worker.output_queue s1 = Worker.output_queue s) as Hout
          by (injection Hw; auto).
        destruct o1 as [final|e| |]; try done.
        + unfold attr, bind, queue_put. rewrite Hout.
          destruct (full _).
          * intros [= <- <- <-]. split; [done|]. exists [EvGet qo reply].
            rewrite log_dequeue. split; auto.
            apply (follows_stopped _ _ _ _
                     [EvPut (Worker.output_queue s) VNone]); try done.
            -- by exists qo, reply, VNone.
            -- by intros q v [|[]].
          * intros [= <- <- <-]. split; [done|].
            exists [EvGet qo reply; EvPut (Worker.output_queue s) final].
            rewrite log_enqueue, log_dequeue, <- app_assoc. split; auto.
            apply follows_returned.
            -- by exists qo, reply, final.
            -- intros q v [|[[= <- <-]|[]]]; [done|].
               destruct Ho as [->|(r & bc & bs & _ & _ & _ & Hm & _ & _ & _ &
                                   _ & Hdrop & _)]; [by left|].
               right; right; right.
               apply (len_drop_last reply _ 3); [|lia|done].
               apply (elements_len _ _ Hm).
        + intros [= <- <- <-]. split; [done|]. exists [EvGet qo reply].
          rewrite log_dequeue. split; auto.
          apply (follows_stopped _ _ _ _
                   [EvPut (Worker.output_queue s) VNone]); try done.
          -- by exists qo, reply, VNone.
          -- by intros q v [|[]]. }
  all: intros [= <- <- <-]; (split; [done|]); exists []; rewrite app_nil_r;
    split; auto;
    apply (follows_stopped _ _ _ _
             [EvGet 0%nat VNone; EvPut (Worker.output_queue s) VNone]);
    try done;
    by exists 0%nat, VNone, VNone.
Qed.

Lemma follows_after {A} (shape tail_shape : list event -> Prop)
    (good : value -> Prop) (o : outcome A) (before evs : list event) :
  follows tail_shape good o evs ->
  (forall tail, tail_shape tail -> shape (before ++ tail)) ->
  (forall q v, In (EvPut q v) before -> good v) ->
  follows shape good o (before ++ evs).
Proof.
  intros (Hret & (more & Hmore) & Hgood & Hfuel) Hshape Hbefore.
  split; [|split; [|split]]; auto.
  - exists more. rewrite <- app_assoc. auto.
  - intros q v [Hin|Hin]%in_app_or; eauto.
Qed.

Lemma reply_shape_any (s : Worker.t) :
  ServerWorker.reply_shape s
    [EvGet 0%nat VNone; EvPut (Worker.output_queue s) VNone].
Proof. by exists 0%nat, VNone, VNone. Qed.

Lemma run_exchange_events (message : value) (s s' : Worker.t) (w w' : world)
    (o : outcome unit) :
  (exists l, message = VTuple l) ->
  run_exchange message s w = (o, s', w') ->
  Worker.nonce s' = Worker.nonce s /\
  exists evs, log w' = log w ++ evs /\
    follows (ServerWorker.exchange_shape s) put_by_worker o evs.
Proof.
  intros Hmessage.
  unfold ServerWorker.run_exchange, ServerWorker.connect_to_trusted,
    AbstractEntity.establish_connection.
  unfold attr at 1. repeat (unfold bind at 1). unfold queue_put at 1.
  set (to_server := Endpoint.input_queue (Worker.trusted_server s)).
  set (from_server := Endpoint.output_queue (Worker.trusted_server s)).
  assert (forall handshake to_trusted,
            ServerWorker.exchange_shape s
              ([EvPut to_server hello_signal; EvGet from_server handshake;
                EvPut to_trusted message] ++
               [EvGet 0%nat VNone; EvPut (Worker.output_queue s) VNone]))
    as Hany.
  { intros handshake to_trusted. eexists _, _, _, _.
    split; [apply reply_shape_any|reflexivity]. }
  simpl AbstractEntity.input_queue. simpl AbstractEntity.output_queue.
  fold to_server from_server.
  destruct (full (queue_at w to_server)).
  { intros [= <- <- <-]. split; [done|]. exists []. rewrite app_nil_r.
    split; auto.
    eapply follows_stopped; try done. apply (Hany VNone 0%nat). }
  unfold queue_get at 1.
  destruct (items (queue_at (enqueue to_server hello_signal w) from_server))
    as [|handshake rest] eqn:Hitems.
  { intros [= <- <- <-]. split; [done|].
    exists [EvPut to_server hello_signal]. rewrite log_enqueue. split; auto.
    eapply follows_stopped; try done.
    - apply (Hany VNone 0%nat).
    - intros q v [[= <- <-]|[]]. right. by left. }
  unfold lift at 1.
  destruct (Py.unpack2 handshake) as [[to_trusted from_trusted]|e].
  2:{ intros [= <- <- <-]. split; [done|].
      exists [EvPut to_server hello_signal; EvGet from_server handshake].
      rewrite log_dequeue, log_enqueue, <- app_assoc. split; auto.
      eapply follows_stopped; try done.
      - apply (Hany handshake 0%nat).
      - intros q v [[= <- <-]|[|[]]]; [|done]. right. by left. }
  unfold ret, assign, attr, queue_put at 1. simpl fst. simpl snd.
  simpl Worker.trusted_server_input_queue.
  set (s2 := Worker.set_trusted_server_output_queue _ _).
  set (w2 := dequeue from_server _ _ _).
  assert (log w2 = log w ++
            [EvPut to_server hello_signal; EvGet from_server handshake])
    as Hlog2.
  { subst w2. by rewrite log_dequeue, log_enqueue, <- app_assoc. }
  destruct to_trusted as [ | | |qi| | ].
  4:{ destruct (full (queue_at w2 qi)).
      - intros [= <- <- <-]. split; [done|].
        eexists. split; [exact Hlog2|].
        eapply follows_stopped; try done.
        + apply (Hany handshake 0%nat).
        + intros q v [[= <- <-]|[|[]]]; [|done]. right. by left.
      - intros Hreply. apply run_reply_events in Hreply.
        destruct Hreply as (Hnonce & evs & Hlog & Hfollows).
        split; [done|].
        exists ([EvPut to_server hello_signal; EvGet from_server handshake;
                 EvPut qi message] ++ evs).
        split.
        + rewrite Hlog, log_enqueue, Hlog2, <- !app_assoc. reflexivity.
        + eapply follows_after; [exact Hfollows| |].
          * intros tail Htail. by eexists _, _, _, tail.
          * intros q v [[= <- <-]|[|[[= <- <-]|[]]]]; try done.
            -- right. by left.
            -- right. right. by left. }
  all: intros [= <- <- <-]; (split; [done|]);
    eexists; (split; [exact Hlog2|]);
    eapply follows_stopped; try done;
    [apply (Hany handshake 0%nat)
    |intros q v [[= <- <-]|[|[]]]; [|done]; right; by left].
Qed.

(** Every execution of [run]: its queue operations are those of one
    single run, or the beginning of them; it stores no nonce but the one
    the client leg drew. *)
Lemma run_events (s s' : Worker.t) (w w' : world) (o : outcome unit) :
  run s w = (o, s', w') ->
  exists evs, log w' = log w ++ evs /\
    follows (ServerWorker.single_run s) put_by_worker o evs.
Proof.
  rewrite run_in_parts_eq.
  unfold ServerWorker.run_in_parts, AbstractStoppableEntity.get_from_queue.
  unfold attr at 1. repeat (unfold bind at 1). unfold assign at 1.
  unfold queue_get at 1.
  destruct (remember_worker (VQueue (Worker.input_queue s)) s) as [l Hl].
  rewrite Hl. set (s0 := Worker.set_waiting_queues l s).
  assert (forall message,
            ServerWorker.single_run s
              [EvGet (Worker.input_queue s) message;
               EvPut (Worker.output_queue s) error_signal]) as Hany.
  { intros message. exists message. by left. }
  destruct (items (queue_at w (Worker.input_queue s)))
    as [|message rest] eqn:Hitems.
  { intros [= <- <- <-]. exists []. rewrite app_nil_r. split; auto.
    eapply follows_stopped; try done. simpl. apply (Hany VNone). }
  destruct (from_client message s0 _) as [[o1 s1] w1] eqn:Hp.
  destruct (from_client_summary _ _ _ _ _ _ Hp) as (Hlog1 & _ & Hw & Ho).
  assert (Worker.output_queue s1 = Worker.output_queue s /\
          Worker.trusted_server s1 = Worker.trusted_server s) as [Hout Hts]
    by (injection Hw; auto).
  rewrite log_dequeue in Hlog1.
  destruct o1 as [to_trusted|e| |]; try done.
  2:{ intros [= <- <- <-]. eexists. split; [exact Hlog1|].
      eapply follows_stopped; try done.
      - simpl. apply (Hany message).
      - by intros q v [|[]]. }
  destruct (AbstractEntity.is_message_error to_trusted) eqn:Herror.
  - unfold attr, bind, queue_put. rewrite Hout.
    destruct (full _).
    + intros [= <- <- <-]. eexists. split; [exact Hlog1|].
      eapply follows_stopped; try done.
      * simpl. apply (Hany message).
      * by intros q v [|[]].
    + intros [= <- <- <-].
      exists ([EvGet (Worker.input_queue s) message] ++
              [EvPut (Worker.output_queue s) error_signal]).
      split.
      * by rewrite log_enqueue, Hlog1, <- app_assoc.
      * apply follows_returned; [apply Hany|].
        intros q v [|[[= <- <-]|[]]]; [done|]. by left.
  - intros Hexchange.
    assert (exists fields, to_trusted = VTuple fields) as Htuple.
    { destruct Ho as [(-> & _)|(a & b & c & d & block & _ & _ & _ & -> & _)].
      - by rewrite (proj2 (is_message_error_spec _)) in Herror.
      - eauto. }
    apply (run_exchange_events _ _ _ _ _ _ Htuple) in Hexchange.
    destruct Hexchange as (_ & evs & Hlog & Hfollows).
    exists ([EvGet (Worker.input_queue s) message] ++ evs). split.
    + by rewrite Hlog, Hlog1, <- app_assoc.
    + eapply follows_after; [exact Hfollows| |].
      * intros tail (h & qi & msg & tl & (qo & reply & final & ->) & ->).
        exists message. right. exists h, qi, msg, qo, reply, final.
        by rewrite Hout, Hts.
      * by intros q v [|[]].
Qed.

End WorkerMethods.

(** ** What is put on queues *)

Section PutsOnly.
Context {S : Type} (good : value -> Prop).

Lemma puts_only_silent {A} (m : M S A) :
  (forall s w, log (m s w).2 = log w) -> puts_only good m.
Proof.
  intros Hm s w. exists []. rewrite app_nil_r. split; [apply Hm|done].
Qed.

Lemma puts_only_bind {A B} (m : M S A) (f : A -> M S B) :
  puts_only good m -> (forall a, puts_only good (f a)) ->
  puts_only good (bind m f).
Proof.
  intros Hm Hf s w. unfold bind.
  destruct (Hm s w) as (evs & Hlog & Hgood).
  destruct (m s w) as [[[a|e| |] s1] w1]; simpl in *; eauto.
  destruct (Hf a s1 w1) as (evs' & Hlog' & Hgood').
  exists (evs ++ evs'). rewrite Hlog', Hlog, app_assoc. split; auto.
  intros q v [Hin|Hin]%in_app_or; eauto.
Qed.

Lemma puts_only_ret {A} (a : A) : puts_only good (ret a : M S A).
Proof. by apply puts_only_silent. Qed.

Lemma puts_only_attr {A} (f : S -> A) : puts_only good (attr f).
Proof. by apply puts_only_silent. Qed.

Lemma puts_only_assign (f : S -> S) : puts_only good (assign f).
Proof. by apply puts_only_silent. Qed.

Lemma puts_only_out_of_fuel {A} : puts_only good (out_of_fuel : M S A).
Proof. by apply puts_only_silent. Qed.

Lemma puts_only_queue_new (size : Z) : puts_only good (Queue_new size : M S nat).
Proof. by apply puts_only_silent. Qed.

Lemma puts_only_thread_start (worker : Worker.t) :
  puts_only good (Thread_start worker : M S unit).
Proof. by apply puts_only_silent. Qed.

Lemma puts_only_queue_get (queue : value) :
  puts_only good (queue_get queue : M S value).
Proof.
  intros s w. unfold queue_get.
  destruct queue as [ | | |q| | ]; try (exists []; by rewrite app_nil_r).
  destruct (items (queue_at w q)) as [|v rest].
  - exists []. by rewrite app_nil_r.
  - exists [EvGet q v]. simpl. split; [done|]. by intros q' v' [|[]].
Qed.

Lemma puts_only_queue_put (queue v : value) :
  good v -> puts_only good (queue_put queue v : M S unit).
Proof.
  intros Hv s w. unfold queue_put.
  destruct queue as [ | | |q| | ]; try (exists []; by rewrite app_nil_r).
  destruct (full (queue_at w q)).
  - exists []. by rewrite app_nil_r.
  - exists [EvPut q v]. simpl. split; [done|].
    by intros q' v' [[= <- <-]|[]].
Qed.

Lemma puts_only_bind_returned {A B} (P : A -> Prop) (m : M S A)
    (f : A -> M S B) :
  puts_only good m ->
  (forall s w a, (m s w).1.1 = Returned a -> P a) ->
  (forall a, P a -> puts_only good (f a)) ->
  puts_only good (bind m f).
Proof.
  intros Hm HP Hf s w. unfold bind.
  destruct (Hm s w) as (evs & Hlog & Hgood). specialize (HP s w).
  destruct (m s w) as [[[a|e| |] s1] w1]; simpl in *; eauto.
  destruct (Hf a (HP a eq_refl) s1 w1) as (evs' & Hlog' & Hgood').
  exists (evs ++ evs'). rewrite Hlog', Hlog, app_assoc. split; auto.
  intros q v [Hin|Hin]%in_app_or; eauto.
Qed.

End PutsOnly.

Create HintDb puts.

#[local] Hint Resolve puts_only_ret puts_only_attr puts_only_assign
  puts_only_out_of_fuel puts_only_queue_new puts_only_thread_start
  puts_only_queue_get : puts.

Section EntityPuts.
Import AbstractEntity AbstractStoppableEntity AbstractServer.
Variable good : value -> Prop.

Lemma puts_only_establish_connection {S E} `{Entity E} (endpoint : E) :
  good hello_signal ->
  puts_only good (establish_connection endpoint : M S value).
Proof.
  intros Hgood. unfold establish_connection.
  apply puts_only_bind; [by apply puts_only_queue_put|].
  intros _. apply puts_only_queue_get.
Qed.

Lemma puts_only_get_from_queue {S} `{Stoppable S} (queue : value) :
  puts_only good (get_from_queue queue : M S value).
Proof.
  unfold get_from_queue.
  apply puts_only_bind; auto with puts.
Qed.

Lemma puts_only_put_each {S} `{Stoppable S} (qs : list value) (v : value) :
  good v -> puts_only good (put_each qs v : M S unit).
Proof.
  intros Hv. induction qs as [|q qs IH]; simpl; auto with puts.
  apply puts_only_bind; [by apply puts_only_queue_put|auto].
Qed.

Lemma puts_only_finish {S} `{Stoppable S} :
  good finish_signal -> puts_only good (finish : M S unit).
Proof.
  intros Hv. unfold finish.
  apply puts_only_bind; auto with puts.
  intros qs. by apply puts_only_put_each.
Qed.

Lemma connect_returns_a_tuple {S} `{Listening S} (s : S) (w : world)
    (a : value) :
  (connect s w).1.1 = Returned a -> exists l, a = VTuple l.
Proof.
  unfold connect, start_worker, bind, attr, Thread_start, ret.
  destruct (get_new_worker s w) as [[[worker|e| |] s1] w1]; simpl; try done.
  destruct (invoke_workers s1); simpl; intros [= <-]; eauto.
Qed.

Lemma puts_only_connect {S} `{Listening S} :
  puts_only good (get_new_worker : M S Worker.t) ->
  puts_only good (connect : M S value).
Proof.
  intros Hnew. unfold connect. apply puts_only_bind; auto.
  intros worker. apply puts_only_bind; auto with puts.
  unfold start_worker. apply puts_only_bind; auto with puts.
  intros []; auto with puts.
Qed.

Lemma puts_only_get_new_worker :
  puts_only good (Server.get_new_worker : M Server.t Worker.t).
Proof.
  unfold Server.get_new_worker, ServerWorker.__init__.
  repeat (apply puts_only_bind; auto with puts; intros ?).
Qed.

Lemma puts_only_run_body {S} `{Listening S} :
  (forall l, good (VTuple l)) ->
  puts_only good (get_new_worker : M S Worker.t) ->
  puts_only good (run_body : M S unit).
Proof.
  intros Hgood Hnew. unfold run_body.
  apply puts_only_bind; auto with puts. intros own_input.
  apply puts_only_bind; [apply puts_only_get_from_queue|]. intros message.
  destruct (is_finish_signal message); auto with puts.
  apply (puts_only_bind_returned _ (fun a => exists l, a = VTuple l)).
  - by apply puts_only_connect.
  - apply @connect_returns_a_tuple.
  - intros pair [l ->]. apply puts_only_bind; auto with puts.
    intros own_output. by apply puts_only_queue_put.
Qed.

Lemma puts_only_run_loop {S} `{Listening S} (fuel : nat) :
  (forall l, good (VTuple l)) ->
  puts_only good (get_new_worker : M S Worker.t) ->
  puts_only good (run_loop fuel : M S unit).
Proof.
  intros Hgood Hnew. induction fuel as [|fuel IH]; simpl.
  - apply puts_only_bind; auto with puts. intros []; auto with puts.
  - apply puts_only_bind; auto with puts. intros []; auto with puts.
    apply puts_only_bind; [|auto]. by apply puts_only_run_body.
Qed.

Lemma puts_only_server_run (fuel : nat) :
  (forall l, good (VTuple l)) ->
  puts_only good (AbstractServer.run fuel : M Server.t unit).
Proof.
  intros Hgood. unfold AbstractServer.run.
  apply puts_only_bind; auto with puts. intros _.
  apply puts_only_run_loop; auto. apply puts_only_get_new_worker.
Qed.

End EntityPuts.

(** C9. [MAX_CONNECTIONS_REACHED] is a constant of the program, and no
    operation ever writes it to a queue: not the worker's [run], not the
    server's [run] however many turns its loop takes, not the handshake,
    not [finish], not [connect], not [get_from_queue]. *)
Theorem max_connections_signal_is_never_put
    (decrypt : value -> value -> result value)
    (prepare_inner_message :
       value -> value -> value -> value -> value -> result value)
    (str : value -> string) :
  max_connections_signal = VStr "MAX_CONNECTIONS_REACHED" /\
  puts_only (fun v => v <> max_connections_signal)
    (ServerWorker.run decrypt prepare_inner_message str) /\
  (forall fuel,
     puts_only (fun v => v <> max_connections_signal)
       (AbstractServer.run fuel : M Server.t unit)) /\
  (forall endpoint : Endpoint.t,
     puts_only (fun v => v <> max_connections_signal)
       (AbstractEntity.establish_connection endpoint : M Worker.t value)) /\
  puts_only (fun v => v <> max_connections_signal)
    (AbstractStoppableEntity.finish : M Worker.t unit) /\
  puts_only (fun v => v <> max_connections_signal)
    (AbstractStoppableEntity.finish : M Server.t unit) /\
  puts_only (fun v => v <> max_connections_signal)
    (AbstractServer.connect : M Server.t value) /\
  (forall queue,
     puts_only (fun v => v <> max_connections_signal)
       (AbstractStoppableEntity.get_from_queue queue : M Server.t value)) /\
  (forall queue,
     puts_only (fun v => v <> max_connections_signal)
       (AbstractStoppableEntity.get_from_queue queue : M Worker.t value)).
Proof.
  split; [reflexivity|].
  split; [|split; [|split; [|split; [|split; [|split; [|split]]]]]].
  8: intros queue; apply puts_only_get_from_queue.
  7: intros queue; apply puts_only_get_from_queue.
  6: apply puts_only_connect, puts_only_get_new_worker.
  - intros s w.
    destruct (ServerWorker.run _ _ _ s w) as [[o s'] w'] eqn:Hrun.
    destruct (run_events _ _ _ _ _ _ _ _ Hrun) as (evs & Hlog & _ & _ & Hgood & _).
    exists evs. split; [done|]. intros q v Hin.
    destruct (Hgood q v Hin) as [->|[->|[[l ->]|Hlen]]]; try done.
    intros ->. discriminate Hlen.
  - intros fuel. by apply puts_only_server_run.
  - intros endpoint. by apply puts_only_establish_connection.
  - by apply puts_only_finish.
  - by apply puts_only_finish.
Qed.

(** ** Waiting queues and [finish] *)

Section Stoppable.
Import AbstractEntity AbstractStoppableEntity.
Context {S : Type} `{Stoppable S}.

Lemma get_from_queue_remembers (queue : value) (s : S) (w : world) :
  (get_from_queue queue s w).1.2 = remember queue s.
Proof.
  unfold get_from_queue, queue_get, bind, assign.
  destruct queue as [ | | |q| | ]; try reflexivity.
  by destruct (items (queue_at w q)).
Qed.

Lemma remember_cases (queue : value) (s : S) :
  (In queue (waiting_queues s) /\ remember queue s = s) \/
  (~ In queue (waiting_queues s) /\
   waiting_queues (remember queue s) = waiting_queues s ++ [queue]).
Proof.
  unfold remember.
  destruct (existsb (value_eqb queue) (waiting_queues s)) eqn:E; simpl.
  - left. apply existsb_exists in E as (x & Hx & Heq).
    apply value_eqb_eq in Heq. by subst x.
  - right. split; [|apply waiting_queues_set].
    intros Hin. apply not_true_iff_false in E. apply E.
    apply existsb_exists. exists queue. split; [done|apply value_eqb_refl].
Qed.

Lemma remember_invariant (queue : value) (s : S) :
  In queue (waiting_queues (remember queue s)) /\
  incl (waiting_queues s) (waiting_queues (remember queue s)) /\
  (List.NoDup (waiting_queues s) ->
   List.NoDup (waiting_queues (remember queue s))).
Proof.
  destruct (remember_cases queue s) as [[Hin ->]|[Hin ->]].
  - split; [done|]. split; [apply incl_refl|done].
  - split; [apply in_or_app; right; by left|].
    split; [by apply incl_appl, incl_refl|].
    intros Hnodup. apply NoDup_ListNoDup, NoDup_app.
    split; [by apply NoDup_ListNoDup|]. split; [|apply NoDup_singleton].
    intros x Hx ->%list_elem_of_singleton. by apply list_elem_of_In in Hx.
Qed.

(** [put_each] on distinct queues that all have room. *)
Lemma put_each_returns (qs : list value) (v : value) (s : S) (w : world) :
  List.NoDup qs ->
  (forall x, In x qs -> exists q, x = VQueue q /\ full (queue_at w q) = false) ->
  exists w' evs,
    put_each qs v s w = (Returned tt, s, w') /\
    log w' = log w ++ evs /\
    length evs = length qs /\
    (forall q, In (VQueue q) qs ->
       In (EvPut q v) evs /\
       items (queue_at w' q) = items (queue_at w q) ++ [v]) /\
    (forall q, ~ In (VQueue q) qs -> queue_at w' q = queue_at w q).
Proof.
  revert w. induction qs as [|x qs IH]; intros w Hnodup Hready; simpl.
  - exists w, []. rewrite app_nil_r. repeat split; auto; simpl in *; tauto.
  - destruct (Hready x (or_introl eq_refl)) as (q & -> & Hroom).
    inversion Hnodup as [|? ? Hnotin Hnodup']; subst.
    unfold bind at 1. unfold queue_put. rewrite Hroom.
    destruct (IH (enqueue q v w) Hnodup') as (w' & evs & Hrun & Hlog & Hlen & Hin & Hout).
    { intros x Hx. destruct (Hready x (or_intror Hx)) as (q' & -> & Hroom').
      exists q'. split; [done|]. rewrite queue_at_enqueue.
      destruct (decide (q = q')) as [->|]; [done|done]. }
    exists w', (EvPut q v :: evs). rewrite Hrun. split; [done|].
    split; [by rewrite Hlog, log_enqueue, <- app_assoc|].
    split; [simpl; by rewrite Hlen|]. split.
    + intros q' [[= <-]|Hq'].
      * split; [by left|]. rewrite (Hout q Hnotin), queue_at_enqueue.
        by destruct (decide (q = q)).
      * destruct (Hin q' Hq') as [Hev Hitems]. split; [by right|].
        rewrite Hitems, queue_at_enqueue.
        destruct (decide (q = q')) as [<-|]; [done|done].
    + intros q' Hq'. rewrite Hout by tauto. rewrite queue_at_enqueue.
      destruct (decide (q = q')) as [<-|]; [|done]. destruct Hq'. by left.
Qed.

Lemma finish_after_get_from_queue (queue : value) (s : S) (w : world) :
  let s1 := (get_from_queue queue s w).1.2 in
  (In queue (waiting_queues s1) /\
   incl (waiting_queues s) (waiting_queues s1) /\
   (List.NoDup (waiting_queues s) -> List.NoDup (waiting_queues s1))) /\
  forall (s2 : S) (w2 : world),
    incl (waiting_queues s1) (waiting_queues s2) ->
    List.NoDup (waiting_queues s2) ->
    (forall x, In x (waiting_queues s2) ->
       exists q, x = VQueue q /\ full (queue_at w2 q) = false) ->
    exists q w3 evs,
      queue = VQueue q /\
      finish s2 w2 = (Returned tt, s2, w3) /\
      log w3 = log w2 ++ evs /\
      In (EvPut q finish_signal) evs /\
      items (queue_at w3 q) = items (queue_at w2 q) ++ [finish_signal] /\
      (forall q', In (VQueue q') (waiting_queues s2) ->
         In (EvPut q' finish_signal) evs).
Proof.
  intros s1. subst s1. rewrite get_from_queue_remembers.
  pose proof (remember_invariant queue s) as (Hin & Hincl & Hnodup).
  split; [done|]. intros s2 w2 Hlater Hnodup2 Hready.
  destruct (Hready queue (Hlater _ Hin)) as (q & -> & _).
  destruct (put_each_returns (waiting_queues s2) finish_signal s2 w2
              Hnodup2 Hready) as (w3 & evs & Hrun & Hlog & _ & Hput & _).
  exists q, w3, evs. split; [done|]. split; [exact Hrun|]. split; [done|].
  destruct (Hput q (Hlater _ Hin)) as [Hev Hitems].
  repeat split; auto. intros q' Hq'. by apply Hput.
Qed.

(** *** Nothing leaves [waiting_queues] *)

Lemma keeps_waiting_same {A} (m : M S A) :
  (forall s w, (m s w).1.2 = s) -> keeps_waiting m.
Proof. intros Hm s w. rewrite Hm. apply incl_refl. Qed.

Lemma keeps_waiting_bind {A B} (m : M S A) (f : A -> M S B) :
  keeps_waiting m -> (forall a, keeps_waiting (f a)) ->
  keeps_waiting (bind m f).
Proof.
  intros Hm Hf s w. unfold bind. specialize (Hm s w).
  destruct (m s w) as [[[a|e| |] s1] w1]; simpl in *; auto.
  eapply incl_tran; [exact Hm|apply Hf].
Qed.

Lemma keeps_waiting_try_except {A} (body : M S unit) (caught : list exn)
    (handler rest : M S A) :
  keeps_waiting body -> keeps_waiting handler -> keeps_waiting rest ->
  keeps_waiting (try_except body caught handler rest).
Proof.
  intros Hb Hh Hr s w. unfold try_except. specialize (Hb s w).
  destruct (body s w) as [[[a|e| |] s1] w1]; simpl in *; auto.
  - eapply incl_tran; [exact Hb|apply Hr].
  - destruct (existsb _ _); simpl; auto.
    eapply incl_tran; [exact Hb|apply Hh].
Qed.

Lemma keeps_waiting_assign (f : S -> S) :
  (forall s, incl (waiting_queues s) (waiting_queues (f s))) ->
  keeps_waiting (assign f).
Proof. intros Hf s w. apply Hf. Qed.

Lemma keeps_waiting_lift {A} (r : result A) : keeps_waiting (lift r : M S A).
Proof. destruct r; by apply keeps_waiting_same. Qed.

Lemma keeps_waiting_queue_get (queue : value) :
  keeps_waiting (queue_get queue : M S value).
Proof.
  apply keeps_waiting_same. intros s w. unfold queue_get.
  destruct queue as [ | | |q| | ]; try done.
  by destruct (items (queue_at w q)).
Qed.

Lemma keeps_waiting_queue_put (queue v : value) :
  keeps_waiting (queue_put queue v : M S unit).
Proof.
  apply keeps_waiting_same. intros s w. unfold queue_put.
  destruct queue as [ | | |q| | ]; try done.
  by destruct (full (queue_at w q)).
Qed.

Lemma keeps_waiting_get_from_queue (queue : value) :
  keeps_waiting (get_from_queue queue : M S value).
Proof.
  intros s w. rewrite get_from_queue_remembers. apply remember_invariant.
Qed.

Lemma keeps_waiting_establish_connection {E} `{Entity E} (endpoint : E) :
  keeps_waiting (establish_connection endpoint : M S value).
Proof.
  apply keeps_waiting_bind; [apply keeps_waiting_queue_put|].
  intros _. apply keeps_waiting_queue_get.
Qed.

End Stoppable.

Ltac keeps_waiting_step :=
  first
    [ apply keeps_waiting_get_from_queue
    | apply keeps_waiting_establish_connection
    | apply keeps_waiting_bind; [|intros ?]
    | apply keeps_waiting_try_except
    | apply keeps_waiting_queue_get
    | apply keeps_waiting_queue_put
    | apply keeps_waiting_lift
    | apply keeps_waiting_assign; intros ?; simpl; apply incl_refl
    | apply keeps_waiting_same; reflexivity
    | match goal with
      | |- keeps_waiting (if ?b then _ else _) => destruct b
      end ].

Lemma worker_run_keeps_waiting
    (decrypt : value -> value -> result value)
    (prepare_inner_message :
       value -> value -> value -> value -> value -> result value)
    (str : value -> string) :
  keeps_waiting (ServerWorker.run decrypt prepare_inner_message str).
Proof.
  unfold ServerWorker.run,
    ServerWorker.process_message_from_client_and_generate_message_to_trusted,
    ServerWorker.process_message_from_trusted_and_generate_response_for_client,
    ServerWorker.unpack_message_from_client,
    ServerWorker.validate_server_id_match,
    ServerWorker.prepare_message_for_trusted_server,
    ServerWorker.prepare_nested_message_for_trusted,
    ServerWorker.unpack_message_from_trusted,
    ServerWorker.unpack_nested_message_from_trusted,
    ServerWorker.validate_random_value_from_trusted,
    ServerWorker.validate_nested_message_from_trusted,
    ServerWorker.connect_to_trusted,
    AbstractEntity.validate_message_length.
  repeat keeps_waiting_step.
Qed.

Lemma server_run_keeps_waiting (fuel : nat) :
  keeps_waiting (AbstractServer.run fuel : M Server.t unit).
Proof.
  unfold AbstractServer.run. keeps_waiting_step; [keeps_waiting_step|].
  induction fuel as [|fuel IH]; simpl.
  - repeat keeps_waiting_step.
  - keeps_waiting_step; [keeps_waiting_step|]. keeps_waiting_step.
    2: keeps_waiting_step.
    keeps_waiting_step; [|exact IH].
    unfold AbstractServer.run_body, AbstractServer.connect,
      AbstractServer.start_worker. simpl AbstractServer.get_new_worker.
    unfold Server.get_new_worker, ServerWorker.__init__.
    repeat keeps_waiting_step.
Qed.

(** C7. For every stoppable entity, [get_from_queue] records the queue
    before it waits: whatever the call ends with, the queue is in
    [waiting_queues] afterwards, nothing that was there is lost, and the
    list stays free of duplicates.  So in any later state that still
    holds these queues, [finish] puts [FINISH] on the queue, provided
    that the recorded queues are [Queue] objects with room for one more
    item.  And the later states do hold them: neither the worker's [run]
    nor the server's ever takes a queue out of [waiting_queues]. *)
Theorem finish_reaches_every_queue_waited_on
    (decrypt : value -> value -> result value)
    (prepare_inner_message :
       value -> value -> value -> value -> value -> result value)
    (str : value -> string) :
  (forall (S : Type) (E : AbstractEntity.Entity S)
          (St : AbstractStoppableEntity.Stoppable S)
          (queue : value) (s : S) (w : world),
     let s1 := (AbstractStoppableEntity.get_from_queue queue s w).1.2 in
     (In queue (AbstractStoppableEntity.waiting_queues s1) /\
      incl (AbstractStoppableEntity.waiting_queues s)
        (AbstractStoppableEntity.waiting_queues s1) /\
      (List.NoDup (AbstractStoppableEntity.waiting_queues s) ->
       List.NoDup (AbstractStoppableEntity.waiting_queues s1))) /\
     forall (s2 : S) (w2 : world),
       incl (AbstractStoppableEntity.waiting_queues s1)
         (AbstractStoppableEntity.waiting_queues s2) ->
       List.NoDup (AbstractStoppableEntity.waiting_queues s2) ->
       (forall x, In x (AbstractStoppableEntity.waiting_queues s2) ->
          exists q, x = VQueue q /\ full (queue_at w2 q) = false) ->
       exists q w3 evs,
         queue = VQueue q /\
         AbstractStoppableEntity.finish s2 w2 = (Returned tt, s2, w3) /\
         log w3 = log w2 ++ evs /\
         In (EvPut q finish_signal) evs /\
         items (queue_at w3 q) = items (queue_at w2 q) ++ [finish_signal] /\
         (forall q',
            In (VQueue q') (AbstractStoppableEntity.waiting_queues s2) ->
            In (EvPut q' finish_signal) evs)) /\
  keeps_waiting (ServerWorker.run decrypt prepare_inner_message str) /\
  (forall fuel, keeps_waiting (AbstractServer.run fuel : M Server.t unit)).
Proof.
  split; [|split].
  - intros S E St queue s w. apply finish_after_get_from_queue.
  - apply worker_run_keeps_waiting.
  - apply server_run_keeps_waiting.
Qed.

(** ** A run that reaches the Trusted Server *)

Lemma NoDup_4 {A} (a b c d : A) :
  List.NoDup [a; b; c; d] ->
  a <> b /\ a <> c /\ a <> d /\ b <> c /\ b <> d /\ c <> d.
Proof.
  intros H. inversion_clear H as [|? ? Ha H']. inversion_clear H' as [|? ? Hb H''].
  inversion_clear H'' as [|? ? Hc _]. simpl in *. intuition.
Qed.

Section WorkerRuns.
Variable decrypt : value -> value -> result value.
Variable prepare_inner_message :
  value -> value -> value -> value -> value -> result value.
Variable str : value -> string.

Abbreviation from_client :=
  (ServerWorker.process_message_from_client_and_generate_message_to_trusted
     prepare_inner_message str).
Abbreviation from_trusted :=
  (ServerWorker.process_message_from_trusted_and_generate_response_for_client
     decrypt).
Abbreviation run := (ServerWorker.run decrypt prepare_inner_message str).
Abbreviation run_reply := (ServerWorker.run_reply decrypt).

Lemma connect_to_trusted_returned (s : Worker.t) (w : world)
    (handshake to_trusted from_trusted : value) (rest : list value) :
  let to_server := Endpoint.input_queue (Worker.trusted_server s) in
  let from_server := Endpoint.output_queue (Worker.trusted_server s) in
  full (queue_at w to_server) = false ->
  items (queue_at (enqueue to_server hello_signal w) from_server) =
    handshake :: rest ->
  Py.unpack2 handshake = Ok (to_trusted, from_trusted) ->
  ServerWorker.connect_to_trusted s w =
  (Returned tt,
   Worker.set_trusted_server_output_queue from_trusted
     (Worker.set_trusted_server_input_queue to_trusted s),
   dequeue from_server handshake rest (enqueue to_server hello_signal w)).
Proof.
  intros to_server from_server Hroom Hitems Hpair.
  unfold ServerWorker.connect_to_trusted, AbstractEntity.establish_connection.
  unfold attr at 1. unfold bind at 1.
  simpl AbstractEntity.input_queue. simpl AbstractEntity.output_queue.
  fold to_server from_server.
  unfold bind, queue_put, queue_get. rewrite Hroom, Hitems.
  unfold lift. rewrite Hpair. reflexivity.
Qed.

(** The state and the world in which an accepted message has just been
    forwarded, and the equation of [run] up to that point. *)
Lemma run_forwards (s : Worker.t) (w : world) (m a b c d block : value)
    (rest rest' : list value) (handshake from_trusted : value)
    (to_trusted : nat) :
  let own_input := Worker.input_queue s in
  let to_server := Endpoint.input_queue (Worker.trusted_server s) in
  let from_server := Endpoint.output_queue (Worker.trusted_server s) in
  Py.elements m = Ok [a; b; c; d] ->
  c = Worker.server_id s ->
  prepare_inner_message (Worker.server_key s) (VStr (str (next_key w)))
    a b c = Ok block ->
  items (queue_at w own_input) = m :: rest ->
  List.NoDup [own_input; to_server; from_server; to_trusted] ->
  full (queue_at w to_server) = false ->
  items (queue_at w from_server) = handshake :: rest' ->
  Py.unpack2 handshake = Ok (VQueue to_trusted, from_trusted) ->
  full (queue_at w to_trusted) = false ->
  exists s3 w3,
    run s w = run_reply s3 w3 /\
    log w3 = log w ++ [EvGet own_input m; EvPut to_server hello_signal;
                       EvGet from_server handshake;
                       EvPut to_trusted (VTuple [a; b; c; d; block])] /\
    Worker.nonce s3 = VStr (str (next_key w)) /\
    Worker.client_random_value s3 = a /\
    Worker.server_key s3 = Worker.server_key s /\
    Worker.output_queue s3 = Worker.output_queue s /\
    Worker.trusted_server_output_queue s3 = from_trusted /\
    (forall q, q <> own_input -> q <> to_server -> q <> from_server ->
               q <> to_trusted -> queue_at w3 q = queue_at w q) /\
    (forall q, maxsize (queue_at w3 q) = maxsize (queue_at w q)).
Proof.
  intros own_input to_server from_server Hm Hc Hblock Hin Hdistinct
    Hroom1 Hhandshake Hpair Hroom2.
  apply NoDup_4 in Hdistinct as (H12 & H13 & H14 & H23 & H24 & H34).
  destruct (remember_worker (VQueue own_input) s) as [l Hl].
  set (s0 := Worker.set_waiting_queues l s).
  set (w0 := dequeue own_input m rest w).
  set (s1 := Worker.set_nonce (VStr (str (next_key w)))
               (ServerWorker.unpacked a b c s0)).
  set (w2 := dequeue from_server handshake rest'
               (enqueue to_server hello_signal (drawn w0))).
  set (s2 := Worker.set_trusted_server_output_queue from_trusted
               (Worker.set_trusted_server_input_queue (VQueue to_trusted) s1)).
  set (forwarded := VTuple [a; b; c; d; block]).
  exists s2, (enqueue to_trusted forwarded w2).
  assert (from_client m s0 w0 = (Returned forwarded, s1, drawn w0)) as Hclient.
  { rewrite (from_client_accepted _ _ _ a b c d); auto.
    simpl. fold (next_key w). by rewrite Hblock. }
  assert (ServerWorker.connect_to_trusted s1 (drawn w0) = (Returned tt, s2, w2))
    as Hconnect.
  { apply connect_to_trusted_returned; auto.
    - simpl. fold to_server. rewrite queue_at_drawn. subst w0.
      rewrite queue_at_dequeue. by destruct (decide (own_input = to_server)).
    - simpl. fold to_server from_server. rewrite queue_at_enqueue.
      destruct (decide (to_server = from_server)); [done|].
      rewrite queue_at_drawn. subst w0. rewrite queue_at_dequeue.
      by destruct (decide (own_input = from_server)). }
  assert (forall q, q <> own_input -> q <> to_server -> q <> from_server ->
                    queue_at w2 q = queue_at w q) as Hframe.
  { intros q Hq1 Hq2 Hq3. subst w2 w0. rewrite queue_at_dequeue.
    destruct (decide (from_server = q)); [congruence|].
    rewrite queue_at_enqueue. destruct (decide (to_server = q)); [congruence|].
    rewrite queue_at_drawn, queue_at_dequeue.
    destruct (decide (own_input = q)); congruence. }
  split; [|repeat split].
  - rewrite run_in_parts_eq. unfold ServerWorker.run_in_parts.
    unfold attr at 1. unfold bind at 1.
    rewrite (bind_returned _ _ _ _ _ _ _
               (get_from_queue_returned _ _ _ _ _ Hin)).
    fold own_input. rewrite Hl. fold s0 w0.
    rewrite (bind_returned _ _ _ _ _ _ _ Hclient).
    change (AbstractEntity.is_message_error forwarded) with false. simpl.
    unfold ServerWorker.run_exchange.
    rewrite (bind_returned _ _ _ _ _ _ _ Hconnect).
    unfold attr at 1. unfold bind at 1.
    change (Worker.trusted_server_input_queue s2) with (VQueue to_trusted).
    rewrite (bind_returned _ _ tt s2 s2 w2 (enqueue to_trusted forwarded w2));
      [done|].
    apply queue_put_returned. rewrite Hframe; auto.
  - rewrite log_enqueue. subst w2 w0.
    rewrite log_dequeue, log_enqueue. change (log (drawn ?x)) with (log x).
    rewrite log_dequeue, <- !app_assoc. reflexivity.
  - intros q Hq1 Hq2 Hq3 Hq4. rewrite queue_at_enqueue.
    destruct (decide (to_trusted = q)); [congruence|]. by apply Hframe.
  - intros q. subst w2 w0.
    by rewrite maxsize_enqueue, maxsize_dequeue, maxsize_enqueue,
      queue_at_drawn, maxsize_dequeue.
Qed.

(** C4. An accepted client message: 4 fields, the third equal to the
    worker's [server_id].  The client leg draws a key, stores its [str]
    as [nonce], and returns the 4 fields followed by
    [prepare_inner_message(server_key, nonce, message[0], message[1],
    message[2])].  In a world where the Trusted Server has room for
    [HELLO] and has answered the handshake with a pair of queues, this
    5-tuple is what [run] puts on the first queue of the pair, as its
    fourth queue operation. *)
Theorem accepted_message_is_forwarded_with_own_block
    (s : Worker.t) (w : world) (m a b c d block : value) :
  Py.elements m = Ok [a; b; c; d] ->
  c = Worker.server_id s ->
  prepare_inner_message (Worker.server_key s) (VStr (str (next_key w)))
    a b c = Ok block ->
  from_client m s w =
    (Returned (VTuple [a; b; c; d; block]),
     Worker.set_nonce (VStr (str (next_key w)))
       (ServerWorker.unpacked a b c s),
     drawn w) /\
  forall (rest rest' : list value) (handshake from_trusted : value)
         (to_trusted : nat),
    items (queue_at w (Worker.input_queue s)) = m :: rest ->
    List.NoDup [Worker.input_queue s;
                Endpoint.input_queue (Worker.trusted_server s);
                Endpoint.output_queue (Worker.trusted_server s);
                to_trusted] ->
    full (queue_at w (Endpoint.input_queue (Worker.trusted_server s)))
      = false ->
    items (queue_at w (Endpoint.output_queue (Worker.trusted_server s)))
      = handshake :: rest' ->
    Py.unpack2 handshake = Ok (VQueue to_trusted, from_trusted) ->
    full (queue_at w to_trusted) = false ->
    exists evs,
      log (run s w).2 =
        log w ++
        [EvGet (Worker.input_queue s) m;
         EvPut (Endpoint.input_queue (Worker.trusted_server s)) hello_signal;
         EvGet (Endpoint.output_queue (Worker.trusted_server s)) handshake;
         EvPut to_trusted (VTuple [a; b; c; d; block])] ++ evs /\
      Worker.nonce (run s w).1.2 = VStr (str (next_key w)).
Proof.
  intros Hm Hc Hblock. split.
  - rewrite (from_client_accepted _ _ _ a b c d); auto. by rewrite Hblock.
  - intros rest rest' handshake from_trusted to_trusted Hin Hdistinct Hroom1
      Hhandshake Hpair Hroom2.
    destruct (run_forwards s w m a b c d block rest rest' handshake
                from_trusted to_trusted Hm Hc Hblock Hin Hdistinct Hroom1
                Hhandshake Hpair Hroom2)
      as (s3 & w3 & -> & Hlog & Hnonce & _).
    destruct (run_reply s3 w3) as [[o s'] w'] eqn:Hreply.
    destruct (run_reply_events _ _ _ _ _ _ Hreply) as (Hkeep & evs & Hlog' & _).
    exists evs. simpl. split.
    + by rewrite Hlog', Hlog, <- app_assoc.
    + by rewrite Hkeep.
Qed.

Lemma run_reply_returned (s : Worker.t) (w : world) (r bc bs : value)
    (plain n k : string) (from_trusted : nat) (rest : list value) :
  decrypt bs (Worker.server_key s) = Ok (VStr plain) ->
  Py.split ":" plain = [n; k] ->
  r = Worker.client_random_value s ->
  VStr n = Worker.nonce s ->
  Worker.trusted_server_output_queue s = VQueue from_trusted ->
  items (queue_at w from_trusted) = VTuple [r; bc; bs] :: rest ->
  maxsize (queue_at w (Worker.output_queue s)) <= 0 ->
  run_reply s w =
  (Returned tt,
   ServerWorker.received r (VStr n) (VStr k)
     (AbstractStoppableEntity.remember (VQueue from_trusted) s),
   enqueue (Worker.output_queue s) (VTuple [r; bc])
     (dequeue from_trusted (VTuple [r; bc; bs]) rest w)).
Proof.
  intros Hd Hsplit Hr Hn Hq Hitems Hroom.
  destruct (remember_worker (VQueue from_trusted) s) as [l Hl].
  unfold ServerWorker.run_reply. unfold attr at 1. unfold bind at 1.
  rewrite Hq.
  rewrite (bind_returned _ _ _ _ _ _ _
             (get_from_queue_returned _ _ _ _ _ Hitems)).
  rewrite Hl.
  erewrite bind_returned.
  2:{ rewrite (from_trusted_two_fields _ (VTuple [r; bc; bs]) r bc bs plain
                 n k); auto.
      simpl. rewrite <- Hr, <- Hn, !value_eqb_refl. reflexivity. }
  unfold attr, bind. simpl Worker.output_queue.
  apply queue_put_returned, unbounded_not_full. by rewrite maxsize_dequeue.
Qed.

(** C5. A reply [(r, bc, bs)] of the Trusted Server that passes every
    check: [bs] decrypts under [server_key] to ["n:k"], [r] is the
    client's random value and [n] the worker's nonce.  The Trusted-Server
    leg returns the pair [(r, bc)]; and lines 117-120 of [run], started
    when that reply waits on the session queue, take it and put [(r, bc)]
    on the worker's output queue, these being their only queue
    operations. *)
Theorem validated_reply_is_passed_on_without_last_field
    (s : Worker.t) (w : world) (r bc bs : value) (plain n k : string) :
  decrypt bs (Worker.server_key s) = Ok (VStr plain) ->
  Py.split ":" plain = [n; k] ->
  r = Worker.client_random_value s ->
  VStr n = Worker.nonce s ->
  from_trusted (VTuple [r; bc; bs]) s w =
    (Returned (VTuple [r; bc]),
     ServerWorker.received r (VStr n) (VStr k) s, w) /\
  forall (from_trusted : nat) (rest : list value),
    Worker.trusted_server_output_queue s = VQueue from_trusted ->
    items (queue_at w from_trusted) = VTuple [r; bc; bs] :: rest ->
    maxsize (queue_at w (Worker.output_queue s)) <= 0 ->
    exists s' w',
      run_reply s w = (Returned tt, s', w') /\
      log w' = log w ++ [EvGet from_trusted (VTuple [r; bc; bs]);
                         EvPut (Worker.output_queue s) (VTuple [r; bc])] /\
      Worker.session_key s' = VStr k.
Proof.
  intros Hd Hsplit Hr Hn. split.
  - rewrite (from_trusted_two_fields _ (VTuple [r; bc; bs]) r bc bs plain n k);
      auto.
    simpl. rewrite <- Hr, <- Hn, !value_eqb_refl. reflexivity.
  - intros from_trusted rest Hq Hitems Hroom. eexists _, _.
    split; [by eapply run_reply_returned|].
    split; [|reflexivity].
    by rewrite log_enqueue, log_dequeue, <- app_assoc.
Qed.

(** A whole run, from the client's message to the answer. *)
Lemma run_completes (s : Worker.t) (w : world) (a b c d block bc bs : value)
    (plain k : string) (rest rest' rest'' : list value)
    (to_trusted from_trusted : nat) :
  let own_input := Worker.input_queue s in
  let own_output := Worker.output_queue s in
  let to_server := Endpoint.input_queue (Worker.trusted_server s) in
  let from_server := Endpoint.output_queue (Worker.trusted_server s) in
  let handshake := VTuple [VQueue to_trusted; VQueue from_trusted] in
  c = Worker.server_id s ->
  prepare_inner_message (Worker.server_key s) (VStr (str (next_key w)))
    a b c = Ok block ->
  decrypt bs (Worker.server_key s) = Ok (VStr plain) ->
  Py.split ":" plain = [str (next_key w); k] ->
  List.NoDup [own_input; to_server; from_server; to_trusted] ->
  from_trusted <> own_input -> from_trusted <> to_server ->
  from_trusted <> from_server -> from_trusted <> to_trusted ->
  items (queue_at w own_input) = VTuple [a; b; c; d] :: rest ->
  full (queue_at w to_server) = false ->
  items (queue_at w from_server) = handshake :: rest' ->
  full (queue_at w to_trusted) = false ->
  items (queue_at w from_trusted) = VTuple [a; bc; bs] :: rest'' ->
  maxsize (queue_at w own_output) <= 0 ->
  exists s' w',
    run s w = (Returned tt, s', w') /\
    log w' = log w ++
      [EvGet own_input (VTuple [a; b; c; d]);
       EvPut to_server hello_signal;
       EvGet from_server handshake;
       EvPut to_trusted (VTuple [a; b; c; d; block]);
       EvGet from_trusted (VTuple [a; bc; bs]);
       EvPut own_output (VTuple [a; bc])] /\
    Worker.session_key s' = VStr k.
Proof.
  intros own_input own_output to_server from_server handshake Hc Hblock Hd
    Hsplit Hdistinct Hq1 Hq2 Hq3 Hq4 Hin Hroom1 Hhandshake Hroom2 Hreply Hroom3.
  destruct (run_forwards s w (VTuple [a; b; c; d]) a b c d block rest rest'
              handshake (VQueue from_trusted) to_trusted eq_refl Hc Hblock
              Hin Hdistinct Hroom1 Hhandshake eq_refl Hroom2)
    as (s3 & w3 & -> & Hlog & Hnonce & Hrandom & Hkey & Hout & Hfrom & Hframe
        & Hsize).
  rewrite (run_reply_returned s3 w3 a bc bs plain (str (next_key w)) k
             from_trusted rest''); auto.
  - eexists _, _. split; [reflexivity|]. split; [|reflexivity].
    rewrite log_enqueue, log_dequeue, Hlog, Hout, <- !app_assoc. reflexivity.
  - by rewrite Hkey.
  - by rewrite Hframe.
  - by rewrite Hout, Hsize.
Qed.

(** *** Runs that return *)






End WorkerRuns.

(** ** The termination marker *)

(** C6. What the program does with [FINISH].  A worker that takes it from
    its input queue treats it as a malformed request ([len('FINISH')] is
    6, not 4): it puts [ERROR] on its output queue and returns.  A worker
    that takes it from the session queue, where it waits for the Trusted
    Server's reply, does the same (6 is not 3).  The listening server's
    loop is the one place that asks [is_finish_signal]: one turn that
    takes [FINISH] clears [running] and puts nothing. *)
Theorem worker_run_answers_finish_with_error
    (decrypt : value -> value -> result value)
    (prepare_inner_message :
       value -> value -> value -> value -> value -> result value)
    (str : value -> string) :
  (forall (s : Worker.t) (w : world) (rest : list value),
     items (queue_at w (Worker.input_queue s)) = finish_signal :: rest ->
     maxsize (queue_at w (Worker.output_queue s)) <= 0 ->
     ServerWorker.run decrypt prepare_inner_message str s w =
     (Returned tt,
      AbstractStoppableEntity.remember (VQueue (Worker.input_queue s)) s,
      enqueue (Worker.output_queue s) error_signal
        (dequeue (Worker.input_queue s) finish_signal rest w))) /\
  (forall (s : Worker.t) (w : world) (q : nat) (rest : list value),
     Worker.trusted_server_output_queue s = VQueue q ->
     items (queue_at w q) = finish_signal :: rest ->
     maxsize (queue_at w (Worker.output_queue s)) <= 0 ->
     ServerWorker.run_reply decrypt s w =
     (Returned tt, AbstractStoppableEntity.remember (VQueue q) s,
      enqueue (Worker.output_queue s) error_signal
        (dequeue q finish_signal rest w))) /\
  (forall (s : Server.t) (w : world) (rest : list value),
     items (queue_at w (Server.input_queue s)) = finish_signal :: rest ->
     AbstractServer.run_body s w =
     (Returned tt,
      Server.set_running false
        (AbstractStoppableEntity.remember (VQueue (Server.input_queue s)) s),
      dequeue (Server.input_queue s) finish_signal rest w)).
Proof.
  split; [|split].
  - intros s w rest Hin Hroom.
    destruct (remember_worker (VQueue (Worker.input_queue s)) s) as [l Hl].
    apply run_rejects; auto.
    by rewrite Hl.
  - intros s w q rest Hq Hin Hroom.
    destruct (remember_worker (VQueue q) s) as [l Hl].
    apply run_reply_rejects; auto.
    by rewrite Hl.
  - intros s w rest Hin. unfold AbstractServer.run_body.
    unfold attr at 1. unfold bind at 1.
    simpl AbstractEntity.input_queue.
    by rewrite (bind_returned _ _ _ _ _ _ _
                  (get_from_queue_returned _ _ _ _ _ Hin)).
Qed.

(** ** The theorems at work on the example *)

Lemma run_other_server_id_witness :
  exists s' w',
    ServerWorker.run Demo.decrypt Demo.prepare_inner_message Demo.str
      Demo.worker (Demo.world_of [(0%nat, [Demo.request_for_s2])]) =
    (Returned tt, s', w') /\
    log w' = [EvGet 0 Demo.request_for_s2; EvPut 1 error_signal] /\
    Worker.trusted_server_input_queue s' = VNone.
Proof.
  destruct (run_other_server_id_error_without_trusted_contact
              Demo.decrypt Demo.prepare_inner_message Demo.str
              Demo.worker (Demo.world_of [(0%nat, [Demo.request_for_s2])])
              Demo.request_for_s2
              (VStr "r") (VStr "c1") (VStr "s2") (VStr "from-c1") [])
    as (s' & w' & Hrun & Hlog & Hto & _).
  - reflexivity.
  - reflexivity.
  - discriminate.
  - vm_compute. discriminate.
  - exists s', w'. split; [exact Hrun|]. split; [exact Hlog|exact Hto].
Defined.

Lemma from_trusted_bad_nonce_witness :
  exists s',
    ServerWorker.process_message_from_trusted_and_generate_response_for_client
      Demo.decrypt
      (VTuple [VStr "r"; VStr "for-c1"; Demo.encrypt "41:session" (VInt 7)])
      Demo.worker_waiting (Demo.world_of []) =
    (Returned error_signal, s', Demo.world_of []).
Proof.
  apply (from_trusted_bad_block_or_nonce_is_error Demo.decrypt
           Demo.worker_waiting (Demo.world_of [])
           (VTuple [VStr "r"; VStr "for-c1";
                    Demo.encrypt "41:session" (VInt 7)])
           (VStr "r") (VStr "for-c1") (Demo.encrypt "41:session" (VInt 7))
           "41:session").
  - reflexivity.
  - reflexivity.
  - right. vm_compute. discriminate.
Defined.

Lemma wrong_arity_witness :
  ServerWorker.process_message_from_client_and_generate_message_to_trusted
    Demo.prepare_inner_message Demo.str
    (VTuple [VStr "r"; VStr "c1"; VStr "s1"])
    Demo.worker (Demo.world_of []) =
  (Returned error_signal, Demo.worker, Demo.world_of []) /\
  ServerWorker.process_message_from_trusted_and_generate_response_for_client
    Demo.decrypt error_signal
    Demo.worker_waiting (Demo.world_of []) =
  (Returned error_signal, Demo.worker_waiting, Demo.world_of []) /\
  ServerWorker.process_message_from_trusted_and_generate_response_for_client
    Demo.decrypt
    (VTuple [VStr "r"; VStr "for-c1"; Demo.encrypt "42:session:more" (VInt 7)])
    Demo.worker_waiting (Demo.world_of []) =
  (Returned error_signal,
   Worker.set_trusted_random_value (VStr "r") Demo.worker_waiting,
   Demo.world_of []).
Proof.
  split; [|split].
  - apply (proj1 (wrong_arity_is_error_and_stops Demo.decrypt
                    Demo.prepare_inner_message Demo.str
                    Demo.worker (Demo.world_of []))
             (VTuple [VStr "r"; VStr "c1"; VStr "s1"]) 3).
    + reflexivity.
    + lia.
  - apply (proj1 (proj2 (wrong_arity_is_error_and_stops Demo.decrypt
                           Demo.prepare_inner_message Demo.str
                           Demo.worker_waiting (Demo.world_of [])))
             error_signal 5).
    + reflexivity.
    + lia.
  - apply (proj1 (proj2 (proj2 (wrong_arity_is_error_and_stops Demo.decrypt
                           Demo.prepare_inner_message Demo.str
                           Demo.worker_waiting (Demo.world_of []))))
             _ (VStr "r") (VStr "for-c1")
             (Demo.encrypt "42:session:more" (VInt 7)) "42:session:more").
    + reflexivity.
    + reflexivity.
    + vm_compute. lia.
Defined.

Lemma accepted_message_witness :
  ServerWorker.process_message_from_client_and_generate_message_to_trusted
    Demo.prepare_inner_message Demo.str Demo.request Demo.worker
    (Demo.world_of []) =
  (Returned (VTuple [VStr "r"; VStr "c1"; VStr "s1"; VStr "from-c1";
                     Demo.encrypt "42:r:c1:s1" (VInt 7)]),
   Worker.set_nonce (VStr "42")
     (ServerWorker.unpacked (VStr "r") (VStr "c1") (VStr "s1") Demo.worker),
   drawn (Demo.world_of [])) /\
  exists evs,
    log (ServerWorker.run Demo.decrypt Demo.prepare_inner_message
           Demo.str Demo.worker
           (Demo.world_of
              [(0%nat, [Demo.request]);
               (3%nat, [VTuple [VQueue 4; VQueue 5]])])).2 =
    [EvGet 0 Demo.request; EvPut 2 hello_signal;
     EvGet 3 (VTuple [VQueue 4; VQueue 5]);
     EvPut 4 (VTuple [VStr "r"; VStr "c1"; VStr "s1"; VStr "from-c1";
                      Demo.encrypt "42:r:c1:s1" (VInt 7)])] ++ evs.
Proof.
  split.
  - apply (accepted_message_is_forwarded_with_own_block Demo.decrypt
             Demo.prepare_inner_message Demo.str Demo.worker
             (Demo.world_of []) Demo.request
             (VStr "r") (VStr "c1") (VStr "s1") (VStr "from-c1")
             (Demo.encrypt "42:r:c1:s1" (VInt 7)));
      vm_compute; reflexivity.
  - destruct (proj2 (accepted_message_is_forwarded_with_own_block
                       Demo.decrypt Demo.prepare_inner_message
                       Demo.str Demo.worker
                       (Demo.world_of
                          [(0%nat, [Demo.request]);
                           (3%nat, [VTuple [VQueue 4; VQueue 5]])])
                       Demo.request
                       (VStr "r") (VStr "c1") (VStr "s1") (VStr "from-c1")
                       (Demo.encrypt "42:r:c1:s1" (VInt 7))
                       eq_refl eq_refl eq_refl)
                [] [] (VTuple [VQueue 4; VQueue 5]) (VQueue 5) 4%nat)
      as (evs & Hlog & _).
    + reflexivity.
    + repeat constructor; simpl; lia.
    + reflexivity.
    + reflexivity.
    + reflexivity.
    + reflexivity.
    + exists evs. exact Hlog.
Defined.

Lemma validated_reply_witness :
  ServerWorker.process_message_from_trusted_and_generate_response_for_client
    Demo.decrypt Demo.reply Demo.worker_waiting
    (Demo.world_of [(5%nat, [Demo.reply])]) =
  (Returned (VTuple [VStr "r"; VStr "for-c1"]),
   ServerWorker.received (VStr "r") (VStr "42") (VStr "session")
     Demo.worker_waiting,
   Demo.world_of [(5%nat, [Demo.reply])]) /\
  exists s' w',
    ServerWorker.run_reply Demo.decrypt Demo.worker_waiting
      (Demo.world_of [(5%nat, [Demo.reply])]) = (Returned tt, s', w') /\
    log w' = [EvGet 5 Demo.reply;
              EvPut 1 (VTuple [VStr "r"; VStr "for-c1"])] /\
    Worker.session_key s' = VStr "session".
Proof.
  destruct (validated_reply_is_passed_on_without_last_field Demo.decrypt
              Demo.worker_waiting
              (Demo.world_of [(5%nat, [Demo.reply])])
              (VStr "r") (VStr "for-c1") (Demo.encrypt "42:session" (VInt 7))
              "42:session" "42" "session")
    as [Hleg Hrun].
  - reflexivity.
  - reflexivity.
  - reflexivity.
  - reflexivity.
  - split; [exact Hleg|]. apply (Hrun 5%nat []).
    + reflexivity.
    + reflexivity.
    + vm_compute. discriminate.
Defined.

Lemma worker_run_answers_finish_witness :
  ServerWorker.run Demo.decrypt Demo.prepare_inner_message Demo.str
    Demo.worker (Demo.world_of [(0%nat, [finish_signal])]) =
  (Returned tt,
   Worker.set_waiting_queues [VQueue 0] Demo.worker,
   enqueue 1 error_signal
     (dequeue 0 finish_signal [] (Demo.world_of [(0%nat, [finish_signal])]))).
Proof.
  apply (proj1 (worker_run_answers_finish_with_error Demo.decrypt
                  Demo.prepare_inner_message Demo.str)
           Demo.worker (Demo.world_of [(0%nat, [finish_signal])]) []).
  - reflexivity.
  - vm_compute. discriminate.
Defined.

Lemma finish_reaches_witness :
  exists w3 evs,
    AbstractStoppableEntity.finish Demo.worker_waiting (Demo.world_of []) =
    (Returned tt, Demo.worker_waiting, w3) /\
    log w3 = evs /\
    In (EvPut 0 finish_signal) evs /\
    items (queue_at w3 0) = [finish_signal].
Proof.
  destruct (proj2 (proj1 (finish_reaches_every_queue_waited_on
                            Demo.decrypt Demo.prepare_inner_message Demo.str)
                     Worker.t _ _ (VQueue 0) Demo.worker (Demo.world_of []))
              Demo.worker_waiting (Demo.world_of []))
    as (q & w3 & evs & Hq & Hrun & Hlog & Hin & Hitems & _).
  - intros x Hx. exact Hx.
  - repeat constructor; simpl; tauto.
  - intros x [<-|[]]. exists 0%nat. split; reflexivity.
  - injection Hq as <-. exists w3, evs. repeat split; assumption.
Defined.

Lemma from_trusted_random_value_witness :
  (exists s',
     ServerWorker.process_message_from_trusted_and_generate_response_for_client
       Demo.decrypt
       (VTuple [VStr "replayed"; VStr "for-c1";
                Demo.encrypt "42:session" (VInt 7)])
       Demo.worker_waiting (Demo.world_of []) =
     (Returned error_signal, s', Demo.world_of [])) /\
  Py.getitem Demo.reply 0 = Ok (VStr "r").
Proof.
  split.
  - apply (proj1 (from_trusted_random_value_mismatch_is_error Demo.decrypt
                    Demo.worker_waiting (Demo.world_of [])
                    (VTuple [VStr "replayed"; VStr "for-c1";
                             Demo.encrypt "42:session" (VInt 7)]))
             (VStr "replayed") (VStr "for-c1")
             (Demo.encrypt "42:session" (VInt 7))).
    + reflexivity.
    + discriminate.
  - apply (proj2 (from_trusted_random_value_mismatch_is_error Demo.decrypt
                    Demo.worker_waiting (Demo.world_of []) Demo.reply)
             (VTuple [VStr "r"; VStr "for-c1"])
             (ServerWorker.received (VStr "r") (VStr "42") (VStr "session")
                Demo.worker_waiting)
             (Demo.world_of [])).
    + reflexivity.
    + discriminate.
Defined.

(** C10 as the claim states it fails: a 3-field reply whose first field
    is not the client's random value and whose third field makes
    [decrypt] raise something else than [IndexError] or
    [InvalidMessage].  The method returns nothing, the exception ends
    lines 117-120 of [run] after the [get], and no [ERROR] reaches the
    client. *)
Lemma random_value_mismatch_without_error :
  let reply := VTuple [VStr "replayed"; VStr "for-c1"; VStr "junk"] in
  Py.elements reply = Ok [VStr "replayed"; VStr "for-c1"; VStr "junk"] /\
  VStr "replayed" <> Worker.client_random_value Demo.worker_waiting /\
  ServerWorker.process_message_from_trusted_and_generate_response_for_client
    Demo.decrypt reply Demo.worker_waiting (Demo.world_of []) =
  (Raised TypeError,
   Worker.set_trusted_random_value (VStr "replayed") Demo.worker_waiting,
   Demo.world_of []) /\
  (let r := ServerWorker.run_reply Demo.decrypt Demo.worker_waiting
              (Demo.world_of [(5%nat, [reply])]) in
   r.1.1 = Raised TypeError /\ log r.2 = [EvGet 5 reply]) /\
  ~ (forall (decrypt : value -> value -> result value) (s : Worker.t)
            (w : world) (m r bc bs : value),
       Py.elements m = Ok [r; bc; bs] ->
       r <> Worker.client_random_value s ->
       exists s' w',
         ServerWorker.process_message_from_trusted_and_generate_response_for_client
           decrypt m s w = (Returned error_signal, s', w')).
Proof.
  intros reply. split; [reflexivity|]. split; [discriminate|].
  split; [reflexivity|]. split; [split; reflexivity|].
  intros Hclaim.
  destruct (Hclaim Demo.decrypt Demo.worker_waiting (Demo.world_of []) reply
              (VStr "replayed") (VStr "for-c1") (VStr "junk") eq_refl)
    as (s' & w' & Hleg); discriminate.
Qed.


(** ** The model at work *)

Example split_two_fields : Py.split ":" "42:session" = ["42"; "session"].
Proof. reflexivity. Qed.

Example split_no_separator : Py.split ":" "noise" = ["noise"].
Proof. reflexivity. Qed.

Example split_trailing_separator : Py.split ":" "42:" = ["42"; ""].
Proof. reflexivity. Qed.

Example drop_last_of_a_string : Py.drop_last (VStr "abc") = Ok (VStr "ab").
Proof. reflexivity. Qed.

(** A whole run: the request, the handshake, the forwarded message, the
    reply, the answer. *)
Example run_of_the_example :
  let r :=
    ServerWorker.run Demo.decrypt Demo.prepare_inner_message Demo.str
      Demo.worker
      (Demo.world_of
         [(0%nat, [Demo.request]);
          (3%nat, [VTuple [VQueue 4; VQueue 5]]);
          (5%nat, [Demo.reply])]) in
  r.1.1 = Returned tt /\
  log r.2 =
    [EvGet 0 Demo.request; EvPut 2 hello_signal;
     EvGet 3 (VTuple [VQueue 4; VQueue 5]);
     EvPut 4 (VTuple [VStr "r"; VStr "c1"; VStr "s1"; VStr "from-c1";
                      Demo.encrypt "42:r:c1:s1" (VInt 7)]);
     EvGet 5 Demo.reply;
     EvPut 1 (VTuple [VStr "r"; VStr "for-c1"])] /\
  Worker.session_key r.1.2 = VStr "session" /\
  Worker.waiting_queues r.1.2 = [VQueue 0; VQueue 5].
Proof. vm_compute. repeat split. Qed.

(** The same run when the Trusted Server has not answered yet: the worker
    waits, having sent its message. *)
Example run_waits_for_the_reply :
  let r :=
    ServerWorker.run Demo.decrypt Demo.prepare_inner_message Demo.str
      Demo.worker
      (Demo.world_of
         [(0%nat, [Demo.request]);
          (3%nat, [VTuple [VQueue 4; VQueue 5]])]) in
  r.1 = (Blocked,
         Worker.set_waiting_queues [VQueue 0; VQueue 5] Demo.worker_waiting)
  /\ length (log r.2) = 4%nat.
Proof. vm_compute. repeat split. Qed.

(** A message that is not a sequence: [len] raises, nobody catches it,
    and the thread ends without an answer. *)
Example run_on_a_number :
  let r :=
    ServerWorker.run Demo.decrypt Demo.prepare_inner_message Demo.str
      Demo.worker (Demo.world_of [(0%nat, [VInt 3])]) in
  r.1.1 = Raised TypeError /\ log r.2 = [EvGet 0 (VInt 3)].
Proof. vm_compute. repeat split. Qed.

(** A listening server that finds [HELLO] and then [FINISH] on its input
    queue: it builds and starts one worker, hands out the worker's two
    queues, and stops. *)
Example server_run_of_the_example :
  let server :=
    Server.Build 0 1 [] 5 true false (VStr "s1") (VInt 7)
      (Endpoint.Build 2 3) in
  let r :=
    AbstractServer.run 3 server
      (Demo.world_of [(0%nat, [hello_signal; finish_signal])]) in
  r.1.1 = Returned tt /\
  Server.running r.1.2 = false /\
  log r.2 =
    [EvGet 0 hello_signal; EvPut 1 (VTuple [VQueue 10; VQueue 11]);
     EvGet 0 finish_signal] /\
  length (started r.2) = 1%nat.
Proof. vm_compute. repeat split. Qed.

(** * More properties of the program *)

(** ** The listening server *)

Lemma remember_idempotent {S} `{AbstractStoppableEntity.Stoppable S}
    (queue : value) (s : S) :
  AbstractStoppableEntity.remember queue
    (AbstractStoppableEntity.remember queue s) =
  AbstractStoppableEntity.remember queue s.
Proof.
  destruct (remember_invariant queue s) as (Hin & _ & _).
  destruct (remember_cases queue (AbstractStoppableEntity.remember queue s))
    as [[_ ->]|[Hnot _]]; [done|]. by destruct Hnot.
Qed.

Lemma remember_server (queue : value) (s : Server.t) :
  exists l,
    AbstractStoppableEntity.remember queue s = Server.set_waiting_queues l s.
Proof.
  unfold AbstractStoppableEntity.remember. destruct (negb _).
  - eexists. reflexivity.
  - exists (Server.waiting_queues s). by destruct s.
Qed.

Lemma queue_at_allocated (size : Z) (w : world) (q : nat) :
  queue_at (allocated size w) q =
  if decide (next_queue w = q) then mkQueue size [] else queue_at w q.
Proof.
  unfold queue_at, allocated; simpl. rewrite lookup_insert.
  by destruct (decide (next_queue w = q)).
Qed.

Lemma queue_at_connected (s : Server.t) (w : world) (q : nat) :
  queue_at (Served.connected s w) q =
  if decide (q = next_queue w \/ q = Datatypes.S (next_queue w))
  then mkQueue 0 [] else queue_at w q.
Proof.
  unfold Served.connected.
  assert (queue_at (allocated 0 (allocated 0 w)) q =
          if decide (q = next_queue w \/ q = Datatypes.S (next_queue w))
          then mkQueue 0 [] else queue_at w q) as Hq.
  { rewrite queue_at_allocated. simpl.
    destruct (decide (Datatypes.S (next_queue w) = q)) as [<-|Hne].
    - destruct (decide _) as [|Hno]; [done|]. destruct Hno. by right.
    - rewrite queue_at_allocated.
      destruct (decide (next_queue w = q)) as [<-|Hne'].
      + destruct (decide _) as [|Hno]; [done|]. destruct Hno. by left.
      + destruct (decide _) as [[->| ->]|]; done. }
  by destruct (Server.invoke_workers s).
Qed.

Lemma connect_serves (s : Server.t) (w : world) :
  AbstractServer.connect s w =
  (Returned (Served.answer (next_queue w)), s, Served.connected s w).
Proof.
  unfold AbstractServer.connect, AbstractServer.start_worker,
    Served.connected. simpl AbstractServer.get_new_worker.
  unfold Server.get_new_worker, ServerWorker.__init__, Queue_new, Thread_start,
    bind, attr, ret. simpl.
  by destruct (Server.invoke_workers s).
Qed.

Lemma is_finish_signal_false (m : value) :
  m <> finish_signal -> AbstractStoppableEntity.is_finish_signal m = false.
Proof. intros Hm. by apply value_eqb_neq. Qed.

(** One turn of the loop on a request. *)
Lemma run_body_serves (s : Server.t) (w : world) (m : value)
    (rest : list value) :
  items (queue_at w (Server.input_queue s)) = m :: rest ->
  m <> finish_signal ->
  maxsize (queue_at w (Server.output_queue s)) <= 0 ->
  AbstractServer.run_body s w =
  (Returned tt,
   AbstractStoppableEntity.remember (VQueue (Server.input_queue s)) s,
   enqueue (Server.output_queue s) (Served.answer (next_queue w))
     (Served.connected s (dequeue (Server.input_queue s) m rest w))).
Proof.
  intros Hin Hm Hroom. unfold AbstractServer.run_body.
  unfold attr at 1. unfold bind at 1. simpl AbstractEntity.input_queue.
  rewrite (bind_returned _ _ _ _ _ _ _ (get_from_queue_returned _ _ _ _ _ Hin)).
  rewrite (is_finish_signal_false _ Hm).
  destruct (remember_server (VQueue (Server.input_queue s)) s) as [l Hl].
  rewrite Hl.
  rewrite (bind_returned _ _ _ _ _ _ _ (connect_serves _ _)).
  unfold attr, bind. simpl AbstractEntity.output_queue. simpl Server.output_queue.
  rewrite queue_put_returned; [reflexivity|].
  apply unbounded_not_full. rewrite queue_at_connected.
  destruct (decide _); [simpl; lia|]. by rewrite maxsize_dequeue.
Qed.

Lemma workers_set_waiting_queues (l : list value) (s : Server.t) (n k : nat) :
  Served.workers (Server.set_waiting_queues l s) n k = Served.workers s n k.
Proof. revert n. induction k as [|k IH]; intros n; simpl; [done|]. by rewrite IH. Qed.

Lemma log_connected (s : Server.t) (w : world) :
  log (Served.connected s w) = log w.
Proof. unfold Served.connected. by destruct (Server.invoke_workers s). Qed.

Lemma next_queue_connected (s : Server.t) (w : world) :
  next_queue (Served.connected s w) = Datatypes.S (Datatypes.S (next_queue w)).
Proof. unfold Served.connected. by destruct (Server.invoke_workers s). Qed.

Lemma started_connected (s : Server.t) (w : world) :
  started (Served.connected s w) =
  started w ++
  (if Server.invoke_workers s then [Served.worker s (next_queue w)] else []).
Proof.
  unfold Served.connected. destruct (Server.invoke_workers s); simpl; [done|].
  by rewrite app_nil_r.
Qed.

Ltac split_conj := repeat match goal with |- _ /\ _ => split end.

(** The loop on a list of requests that [FINISH] follows. *)
Lemma run_loop_serves (requests : list value) :
  forall (s : Server.t) (w : world) (later : list value) (fuel : nat),
    Server.running s = true ->
    (forall m, In m requests -> m <> finish_signal) ->
    (Server.input_queue s < next_queue w)%nat ->
    (Server.output_queue s < next_queue w)%nat ->
    Server.input_queue s <> Server.output_queue s ->
    maxsize (queue_at w (Server.output_queue s)) <= 0 ->
    items (queue_at w (Server.input_queue s)) =
      requests ++ finish_signal :: later ->
    (length requests < fuel)%nat ->
    exists w',
      AbstractServer.run_loop fuel s w =
      (Returned tt,
       Server.set_running false
         (AbstractStoppableEntity.remember (VQueue (Server.input_queue s)) s),
       w') /\
      log w' =
        log w ++
        Served.turns (Server.input_queue s) (Server.output_queue s)
          (next_queue w) requests ++
        [EvGet (Server.input_queue s) finish_signal] /\
      items (queue_at w' (Server.input_queue s)) = later /\
      items (queue_at w' (Server.output_queue s)) =
        items (queue_at w (Server.output_queue s)) ++
        Served.answers (next_queue w) (length requests) /\
      next_queue w' = (next_queue w + 2 * length requests)%nat /\
      started w' =
        started w ++
        (if Server.invoke_workers s
         then Served.workers s (next_queue w) (length requests) else []) /\
      (forall q, q <> Server.input_queue s -> q <> Server.output_queue s ->
                 (q < next_queue w)%nat -> queue_at w' q = queue_at w q) /\
      (forall i, (i < 2 * length requests)%nat ->
                 queue_at w' (next_queue w + i) = mkQueue 0 []).
Proof.
  induction requests as [|m requests IH];
    intros s w later fuel Hrunning Hrequests Hin Hout Hdistinct Hroom Hitems
      Hfuel.
  - destruct fuel as [|fuel]; [simpl in Hfuel; lia|]. simpl in Hitems.
    exists (dequeue (Server.input_queue s) finish_signal later w).
    split; [|split_conj].
    + simpl. unfold attr at 1. unfold bind at 1.
      simpl AbstractServer.running. rewrite Hrunning.
      unfold AbstractServer.run_body.
      unfold attr at 1. unfold bind at 1. unfold bind at 1.
      simpl AbstractEntity.input_queue.
      rewrite (bind_returned _ _ _ _ _ _ _
                 (get_from_queue_returned _ _ _ _ _ Hitems)).
      change (AbstractStoppableEntity.is_finish_signal finish_signal)
        with true.
      unfold assign. destruct fuel; reflexivity.
    + by rewrite log_dequeue.
    + rewrite queue_at_dequeue. by destruct (decide _).
    + rewrite queue_at_dequeue. destruct (decide _); [done|].
      simpl. by rewrite app_nil_r.
    + simpl. lia.
    + simpl. destruct (Server.invoke_workers s); by rewrite app_nil_r.
    + intros q Hq _ _. rewrite queue_at_dequeue.
      destruct (decide _); congruence.
    + intros i Hi. simpl in Hi. lia.
  - destruct fuel as [|fuel]; [simpl in Hfuel; lia|].
    simpl in Hitems, Hfuel.
    set (own_input := Server.input_queue s) in *.
    set (own_output := Server.output_queue s) in *.
    set (n := next_queue w) in *.
    set (s1 := AbstractStoppableEntity.remember (VQueue own_input) s).
    set (w1 := Served.connected s
                 (dequeue own_input m (requests ++ finish_signal :: later) w)).
    set (w2 := enqueue own_output (Served.answer n) w1).
    assert (m <> finish_signal) as Hm by (apply Hrequests; by left).
    assert (AbstractServer.run_body s w = (Returned tt, s1, w2)) as Hbody
      by (by apply run_body_serves).
    destruct (remember_server (VQueue own_input) s) as [l Hl].
    fold s1 in Hl.
    assert (forall q, q <> n -> q <> Datatypes.S n -> q <> own_input ->
                      queue_at w1 q = queue_at w q) as Hframe1.
    { intros q Hq1 Hq2 Hq3. subst w1. rewrite queue_at_connected.
      destruct (decide _) as [[|]|]; [done|done|].
      rewrite queue_at_dequeue. destruct (decide _); congruence. }
    assert (next_queue w2 = Datatypes.S (Datatypes.S n)) as Hnext
      by (subst w2 w1; simpl; by rewrite next_queue_connected).
    destruct (IH s1 w2 later fuel) as
      (w' & Hrun & Hlog & Hleft & Hanswers & Hnext' & Hstarted & Hold & Hnew).
    + by rewrite Hl.
    + intros m' Hm'. apply Hrequests. by right.
    + rewrite Hnext, Hl. simpl. fold own_input. lia.
    + rewrite Hnext, Hl. simpl. fold own_output. lia.
    + by rewrite Hl.
    + rewrite Hl. simpl. fold own_output. subst w2.
      rewrite maxsize_enqueue. subst w1. rewrite queue_at_connected.
      destruct (decide _); [simpl; lia|]. by rewrite maxsize_dequeue.
    + rewrite Hl. simpl. fold own_input. subst w2.
      rewrite queue_at_enqueue. destruct (decide _); [congruence|].
      subst w1. rewrite queue_at_connected.
      destruct (decide _) as [[|]|]; [simpl in *; lia|simpl in *; lia|].
      rewrite queue_at_dequeue. by destruct (decide _).
    + lia.
    + assert (Server.input_queue s1 = own_input) as Hin1 by (by rewrite Hl).
      assert (Server.output_queue s1 = own_output) as Hout1 by (by rewrite Hl).
      assert (Server.invoke_workers s1 = Server.invoke_workers s) as Hinvoke1
        by (by rewrite Hl).
      rewrite Hin1, Hout1, Hnext, Hinvoke1 in *.
      exists w'. split; [|split_conj].
      * simpl. unfold attr at 1. unfold bind at 1.
        simpl AbstractServer.running. rewrite Hrunning.
        rewrite (bind_returned _ _ _ _ _ _ _ Hbody).
        change (AbstractServer.run_loop fuel s1 w2 =
                (Returned tt, Server.set_running false s1, w')).
        rewrite Hrun. subst s1. by rewrite remember_idempotent.
      * rewrite Hlog. subst w2. rewrite log_enqueue. subst w1.
        rewrite log_connected, log_dequeue. simpl.
        rewrite <- !app_assoc. reflexivity.
      * exact Hleft.
      * rewrite Hanswers. subst w2. rewrite queue_at_enqueue.
        destruct (decide _); [|done]. simpl. rewrite Hframe1 by lia.
        rewrite <- app_assoc. reflexivity.
      * rewrite Hnext'. simpl. lia.
      * rewrite Hstarted. subst w2 w1. simpl started.
        rewrite started_connected. simpl next_queue. fold n.
        rewrite Hl, workers_set_waiting_queues.
        destruct (Server.invoke_workers s); simpl.
        -- rewrite <- app_assoc. reflexivity.
        -- by rewrite !app_nil_r.
      * intros q Hq1 Hq2 Hq3. rewrite Hold; try lia; try done.
        subst w2. rewrite queue_at_enqueue.
        destruct (decide _); [congruence|]. apply Hframe1; lia.
      * intros i Hi. simpl in Hi.
        destruct (decide (i < 2)%nat) as [Hsmall|Hbig].
        -- rewrite Hold; try lia.
           subst w2. rewrite queue_at_enqueue.
           destruct (decide _); [lia|]. subst w1.
           rewrite queue_at_connected. simpl next_queue. fold n.
           destruct (decide _) as [|Hno]; [done|]. destruct Hno. lia.
        -- replace (n + i)%nat with (Datatypes.S (Datatypes.S n) + (i - 2))%nat
             by lia.
           apply Hnew. lia.
Qed.

(** X1. A listening server whose input queue holds some requests (any
    messages but [FINISH]), then [FINISH], then more.  Given one turn of
    fuel per request and one for [FINISH], [run] returns with [running]
    cleared.  For each request, in order, it has built a worker on two
    new queues, started it if [invoke_workers], and put the pair of these
    queues on its output queue.  What followed [FINISH] is still on the
    input queue, the queues that existed are untouched, and the new ones
    are empty and unbounded. *)
Theorem server_run_serves_requests_until_finish
    (s : Server.t) (w : world) (requests later : list value) (fuel : nat) :
  (forall m, In m requests -> m <> finish_signal) ->
  (Server.input_queue s < next_queue w)%nat ->
  (Server.output_queue s < next_queue w)%nat ->
  Server.input_queue s <> Server.output_queue s ->
  maxsize (queue_at w (Server.output_queue s)) <= 0 ->
  items (queue_at w (Server.input_queue s)) =
    requests ++ finish_signal :: later ->
  (length requests < fuel)%nat ->
  exists s' w',
    AbstractServer.run fuel s w = (Returned tt, s', w') /\
    Server.running s' = false /\
    In (VQueue (Server.input_queue s)) (Server.waiting_queues s') /\
    log w' =
      log w ++
      Served.turns (Server.input_queue s) (Server.output_queue s)
        (next_queue w) requests ++
      [EvGet (Server.input_queue s) finish_signal] /\
    items (queue_at w' (Server.input_queue s)) = later /\
    items (queue_at w' (Server.output_queue s)) =
      items (queue_at w (Server.output_queue s)) ++
      Served.answers (next_queue w) (length requests) /\
    next_queue w' = (next_queue w + 2 * length requests)%nat /\
    started w' =
      started w ++
      (if Server.invoke_workers s
       then Served.workers s (next_queue w) (length requests) else []) /\
    (forall q, q <> Server.input_queue s -> q <> Server.output_queue s ->
               (q < next_queue w)%nat -> queue_at w' q = queue_at w q) /\
    (forall i, (i < 2 * length requests)%nat ->
               queue_at w' (next_queue w + i) = mkQueue 0 []).
Proof.
  intros Hrequests Hin Hout Hdistinct Hroom Hitems Hfuel.
  destruct (run_loop_serves requests (Server.set_running true s) w later fuel)
    as (w' & Hrun & Hlog & Hleft & Hanswers & Hnext & Hstarted & Hold & Hnew);
    auto.
  exists (Server.set_running false
            (AbstractStoppableEntity.remember (VQueue (Server.input_queue s))
               (Server.set_running true s))), w'.
  split; [exact Hrun|]. split; [reflexivity|]. split.
  { destruct (remember_server (VQueue (Server.input_queue s))
                (Server.set_running true s)) as [l Hl].
    destruct (remember_invariant (VQueue (Server.input_queue s))
                (Server.set_running true s)) as (Hrec & _).
    rewrite Hl in *. exact Hrec. }
  split_conj; try done.
  rewrite Hstarted. simpl Server.invoke_workers.
  destruct (Server.invoke_workers s); [|done].
  f_equal. clear. generalize (next_queue w).
  induction (length requests) as [|k IH]; intros n; simpl; [done|].
  by rewrite IH.
Qed.

Lemma server_run_serves_witness :
  exists s' w',
    AbstractServer.run 3 Scene.server
      (Demo.world_of
         [(0%nat, [hello_signal; VStr "anything"; finish_signal;
                   hello_signal])]) =
    (Returned tt, s', w') /\
    Server.running s' = false /\
    items (queue_at w' 0) = [hello_signal] /\
    items (queue_at w' 1) =
      [VTuple [VQueue 10; VQueue 11]; VTuple [VQueue 12; VQueue 13]] /\
    length (started w') = 2%nat.
Proof.
  destruct (server_run_serves_requests_until_finish Scene.server
              (Demo.world_of
                 [(0%nat, [hello_signal; VStr "anything"; finish_signal;
                           hello_signal])])
              [hello_signal; VStr "anything"] [hello_signal] 3)
    as (s' & w' & Hrun & Hrunning & _ & _ & Hleft & Hanswers & _ & Hstarted & _).
  - intros m [<-|[<-|[]]]; discriminate.
  - vm_compute. lia.
  - vm_compute. lia.
  - discriminate.
  - vm_compute. discriminate.
  - reflexivity.
  - simpl. lia.
  - exists s', w'. split; [exact Hrun|]. split; [exact Hrunning|].
    split; [exact Hleft|]. split; [exact Hanswers|].
    rewrite Hstarted. reflexivity.
Defined.

(** X2. Stopping a listening server.  The server waits in its loop on its
    input queue, the only queue it ever waited on, and some requests are
    pending there.  [finish()] appends [FINISH] to that queue; the loop,
    taken up again, first serves every pending request and then stops:
    the marker does not overtake what was queued before it. *)
Theorem finish_stops_server_after_pending_requests
    (s : Server.t) (w : world) (pending : list value) (fuel : nat) :
  Server.running s = true ->
  Server.waiting_queues s = [VQueue (Server.input_queue s)] ->
  (forall m, In m pending -> m <> finish_signal) ->
  (Server.input_queue s < next_queue w)%nat ->
  (Server.output_queue s < next_queue w)%nat ->
  Server.input_queue s <> Server.output_queue s ->
  maxsize (queue_at w (Server.output_queue s)) <= 0 ->
  items (queue_at w (Server.input_queue s)) = pending ->
  full (queue_at w (Server.input_queue s)) = false ->
  (length pending < fuel)%nat ->
  exists w1 w2,
    AbstractStoppableEntity.finish s w = (Returned tt, s, w1) /\
    log w1 = log w ++ [EvPut (Server.input_queue s) finish_signal] /\
    AbstractServer.run_loop fuel s w1 =
      (Returned tt, Server.set_running false s, w2) /\
    items (queue_at w2 (Server.input_queue s)) = [] /\
    items (queue_at w2 (Server.output_queue s)) =
      items (queue_at w (Server.output_queue s)) ++
      Served.answers (next_queue w) (length pending) /\
    log w2 =
      log w1 ++
      Served.turns (Server.input_queue s) (Server.output_queue s)
        (next_queue w) pending ++
      [EvGet (Server.input_queue s) finish_signal].
Proof.
  intros Hrunning Hwaiting Hpending Hin Hout Hdistinct Hroom Hitems Hfree
    Hfuel.
  set (w1 := enqueue (Server.input_queue s) finish_signal w).
  assert (AbstractStoppableEntity.finish s w = (Returned tt, s, w1)) as Hfinish.
  { unfold AbstractStoppableEntity.finish, attr, bind.
    simpl AbstractStoppableEntity.waiting_queues. rewrite Hwaiting. simpl.
    unfold bind, queue_put. by rewrite Hfree. }
  destruct (run_loop_serves pending s w1 [] fuel)
    as (w2 & Hrun & Hlog & Hleft & Hanswers & _); auto.
  - subst w1. rewrite maxsize_enqueue. done.
  - subst w1. rewrite queue_at_enqueue. destruct (decide _); [|done].
    simpl. by rewrite Hitems.
  - exists w1, w2. split; [exact Hfinish|]. split; [reflexivity|].
    assert (AbstractStoppableEntity.remember (VQueue (Server.input_queue s)) s
            = s) as Hsame.
    { destruct (remember_cases (VQueue (Server.input_queue s)) s)
        as [[_ ->]|[Hnot _]]; [done|].
      destruct Hnot. simpl. rewrite Hwaiting. by left. }
    rewrite Hsame in Hrun. split; [exact Hrun|]. split; [exact Hleft|].
    split; [|exact Hlog].
    rewrite Hanswers. subst w1. rewrite queue_at_enqueue.
    destruct (decide _); [congruence|done].
Qed.

Lemma finish_stops_server_witness :
  exists w1 w2,
    AbstractStoppableEntity.finish Scene.server
      (Demo.world_of [(0%nat, [hello_signal])]) = (Returned tt, Scene.server, w1) /\
    AbstractServer.run_loop 2 Scene.server w1 =
      (Returned tt, Server.set_running false Scene.server, w2) /\
    items (queue_at w2 1) = [VTuple [VQueue 10; VQueue 11]].
Proof.
  destruct (finish_stops_server_after_pending_requests Scene.server
              (Demo.world_of [(0%nat, [hello_signal])]) [hello_signal] 2)
    as (w1 & w2 & Hfinish & _ & Hrun & _ & Hanswers & _).
  - reflexivity.
  - reflexivity.
  - intros m [<-|[]]. discriminate.
  - vm_compute. lia.
  - vm_compute. lia.
  - discriminate.
  - vm_compute. discriminate.
  - reflexivity.
  - reflexivity.
  - simpl. lia.
  - exists w1, w2. split; [exact Hfinish|]. split; [exact Hrun|exact Hanswers].
Defined.

(** [put_each] that meets a full queue. *)
Lemma put_each_blocks {S} `{AbstractStoppableEntity.Stoppable S}
    (before : list value) (q : nat) (after : list value) (v : value) (s : S) :
  forall w,
    List.NoDup (before ++ [VQueue q]) ->
    (forall x, In x before ->
       exists q', x = VQueue q' /\ full (queue_at w q') = false) ->
    full (queue_at w q) = true ->
    exists w' evs,
      AbstractStoppableEntity.put_each (before ++ VQueue q :: after) v s w =
        (Blocked, s, w') /\
      log w' = log w ++ evs /\
      length evs = length before /\
      (forall q', In (VQueue q') before -> In (EvPut q' v) evs) /\
      (forall q', ~ In (VQueue q') before -> queue_at w' q' = queue_at w q').
Proof.
  induction before as [|x before IH]; intros w Hnodup Hready Hfull; simpl.
  - exists w, []. rewrite app_nil_r. split_conj; try done.
    unfold bind, queue_put. by rewrite Hfull.
  - destruct (Hready x (or_introl eq_refl)) as (q0 & -> & Hroom).
    simpl in Hnodup. inversion_clear Hnodup as [|? ? Hnotin Hnodup'].
    assert (q0 <> q) as Hne.
    { intros ->. apply Hnotin, in_or_app. right. by left. }
    unfold bind at 1. unfold queue_put at 1. rewrite Hroom.
    destruct (IH (enqueue q0 v w) Hnodup') as (w' & evs & Hrun & Hlog & Hlen & Hin & Hout).
    + intros x Hx. destruct (Hready x (or_intror Hx)) as (q' & -> & Hroom').
      exists q'. split; [done|]. rewrite queue_at_enqueue.
      destruct (decide (q0 = q')) as [->|]; [|done].
      destruct Hnotin. apply in_or_app. by left.
    + rewrite queue_at_enqueue. by destruct (decide (q0 = q)).
    + exists w', (EvPut q0 v :: evs). split; [exact Hrun|]. split_conj.
      * by rewrite Hlog, log_enqueue, <- app_assoc.
      * simpl. by rewrite Hlen.
      * intros q' [[= <-]|Hq']; [by left|]. right. by apply Hin.
      * intros q' Hq'. rewrite Hout by tauto. rewrite queue_at_enqueue.
        destruct (decide (q0 = q')) as [<-|]; [|done]. destruct Hq'. by left.
Qed.

(** X3. [finish()] can wait.  When one of the recorded queues is full
    (the bounded input queue of a server with [max_connections] requests
    pending), [finish] has put [FINISH] on the queues recorded before it
    and is suspended there: the queues recorded after it, and every
    other queue, have received nothing. *)
Theorem finish_waits_at_a_full_queue {S} `{AbstractStoppableEntity.Stoppable S}
    (s : S) (w : world) (before after : list value) (q : nat) :
  AbstractStoppableEntity.waiting_queues s = before ++ VQueue q :: after ->
  List.NoDup (before ++ [VQueue q]) ->
  (forall x, In x before ->
     exists q', x = VQueue q' /\ full (queue_at w q') = false) ->
  full (queue_at w q) = true ->
  exists w' evs,
    AbstractStoppableEntity.finish s w = (Blocked, s, w') /\
    log w' = log w ++ evs /\
    length evs = length before /\
    (forall q', In (VQueue q') before -> In (EvPut q' finish_signal) evs) /\
    (forall q', ~ In (VQueue q') before -> queue_at w' q' = queue_at w q').
Proof.
  intros Hwaiting Hnodup Hready Hfull.
  destruct (put_each_blocks before q after finish_signal s w Hnodup Hready
              Hfull) as (w' & evs & Hrun & Hrest).
  exists w', evs. split; [|exact Hrest].
  unfold AbstractStoppableEntity.finish, attr, bind. by rewrite Hwaiting.
Qed.

Lemma finish_waits_witness :
  AbstractStoppableEntity.finish Scene.server
    (Scene.crowded [hello_signal; hello_signal]) =
  (Blocked, Scene.server, Scene.crowded [hello_signal; hello_signal]).
Proof.
  destruct (finish_waits_at_a_full_queue Scene.server
              (Scene.crowded [hello_signal; hello_signal]) [] [] 0)
    as (w' & evs & Hrun & Hlog & Hlen & _).
  - reflexivity.
  - repeat constructor; simpl; tauto.
  - intros x [].
  - reflexivity.
  - destruct evs; [|discriminate Hlen]. rewrite Hrun. f_equal.
    vm_compute in Hrun. injection Hrun as <-. reflexivity.
Defined.

(** X4. [AbstractServer] without a subclass.  Its [run] stops on [FINISH]
    like any server's; on any other message [connect] reaches
    [get_new_worker], [NotImplementedError] ends the thread, and nothing
    is put on the output queue for the caller, who has lost its request.
    [create_worker] raises as well. *)
Theorem abstract_server_serves_nobody (s : Abstract.t) (w : world)
    (m : value) (rest : list value) (fuel : nat) :
  items (queue_at w (Abstract.input_queue s)) = m :: rest ->
  AbstractServer.run (Datatypes.S fuel) s w =
    (if AbstractStoppableEntity.is_finish_signal m
     then Returned tt else Raised NotImplementedError,
     (if AbstractStoppableEntity.is_finish_signal m
      then Abstract.set_running false else id)
       (AbstractStoppableEntity.remember (VQueue (Abstract.input_queue s))
          (Abstract.set_running true s)),
     dequeue (Abstract.input_queue s) m rest w) /\
  AbstractServer.create_worker s w = (Raised NotImplementedError, s, w).
Proof.
  intros Hin. split; [|reflexivity].
  unfold AbstractServer.run. unfold assign at 1. unfold bind at 1.
  simpl AbstractServer.run_loop. unfold attr at 1. unfold bind at 1.
  simpl. unfold AbstractServer.run_body.
  unfold attr at 1. unfold bind at 1. unfold bind at 1.
  simpl AbstractEntity.input_queue.
  rewrite (bind_returned _ _ _ _ _ _ _ (get_from_queue_returned _ _ _ _ _ Hin)).
  destruct (AbstractStoppableEntity.is_finish_signal m).
  - unfold assign. simpl. by destruct fuel.
  - reflexivity.
Qed.

Lemma abstract_server_witness :
  AbstractServer.run 1 Scene.abstract_server
    (Demo.world_of [(0%nat, [hello_signal])]) =
  (Raised NotImplementedError,
   Abstract.set_waiting_queues [VQueue 0] Scene.abstract_server,
   dequeue 0 hello_signal [] (Demo.world_of [(0%nat, [hello_signal])])).
Proof.
  apply (proj1 (abstract_server_serves_nobody Scene.abstract_server
                  (Demo.world_of [(0%nat, [hello_signal])])
                  hello_signal [] 0 eq_refl)).
Defined.

(** ** The handshake *)

Lemma repeat_snoc {A} (x : A) (n : nat) :
  repeat x n ++ [x] = repeat x (Datatypes.S n).
Proof. induction n as [|n IH]; simpl; [done|]. by rewrite IH. Qed.

(** X5. Admission.  Callers that try [establish_connection] on an endpoint
    that does not answer, whose input queue was built with [maxsize = c]
    and is empty: each of the first [c] leaves its [HELLO] there and
    waits for an answer; from then on a caller waits before it has put
    anything, so that the queue never holds more than [c] requests.
    With [c = 0] the queue is unbounded and every [HELLO] gets in. *)
Theorem pending_handshakes_are_bounded {E} `{AbstractEntity.Entity E}
    (endpoint : E) (w : world) (c k : nat) :
  AbstractEntity.input_queue endpoint <> AbstractEntity.output_queue endpoint ->
  queue_at w (AbstractEntity.input_queue endpoint) = mkQueue (Z.of_nat c) [] ->
  items (queue_at w (AbstractEntity.output_queue endpoint)) = [] ->
  queue_at (knocked endpoint k w) (AbstractEntity.input_queue endpoint) =
    mkQueue (Z.of_nat c)
      (repeat hello_signal (if decide (c = 0%nat) then k else Nat.min k c)) /\
  items (queue_at (knocked endpoint k w)
           (AbstractEntity.output_queue endpoint)) = [].
Proof.
  intros Hdistinct Hinput Houtput.
  induction k as [|k [IHin IHout]].
  - simpl. split; [|done]. rewrite Hinput. by destruct (decide _).
  - change (knocked endpoint (Datatypes.S k) w)
      with (AbstractEntity.establish_connection endpoint tt
              (knocked endpoint k w)).2.
    set (wk := knocked endpoint k w) in *.
    unfold AbstractEntity.establish_connection, bind, queue_put.
    unfold full. rewrite IHin. cbn [maxsize items]. rewrite repeat_length.
    destruct (decide (c = 0%nat)) as [->|Hc].
    + change (0 <? Z.of_nat 0) with false. cbn [andb]. unfold queue_get.
      cbv beta iota zeta. rewrite queue_at_enqueue.
      destruct (decide _); [congruence|]. rewrite IHout. cbn [snd].
      rewrite !queue_at_enqueue. destruct (decide _); [|done].
      destruct (decide _); [congruence|].
      rewrite IHin. cbn [maxsize items]. by rewrite repeat_snoc.
    + destruct (0 <? Z.of_nat c) eqn:Hpos; [|apply Z.ltb_ge in Hpos; lia].
      cbn [andb].
      destruct (Z.of_nat (Nat.min k c) =? Z.of_nat c) eqn:Hfull.
      * apply Z.eqb_eq in Hfull. cbn [snd]. rewrite IHin, IHout.
        split; [|done]. do 2 f_equal. lia.
      * apply Z.eqb_neq in Hfull. unfold queue_get.
        cbv beta iota zeta. rewrite queue_at_enqueue.
        destruct (decide _); [congruence|]. rewrite IHout. cbn [snd].
        rewrite !queue_at_enqueue. destruct (decide _); [|done].
        destruct (decide _); [congruence|].
        rewrite IHin. cbn [maxsize items]. rewrite repeat_snoc.
        split; [|done]. do 2 f_equal. lia.
Qed.

Lemma pending_handshakes_witness :
  queue_at (knocked (Endpoint.Build 0 1) 5 (Scene.crowded [])) 0 =
  mkQueue 2 [hello_signal; hello_signal].
Proof.
  destruct (pending_handshakes_are_bounded (Endpoint.Build 0 1)
              (Scene.crowded []) 2 5) as [Hqueue _].
  - simpl. lia.
  - reflexivity.
  - reflexivity.
  - exact Hqueue.
Defined.

(** ** The worker off the expected path *)

Lemma bind_blocked {S A B} (m : M S A) (f : A -> M S B)
    (s s1 : S) (w w1 : world) :
  m s w = (Blocked, s1, w1) -> bind m f s w = (Blocked, s1, w1).
Proof. unfold bind. by intros ->. Qed.

Lemma bind_raised {S A B} (m : M S A) (f : A -> M S B) (e : exn)
    (s s1 : S) (w w1 : world) :
  m s w = (Raised e, s1, w1) -> bind m f s w = (Raised e, s1, w1).
Proof. unfold bind. by intros ->. Qed.

(** [put_each] leaves alone every queue that is not in its list. *)
Lemma put_each_frame {S} `{AbstractStoppableEntity.Stoppable S}
    (qs : list value) (v : value) (s : S) (w : world) (q : nat) :
  ~ In (VQueue q) qs ->
  queue_at (AbstractStoppableEntity.put_each qs v s w).2 q = queue_at w q.
Proof.
  revert w. induction qs as [|x qs IH]; intros w Hnotin; simpl; [done|].
  unfold bind at 1. unfold queue_put.
  destruct x as [ | | |q'| | ]; try done.
  destruct (full (queue_at w q')); [done|].
  rewrite IH by (intros Hin; apply Hnotin; by right).
  rewrite queue_at_enqueue. destruct (decide (q' = q)) as [->|]; [|done].
  destruct Hnotin. by left.
Qed.

Section WorkerEdges.
Variable decrypt : value -> value -> result value.
Variable prepare_inner_message :
  value -> value -> value -> value -> value -> result value.
Variable str : value -> string.

Abbreviation from_client :=
  (ServerWorker.process_message_from_client_and_generate_message_to_trusted
     prepare_inner_message str).
Abbreviation from_trusted :=
  (ServerWorker.process_message_from_trusted_and_generate_response_for_client
     decrypt).
Abbreviation run := (ServerWorker.run decrypt prepare_inner_message str).
Abbreviation run_reply := (ServerWorker.run_reply decrypt).

(** [run] when the client leg stops with an exception. *)
Lemma run_raises_on_client_leg (s s1 : Worker.t) (w w1 : world) (m : value)
    (rest : list value) (e : exn) :
  items (queue_at w (Worker.input_queue s)) = m :: rest ->
  from_client m
    (AbstractStoppableEntity.remember (VQueue (Worker.input_queue s)) s)
    (dequeue (Worker.input_queue s) m rest w) = (Raised e, s1, w1) ->
  run s w = (Raised e, s1, w1).
Proof.
  intros Hin Hleg. unfold ServerWorker.run.
  unfold attr at 1. unfold bind at 1.
  rewrite (bind_returned _ _ _ _ _ _ _ (get_from_queue_returned _ _ _ _ _ Hin)).
  by apply bind_raised.
Qed.

(** [run_reply] when the Trusted-Server leg stops with an exception. *)
Lemma run_reply_raises (s s1 : Worker.t) (w w1 : world) (q : nat) (m : value)
    (rest : list value) (e : exn) :
  Worker.trusted_server_output_queue s = VQueue q ->
  items (queue_at w q) = m :: rest ->
  from_trusted m (AbstractStoppableEntity.remember (VQueue q) s)
    (dequeue q m rest w) = (Raised e, s1, w1) ->
  run_reply s w = (Raised e, s1, w1).
Proof.
  intros Hq Hin Hleg. unfold ServerWorker.run_reply.
  unfold attr at 1. unfold bind at 1. rewrite Hq.
  rewrite (bind_returned _ _ _ _ _ _ _ (get_from_queue_returned _ _ _ _ _ Hin)).
  by apply bind_raised.
Qed.

(** X6. A message that has no length.  [len] raises, [TypeError] on
    [None] and on a number, [AttributeError] on a [Queue], and neither
    leg catches either of them: [run] ends with that exception after the
    one [get], on the client's message as on the Trusted Server's reply,
    and the client is never answered. *)
Theorem message_without_length_ends_the_worker (s : Worker.t) (w : world) :
  (forall m rest e,
     items (queue_at w (Worker.input_queue s)) = m :: rest ->
     Py.len m = Raise e ->
     run s w =
     (Raised e,
      AbstractStoppableEntity.remember (VQueue (Worker.input_queue s)) s,
      dequeue (Worker.input_queue s) m rest w)) /\
  (forall q m rest e,
     Worker.trusted_server_output_queue s = VQueue q ->
     items (queue_at w q) = m :: rest ->
     Py.len m = Raise e ->
     run_reply s w =
     (Raised e, AbstractStoppableEntity.remember (VQueue q) s,
      dequeue q m rest w)) /\
  (forall m e,
     Py.len m = Raise e ->
     (e = TypeError /\ (m = VNone \/ exists z, m = VInt z)) \/
     (e = AttributeError /\ exists q, m = VQueue q)).
Proof.
  split; [|split].
  - intros m rest e Hin Hlen.
    apply (run_raises_on_client_leg _ _ _ _ m rest); auto.
    by eapply from_client_not_sized.
  - intros q m rest e Hq Hin Hlen.
    apply (run_reply_raises _ _ _ _ q m rest); auto.
    by eapply from_trusted_not_sized.
  - intros m e Hlen. destruct m; simpl in Hlen; try discriminate;
      injection Hlen as <-; eauto.
Qed.

(** X7. Where an exception of [Utils] goes.  [prepare_inner_message] is
    called after the [try] of the client leg: whatever it raises, even
    [IndexError], ends [run], with the nonce already drawn and stored and
    the client not answered.  [decrypt] is called inside the [try] of the
    other leg: its [IndexError] or [InvalidMessage] becomes the answer
    [ERROR], anything else ends [run]. *)
Theorem utils_exceptions_caught_or_not (s : Worker.t) (w : world) :
  (forall m a b c d rest e,
     items (queue_at w (Worker.input_queue s)) = m :: rest ->
     Py.elements m = Ok [a; b; c; d] ->
     c = Worker.server_id s ->
     prepare_inner_message (Worker.server_key s) (VStr (str (next_key w)))
       a b c = Raise e ->
     run s w =
     (Raised e,
      Worker.set_nonce (VStr (str (next_key w)))
        (ServerWorker.unpacked a b c
           (AbstractStoppableEntity.remember
              (VQueue (Worker.input_queue s)) s)),
      drawn (dequeue (Worker.input_queue s) m rest w))) /\
  (forall q m r bc bs rest e,
     Worker.trusted_server_output_queue s = VQueue q ->
     items (queue_at w q) = m :: rest ->
     Py.elements m = Ok [r; bc; bs] ->
     decrypt bs (Worker.server_key s) = Raise e ->
     maxsize (queue_at w (Worker.output_queue s)) <= 0 ->
     run_reply s w =
     if existsb (exn_eqb e) [IndexError; InvalidMessage]
     then (Returned tt,
           Worker.set_trusted_random_value r
             (AbstractStoppableEntity.remember (VQueue q) s),
           enqueue (Worker.output_queue s) error_signal (dequeue q m rest w))
     else (Raised e,
           Worker.set_trusted_random_value r
             (AbstractStoppableEntity.remember (VQueue q) s),
           dequeue q m rest w)).
Proof.
  split.
  - intros m a b c d rest e Hin Hm Hc Hraise.
    destruct (remember_worker (VQueue (Worker.input_queue s)) s) as [l Hl].
    apply (run_raises_on_client_leg _ _ _ _ m rest); auto.
    rewrite (from_client_accepted _ _ _ a b c d); auto.
    + rewrite Hl. simpl. fold (next_key w). by rewrite Hraise.
    + by rewrite Hl.
  - intros q m r bc bs rest e Hq Hin Hm Hraise Hroom.
    destruct (remember_worker (VQueue q) s) as [l Hl].
    assert (from_trusted m (AbstractStoppableEntity.remember (VQueue q) s)
              (dequeue q m rest w) =
            (if existsb (exn_eqb e) [IndexError; InvalidMessage]
             then Returned error_signal else Raised e,
             Worker.set_trusted_random_value r
               (AbstractStoppableEntity.remember (VQueue q) s),
             dequeue q m rest w)) as Hleg.
    { apply (from_trusted_decrypt_raises _ _ r bc bs); auto. by rewrite Hl. }
    destruct (existsb _ _).
    + apply (run_reply_rejects _ _ rest _ _ _ q); auto. by rewrite Hl.
    + by apply (run_reply_raises _ _ _ _ q m rest).
Qed.

(** The worker in the middle of the handshake: the message is accepted,
    [HELLO] is sent, and the Trusted Server has not answered. *)
Lemma run_waits_for_the_handshake (s : Worker.t) (w : world)
    (m a b c d block : value) (rest : list value) :
  let own_input := Worker.input_queue s in
  let to_server := Endpoint.input_queue (Worker.trusted_server s) in
  let from_server := Endpoint.output_queue (Worker.trusted_server s) in
  Py.elements m = Ok [a; b; c; d] ->
  c = Worker.server_id s ->
  prepare_inner_message (Worker.server_key s) (VStr (str (next_key w)))
    a b c = Ok block ->
  items (queue_at w own_input) = m :: rest ->
  own_input <> to_server -> own_input <> from_server ->
  to_server <> from_server ->
  full (queue_at w to_server) = false ->
  items (queue_at w from_server) = [] ->
  run s w =
  (Blocked,
   Worker.set_nonce (VStr (str (next_key w)))
     (ServerWorker.unpacked a b c
        (AbstractStoppableEntity.remember (VQueue own_input) s)),
   enqueue to_server hello_signal (drawn (dequeue own_input m rest w))).
Proof.
  intros own_input to_server from_server Hm Hc Hblock Hin H12 H13 H23
    Hroom Hempty.
  destruct (remember_worker (VQueue own_input) s) as [l Hl].
  rewrite Hl. set (s0 := Worker.set_waiting_queues l s).
  set (w0 := dequeue own_input m rest w).
  set (s1 := Worker.set_nonce (VStr (str (next_key w)))
               (ServerWorker.unpacked a b c s0)).
  assert (from_client m s0 w0 =
          (Returned (VTuple [a; b; c; d; block]), s1, drawn w0)) as Hclient.
  { rewrite (from_client_accepted _ _ _ a b c d); auto.
    simpl. fold (next_key w). by rewrite Hblock. }
  rewrite run_in_parts_eq. unfold ServerWorker.run_in_parts.
  unfold attr at 1. unfold bind at 1.
  rewrite (bind_returned _ _ _ _ _ _ _ (get_from_queue_returned _ _ _ _ _ Hin)).
  fold own_input. rewrite Hl. fold s0 w0.
  rewrite (bind_returned _ _ _ _ _ _ _ Hclient).
  change (AbstractEntity.is_message_error (VTuple [a; b; c; d; block]))
    with false.
  simpl. unfold ServerWorker.run_exchange. apply bind_blocked.
  unfold ServerWorker.connect_to_trusted. unfold attr at 1. unfold bind at 1.
  apply bind_blocked.
  unfold AbstractEntity.establish_connection, bind, queue_put, queue_get.
  simpl. fold to_server from_server.
  assert (full (queue_at (drawn w0) to_server) = false) as ->.
  { rewrite queue_at_drawn. subst w0. rewrite queue_at_dequeue.
    by destruct (decide (own_input = to_server)). }
  assert (items (queue_at (enqueue to_server hello_signal (drawn w0))
                   from_server) = []) as ->.
  { rewrite queue_at_enqueue. destruct (decide (to_server = from_server));
      [done|].
    rewrite queue_at_drawn. subst w0. rewrite queue_at_dequeue.
    by destruct (decide (own_input = from_server)). }
  reflexivity.
Qed.

(** X8. [finish] does not reach a worker that waits for the handshake.
    [establish_connection] calls [get] on the Trusted Server's output
    queue itself, not through [get_from_queue], so that queue is not in
    [waiting_queues]: the worker stops there after its [get] and the
    [put] of [HELLO], and a [finish] at that point leaves the queue as
    empty as it was, so the [get] goes on waiting. *)
Theorem finish_does_not_reach_the_handshake (s : Worker.t) (w : world)
    (m a b c d block : value) (rest : list value) :
  let own_input := Worker.input_queue s in
  let to_server := Endpoint.input_queue (Worker.trusted_server s) in
  let from_server := Endpoint.output_queue (Worker.trusted_server s) in
  Py.elements m = Ok [a; b; c; d] ->
  c = Worker.server_id s ->
  prepare_inner_message (Worker.server_key s) (VStr (str (next_key w)))
    a b c = Ok block ->
  items (queue_at w own_input) = m :: rest ->
  own_input <> to_server -> own_input <> from_server ->
  to_server <> from_server ->
  full (queue_at w to_server) = false ->
  items (queue_at w from_server) = [] ->
  ~ In (VQueue from_server) (Worker.waiting_queues s) ->
  exists s1 w1,
    run s w = (Blocked, s1, w1) /\
    log w1 = log w ++ [EvGet own_input m; EvPut to_server hello_signal] /\
    In (VQueue own_input) (Worker.waiting_queues s1) /\
    ~ In (VQueue from_server) (Worker.waiting_queues s1) /\
    forall w2,
      w2 = (AbstractStoppableEntity.finish s1 w1).2 ->
      queue_at w2 from_server = queue_at w from_server /\
      queue_get (VQueue from_server) s1 w2 = (Blocked, s1, w2).
Proof.
  intros own_input to_server from_server Hm Hc Hblock Hin H12 H13 H23
    Hroom Hempty Hnotin.
  eexists _, _. split.
  { apply (run_waits_for_the_handshake s w m a b c d block rest); auto. }
  fold own_input to_server.
  pose proof (remember_invariant (VQueue own_input) s) as (Hown & _ & _).
  assert (~ In (VQueue from_server)
            (Worker.waiting_queues
               (AbstractStoppableEntity.remember (VQueue own_input) s)))
    as Hnotin'.
  { destruct (remember_cases (VQueue own_input) s) as [[_ ->]|[_ Hw]];
      [done|].
    change (Worker.waiting_queues ?x)
      with (AbstractStoppableEntity.waiting_queues x).
    rewrite Hw. intros [Hold|[[= Heq]|[]]]%in_app_or; [done|].
    by apply H13. }
  split; [|split; [|split]].
  - rewrite log_enqueue. change (log (drawn ?x)) with (log x).
    by rewrite log_dequeue, <- app_assoc.
  - exact Hown.
  - exact Hnotin'.
  - intros w2 ->.
    assert (queue_at
              (AbstractStoppableEntity.finish
                 (Worker.set_nonce (VStr (str (next_key w)))
                    (ServerWorker.unpacked a b c
                       (AbstractStoppableEntity.remember
                          (VQueue own_input) s)))
                 (enqueue to_server hello_signal
                    (drawn (dequeue own_input m rest w)))).2 from_server =
            queue_at w from_server) as Hsame.
    { unfold AbstractStoppableEntity.finish. unfold attr at 1.
      unfold bind at 1. rewrite put_each_frame by exact Hnotin'.
      rewrite queue_at_enqueue.
      destruct (decide (to_server = from_server)); [done|].
      rewrite queue_at_drawn, queue_at_dequeue.
      by destruct (decide (own_input = from_server)). }
    split; [exact Hsame|].
    unfold queue_get. by rewrite Hsame, Hempty.
Qed.

(** X9. A whole run.  The client's 4-field message names this server;
    the Trusted Server has room for [HELLO], has answered the handshake
    with a pair of session queues, and its reply [(a, bc, bs)] on the
    second of them echoes the client's random value [a] and, inside
    [bs], the nonce this run draws.  Then [run] returns after exactly six
    queue operations, the last of which hands [(a, bc)] to the client,
    and the session key of the reply is stored. *)
Theorem run_relays_the_session_to_the_client (s : Worker.t) (w : world)
    (a b c d block bc bs : value) (plain k : string)
    (rest rest' rest'' : list value) (to_trusted from_trusted : nat) :
  let own_input := Worker.input_queue s in
  let own_output := Worker.output_queue s in
  let to_server := Endpoint.input_queue (Worker.trusted_server s) in
  let from_server := Endpoint.output_queue (Worker.trusted_server s) in
  let handshake := VTuple [VQueue to_trusted; VQueue from_trusted] in
  c = Worker.server_id s ->
  prepare_inner_message (Worker.server_key s) (VStr (str (next_key w)))
    a b c = Ok block ->
  decrypt bs (Worker.server_key s) = Ok (VStr plain) ->
  Py.split ":" plain = [str (next_key w); k] ->
  List.NoDup [own_input; to_server; from_server; to_trusted] ->
  from_trusted <> own_input -> from_trusted <> to_server ->
  from_trusted <> from_server -> from_trusted <> to_trusted ->
  items (queue_at w own_input) = VTuple [a; b; c; d] :: rest ->
  full (queue_at w to_server) = false ->
  items (queue_at w from_server) = handshake :: rest' ->
  full (queue_at w to_trusted) = false ->
  items (queue_at w from_trusted) = VTuple [a; bc; bs] :: rest'' ->
  maxsize (queue_at w own_output) <= 0 ->
  exists s' w',
    run s w = (Returned tt, s', w') /\
    log w' = log w ++
      [EvGet own_input (VTuple [a; b; c; d]);
       EvPut to_server hello_signal;
       EvGet from_server handshake;
       EvPut to_trusted (VTuple [a; b; c; d; block]);
       EvGet from_trusted (VTuple [a; bc; bs]);
       EvPut own_output (VTuple [a; bc])] /\
    Worker.session_key s' = VStr k.
Proof.
  intros own_input own_output to_server from_server handshake.
  apply (run_completes decrypt prepare_inner_message str s w a b c d block
           bc bs plain k rest rest' rest'').
Qed.

(** X10. A reply that is rejected has already replaced the session key.
    [unpack_nested_message_from_trusted] assigns [trusted_nonce] and
    [session_key] before the random value and the nonce are compared:
    when the reply [(r, bc, bs)] decrypts to ["n:k"] but [r] is not the
    client's random value or [n] is not the worker's nonce, the client
    gets [ERROR], and the worker holds [n] and [k] all the same. *)
Theorem rejected_reply_has_replaced_the_session_key (s : Worker.t)
    (w : world) (q : nat) (m r bc bs : value) (plain n k : string)
    (rest : list value) :
  Worker.trusted_server_output_queue s = VQueue q ->
  items (queue_at w q) = m :: rest ->
  Py.elements m = Ok [r; bc; bs] ->
  decrypt bs (Worker.server_key s) = Ok (VStr plain) ->
  Py.split ":" plain = [n; k] ->
  r <> Worker.client_random_value s \/ VStr n <> Worker.nonce s ->
  maxsize (queue_at w (Worker.output_queue s)) <= 0 ->
  exists s' w',
    run_reply s w = (Returned tt, s', w') /\
    log w' = log w ++ [EvGet q m; EvPut (Worker.output_queue s) error_signal] /\
    Worker.trusted_random_value s' = r /\
    Worker.trusted_nonce s' = VStr n /\
    Worker.session_key s' = VStr k.
Proof.
  intros Hq Hin Hm Hd Hsplit Hbad Hroom.
  destruct (remember_worker (VQueue q) s) as [l Hl].
  exists (ServerWorker.received r (VStr n) (VStr k)
            (AbstractStoppableEntity.remember (VQueue q) s)),
    (enqueue (Worker.output_queue s) error_signal (dequeue q m rest w)).
  split.
  - apply (run_reply_rejects decrypt m rest s _ w q); auto.
    + rewrite (from_trusted_two_fields _ m r bc bs plain n k); auto.
      * rewrite Hl. simpl.
        assert (value_eqb r (Worker.client_random_value s)
                && value_eqb (VStr n) (Worker.nonce s) = false) as ->;
          [|reflexivity].
        apply andb_false_iff.
        destruct Hbad as [Hbad|Hbad]; [left|right]; by apply value_eqb_neq.
      * by rewrite Hl.
    + by rewrite Hl.
  - split; [by rewrite log_enqueue, log_dequeue, <- app_assoc|].
    by rewrite Hl.
Qed.

(** X11. The Trusted Server answers with something that has not three
    fields, its own ['ERROR'] for one.  A run that forwarded the
    client's message takes that answer from the session queue and, since
    its length is not 3, puts [ERROR] on the worker's output queue: six
    queue operations in all, and the run returns. *)
Theorem run_relays_an_error_of_the_trusted_server (s : Worker.t) (w : world)
    (m a b c d block reply : value) (len : Z)
    (rest rest' rest'' : list value) (to_trusted from_trusted : nat) :
  let own_input := Worker.input_queue s in
  let own_output := Worker.output_queue s in
  let to_server := Endpoint.input_queue (Worker.trusted_server s) in
  let from_server := Endpoint.output_queue (Worker.trusted_server s) in
  let handshake := VTuple [VQueue to_trusted; VQueue from_trusted] in
  Py.elements m = Ok [a; b; c; d] ->
  c = Worker.server_id s ->
  prepare_inner_message (Worker.server_key s) (VStr (str (next_key w)))
    a b c = Ok block ->
  List.NoDup [own_input; to_server; from_server; to_trusted] ->
  from_trusted <> own_input -> from_trusted <> to_server ->
  from_trusted <> from_server -> from_trusted <> to_trusted ->
  items (queue_at w own_input) = m :: rest ->
  full (queue_at w to_server) = false ->
  items (queue_at w from_server) = handshake :: rest' ->
  full (queue_at w to_trusted) = false ->
  items (queue_at w from_trusted) = reply :: rest'' ->
  Py.len reply = Ok len -> len <> 3 ->
  maxsize (queue_at w own_output) <= 0 ->
  exists s' w',
    run s w = (Returned tt, s', w') /\
    log w' = log w ++
      [EvGet own_input m;
       EvPut to_server hello_signal;
       EvGet from_server handshake;
       EvPut to_trusted (VTuple [a; b; c; d; block]);
       EvGet from_trusted reply;
       EvPut own_output error_signal].
Proof.
  intros own_input own_output to_server from_server handshake Hm Hc Hblock
    Hdistinct Hq1 Hq2 Hq3 Hq4 Hin Hroom1 Hhandshake Hroom2 Hreply Hlen Hthree
    Hroom3.
  destruct (run_forwards decrypt prepare_inner_message str s w m a b c d
              block rest rest' handshake (VQueue from_trusted) to_trusted
              Hm Hc Hblock Hin Hdistinct Hroom1 Hhandshake eq_refl Hroom2)
    as (s3 & w3 & -> & Hlog & Hnonce & Hrandom & Hkey & Hout & Hfrom & Hframe
        & Hsize).
  destruct (remember_worker (VQueue from_trusted) s3) as [l Hl].
  rewrite (run_reply_rejects decrypt reply rest'' s3
             (AbstractStoppableEntity.remember (VQueue from_trusted) s3)
             w3 from_trusted); auto.
  - eexists _, _. split; [reflexivity|].
    rewrite log_enqueue, log_dequeue, Hlog, Hout, <- !app_assoc.
    reflexivity.
  - by rewrite Hframe.
  - by eapply from_trusted_wrong_length.
  - by rewrite Hl.
  - by rewrite Hout, Hsize.
Qed.

End WorkerEdges.

Lemma message_without_length_witness :
  ServerWorker.run Demo.decrypt Demo.prepare_inner_message Demo.str
    Demo.worker (Demo.world_of [(0%nat, [VNone])]) =
  (Raised TypeError,
   AbstractStoppableEntity.remember (VQueue 0) Demo.worker,
   dequeue 0 VNone [] (Demo.world_of [(0%nat, [VNone])])) /\
  ServerWorker.run Demo.decrypt Demo.prepare_inner_message Demo.str
    Demo.worker (Demo.world_of [(0%nat, [VQueue 6])]) =
  (Raised AttributeError,
   AbstractStoppableEntity.remember (VQueue 0) Demo.worker,
   dequeue 0 (VQueue 6) [] (Demo.world_of [(0%nat, [VQueue 6])])) /\
  ServerWorker.run_reply Demo.decrypt Demo.worker_waiting
    (Demo.world_of [(5%nat, [VInt 3])]) =
  (Raised TypeError,
   AbstractStoppableEntity.remember (VQueue 5) Demo.worker_waiting,
   dequeue 5 (VInt 3) [] (Demo.world_of [(5%nat, [VInt 3])])).
Proof.
  split; [|split].
  - apply (proj1 (message_without_length_ends_the_worker Demo.decrypt
                    Demo.prepare_inner_message Demo.str Demo.worker
                    (Demo.world_of [(0%nat, [VNone])]))
             VNone [] TypeError); reflexivity.
  - apply (proj1 (message_without_length_ends_the_worker Demo.decrypt
                    Demo.prepare_inner_message Demo.str Demo.worker
                    (Demo.world_of [(0%nat, [VQueue 6])]))
             (VQueue 6) [] AttributeError); reflexivity.
  - apply (proj1 (proj2 (message_without_length_ends_the_worker Demo.decrypt
                           Demo.prepare_inner_message Demo.str
                           Demo.worker_waiting
                           (Demo.world_of [(5%nat, [VInt 3])])))
             5%nat (VInt 3) [] TypeError); reflexivity.
Defined.

Lemma utils_exceptions_witness :
  (ServerWorker.run Demo.decrypt (fun _ _ _ _ _ => Raise IndexError)
     Demo.str Demo.worker (Demo.world_of [(0%nat, [Demo.request])])).1.1 =
  Raised IndexError /\
  (ServerWorker.run_reply (fun _ _ => Raise IndexError) Demo.worker_waiting
     (Demo.world_of [(5%nat, [Demo.reply])])).1.1 = Returned tt /\
  (ServerWorker.run_reply (fun _ _ => Raise AttributeError)
     Demo.worker_waiting
     (Demo.world_of [(5%nat, [Demo.reply])])).1.1 = Raised AttributeError.
Proof.
  split; [|split].
  - rewrite (proj1 (utils_exceptions_caught_or_not Demo.decrypt
                      (fun _ _ _ _ _ => Raise IndexError) Demo.str
                      Demo.worker (Demo.world_of [(0%nat, [Demo.request])]))
               Demo.request (VStr "r") (VStr "c1") (VStr "s1")
               (VStr "from-c1") [] IndexError); reflexivity.
  - rewrite (proj2 (utils_exceptions_caught_or_not
                      (fun _ _ => Raise IndexError)
                      Demo.prepare_inner_message Demo.str
                      Demo.worker_waiting
                      (Demo.world_of [(5%nat, [Demo.reply])]))
               5%nat Demo.reply (VStr "r") (VStr "for-c1")
               (Demo.encrypt "42:session" (VInt 7)) [] IndexError);
      reflexivity.
  - rewrite (proj2 (utils_exceptions_caught_or_not
                      (fun _ _ => Raise AttributeError)
                      Demo.prepare_inner_message Demo.str
                      Demo.worker_waiting
                      (Demo.world_of [(5%nat, [Demo.reply])]))
               5%nat Demo.reply (VStr "r") (VStr "for-c1")
               (Demo.encrypt "42:session" (VInt 7)) [] AttributeError);
      reflexivity.
Defined.

Lemma finish_does_not_reach_witness :
  exists s1 w1,
    ServerWorker.run Demo.decrypt Demo.prepare_inner_message Demo.str
      Demo.worker (Demo.world_of [(0%nat, [Demo.request])]) =
    (Blocked, s1, w1) /\
    log w1 = [EvGet 0 Demo.request; EvPut 2 hello_signal] /\
    In (VQueue 0) (Worker.waiting_queues s1) /\
    queue_get (VQueue 3) s1 (AbstractStoppableEntity.finish s1 w1).2 =
    (Blocked, s1, (AbstractStoppableEntity.finish s1 w1).2).
Proof.
  destruct (finish_does_not_reach_the_handshake Demo.decrypt
              Demo.prepare_inner_message Demo.str Demo.worker
              (Demo.world_of [(0%nat, [Demo.request])]) Demo.request
              (VStr "r") (VStr "c1") (VStr "s1") (VStr "from-c1")
              (Demo.encrypt "42:r:c1:s1" (VInt 7)) [])
    as (s1 & w1 & Hrun & Hlog & Hown & _ & Hfinish);
    try reflexivity; try (simpl; lia); try (simpl; tauto).
  exists s1, w1. split; [exact Hrun|]. split; [exact Hlog|].
  split; [exact Hown|]. exact (proj2 (Hfinish _ eq_refl)).
Defined.

Lemma run_relays_the_session_witness :
  exists s' w',
    ServerWorker.run Demo.decrypt Demo.prepare_inner_message Demo.str
      Demo.worker
      (Demo.world_of [(0%nat, [Demo.request]);
                      (3%nat, [VTuple [VQueue 4; VQueue 5]]);
                      (5%nat, [Demo.reply])]) = (Returned tt, s', w') /\
    log w' =
      [EvGet 0 Demo.request; EvPut 2 hello_signal;
       EvGet 3 (VTuple [VQueue 4; VQueue 5]);
       EvPut 4 (VTuple [VStr "r"; VStr "c1"; VStr "s1"; VStr "from-c1";
                        Demo.encrypt "42:r:c1:s1" (VInt 7)]);
       EvGet 5 Demo.reply;
       EvPut 1 (VTuple [VStr "r"; VStr "for-c1"])] /\
    Worker.session_key s' = VStr "session".
Proof.
  apply (run_relays_the_session_to_the_client Demo.decrypt
           Demo.prepare_inner_message Demo.str Demo.worker
           (Demo.world_of [(0%nat, [Demo.request]);
                           (3%nat, [VTuple [VQueue 4; VQueue 5]]);
                           (5%nat, [Demo.reply])])
           (VStr "r") (VStr "c1") (VStr "s1") (VStr "from-c1")
           (Demo.encrypt "42:r:c1:s1" (VInt 7)) (VStr "for-c1")
           (Demo.encrypt "42:session" (VInt 7)) "42:session" "session"
           [] [] [] 4%nat 5%nat);
    try reflexivity; try (simpl; lia).
  repeat constructor; simpl; intuition lia.
Defined.

Lemma rejected_reply_witness :
  exists s' w',
    ServerWorker.run_reply Demo.decrypt Demo.worker_waiting
      (Demo.world_of
         [(5%nat, [VTuple [VStr "r"; VStr "for-c1";
                           Demo.encrypt "41:stale" (VInt 7)]])]) =
    (Returned tt, s', w') /\
    log w' =
      [EvGet 5 (VTuple [VStr "r"; VStr "for-c1";
                        Demo.encrypt "41:stale" (VInt 7)]);
       EvPut 1 error_signal] /\
    Worker.trusted_random_value s' = VStr "r" /\
    Worker.trusted_nonce s' = VStr "41" /\
    Worker.session_key s' = VStr "stale".
Proof.
  apply (rejected_reply_has_replaced_the_session_key Demo.decrypt
           Demo.worker_waiting
           (Demo.world_of
              [(5%nat, [VTuple [VStr "r"; VStr "for-c1";
                                Demo.encrypt "41:stale" (VInt 7)]])])
           5%nat
           (VTuple [VStr "r"; VStr "for-c1"; Demo.encrypt "41:stale" (VInt 7)])
           (VStr "r") (VStr "for-c1") (Demo.encrypt "41:stale" (VInt 7))
           "41:stale" "41" "stale" []);
    try reflexivity.
  right. discriminate.
Defined.

Lemma run_relays_an_error_witness :
  exists s' w',
    ServerWorker.run Demo.decrypt Demo.prepare_inner_message Demo.str
      Demo.worker
      (Demo.world_of [(0%nat, [Demo.request]);
                      (3%nat, [VTuple [VQueue 4; VQueue 5]]);
                      (5%nat, [error_signal])]) = (Returned tt, s', w') /\
    log w' =
      [EvGet 0 Demo.request; EvPut 2 hello_signal;
       EvGet 3 (VTuple [VQueue 4; VQueue 5]);
       EvPut 4 (VTuple [VStr "r"; VStr "c1"; VStr "s1"; VStr "from-c1";
                        Demo.encrypt "42:r:c1:s1" (VInt 7)]);
       EvGet 5 error_signal;
       EvPut 1 error_signal].
Proof.
  apply (run_relays_an_error_of_the_trusted_server Demo.decrypt
           Demo.prepare_inner_message Demo.str Demo.worker
           (Demo.world_of [(0%nat, [Demo.request]);
                           (3%nat, [VTuple [VQueue 4; VQueue 5]]);
                           (5%nat, [error_signal])])
           Demo.request (VStr "r") (VStr "c1") (VStr "s1") (VStr "from-c1")
           (Demo.encrypt "42:r:c1:s1" (VInt 7)) error_signal 5
           [] [] [] 4%nat 5%nat);
    try reflexivity; try (simpl; lia).
  repeat constructor; simpl; intuition lia.
Defined.

(** ** What a method touches *)

Section Accounted.
Context {S : Type}.

Lemma accounted_same {A} (n : nat) (m : M S A) :
  (forall s w, (m s w).2 = w) -> accounted n m.
Proof.
  intros Hm s w. exists []. rewrite Hm, app_nil_r.
  split_conj; auto; lia.
Qed.

Lemma accounted_weaken {A} (n n' : nat) (m : M S A) :
  (n <= n')%nat -> accounted n m -> accounted n' m.
Proof.
  intros Hn Hm s w.
  destruct (Hm s w) as (evs & Hlog & Hframe & Hnext & Hstarted & Hkeys & Hpos).
  exists evs. split_conj; auto; lia.
Qed.

Lemma accounted_bind {A B} (n1 n2 : nat) (m : M S A) (f : A -> M S B) :
  accounted n1 m -> (forall a, accounted n2 (f a)) ->
  accounted (n1 + n2) (bind m f).
Proof.
  intros Hm Hf s w. unfold bind.
  destruct (Hm s w) as (evs & Hlog & Hframe & Hnext & Hstarted & Hkeys & Hpos).
  destruct (m s w) as [[[a|e| |] s1] w1]; simpl in *;
    try (exists evs; split_conj; auto; lia).
  destruct (Hf a s1 w1)
    as (evs' & Hlog' & Hframe' & Hnext' & Hstarted' & Hkeys' & Hpos').
  exists (evs ++ evs'). split_conj; try congruence; try lia.
  - by rewrite Hlog', Hlog, app_assoc.
  - intros q Hq. rewrite fmap_app in Hq.
    rewrite Hframe', Hframe; auto; intros Hin; apply Hq, in_or_app; auto.
Qed.

Lemma accounted_bind_0 {A B} (n : nat) (m : M S A) (f : A -> M S B) :
  accounted 0 m -> (forall a, accounted n (f a)) -> accounted n (bind m f).
Proof. apply (accounted_bind 0 n). Qed.

Lemma accounted_bind_then {A B} (n : nat) (m : M S A) (f : A -> M S B) :
  accounted n m -> (forall a, accounted 0 (f a)) -> accounted n (bind m f).
Proof.
  intros Hm Hf. apply (accounted_weaken (n + 0)); [lia|].
  by apply accounted_bind.
Qed.

Lemma accounted_try_except {A} (n : nat) (body : M S unit)
    (caught : list exn) (handler rest : M S A) :
  accounted 0 body -> accounted n handler -> accounted n rest ->
  accounted n (try_except body caught handler rest).
Proof.
  intros Hb Hh Hr s w. unfold try_except.
  destruct (Hb s w) as (evs & Hlog & Hframe & Hnext & Hstarted & Hkeys & Hpos).
  assert (forall (m : M S A), accounted n m ->
            forall s1 w1, body s w = (Returned tt, s1, w1) \/
                          (exists e, body s w = (Raised e, s1, w1)) ->
            exists evs0,
              log (m s1 w1).2 = log w ++ evs0 /\
              (forall q, ~ In q (event_queue <$> evs0) ->
                 queue_at (m s1 w1).2 q = queue_at w q) /\
              next_queue (m s1 w1).2 = next_queue w /\
              started (m s1 w1).2 = started w /\
              random_keys (m s1 w1).2 = random_keys w /\
              (random_pos w <= random_pos (m s1 w1).2 <= random_pos w + n)%nat)
    as Hthen.
  { intros m Hm s1 w1 Hbody.
    assert ((body s w).2 = w1) as Hw1 by (by destruct Hbody as [->|[e ->]]).
    rewrite Hw1 in *.
    destruct (Hm s1 w1)
      as (evs' & Hlog' & Hframe' & Hnext' & Hstarted' & Hkeys' & Hpos').
    exists (evs ++ evs'). split_conj; try congruence; try lia.
    - by rewrite Hlog', Hlog, app_assoc.
    - intros q Hq. rewrite fmap_app in Hq.
      rewrite Hframe', Hframe; auto; intros Hin; apply Hq, in_or_app; auto. }
  destruct (body s w) as [[[[]|e| |] s1] w1] eqn:Hbody; simpl in *;
    try (exists evs; split_conj; auto; lia).
  - apply Hthen; auto.
  - destruct (existsb _ _).
    + apply Hthen; eauto.
    + exists evs; simpl; split_conj; auto; lia.
Qed.

Lemma accounted_lift {A} (n : nat) (r : result A) : accounted n (lift r : M S A).
Proof. destruct r; by apply accounted_same. Qed.

Lemma accounted_queue_get (n : nat) (queue : value) :
  accounted n (queue_get queue : M S value).
Proof.
  apply (accounted_weaken 0); [lia|]. intros s w. unfold queue_get.
  destruct queue as [ | | |q| | ];
    try (exists []; rewrite app_nil_r; split_conj; auto; simpl; lia).
  destruct (items (queue_at w q)) as [|v rest].
  - exists []. rewrite app_nil_r. split_conj; auto; simpl; lia.
  - exists [EvGet q v]. split_conj; auto; simpl; try lia.
    intros q' Hq'. rewrite queue_at_dequeue.
    destruct (decide (q = q')); [|done]. destruct Hq'. by left.
Qed.

Lemma accounted_queue_put (n : nat) (queue v : value) :
  accounted n (queue_put queue v : M S unit).
Proof.
  apply (accounted_weaken 0); [lia|]. intros s w. unfold queue_put.
  destruct queue as [ | | |q| | ];
    try (exists []; rewrite app_nil_r; split_conj; auto; simpl; lia).
  destruct (full (queue_at w q)).
  - exists []. rewrite app_nil_r. split_conj; auto; simpl; lia.
  - exists [EvPut q v]. split_conj; auto; simpl; try lia.
    intros q' Hq'. rewrite queue_at_enqueue.
    destruct (decide (q = q')); [|done]. destruct Hq'. by left.
Qed.

Lemma accounted_generate_random_key :
  accounted 1 (generate_random_key : M S value).
Proof.
  intros s w. exists []. rewrite app_nil_r. split_conj; auto; simpl; lia.
Qed.

Lemma accounted_establish_connection {E} `{AbstractEntity.Entity E}
    (n : nat) (endpoint : E) :
  accounted n (AbstractEntity.establish_connection endpoint : M S value).
Proof.
  unfold AbstractEntity.establish_connection.
  apply accounted_bind_0; [apply accounted_queue_put|].
  intros _. apply accounted_queue_get.
Qed.

End Accounted.

Section AccountedStoppable.
Import AbstractEntity AbstractStoppableEntity.
Context {S : Type} `{Stoppable S}.

Lemma accounted_get_from_queue (n : nat) (queue : value) :
  accounted n (get_from_queue queue : M S value).
Proof.
  unfold get_from_queue. apply accounted_bind_0.
  - by apply accounted_same.
  - intros _. apply accounted_queue_get.
Qed.

Lemma accounted_put_each (n : nat) (qs : list value) (v : value) :
  accounted n (put_each qs v : M S unit).
Proof.
  induction qs as [|q qs IH]; simpl.
  - by apply accounted_same.
  - apply accounted_bind_0; [apply accounted_queue_put|auto].
Qed.

Lemma accounted_finish (n : nat) : accounted n (finish : M S unit).
Proof.
  unfold finish. apply accounted_bind_0; [by apply accounted_same|].
  intros qs. apply accounted_put_each.
Qed.

End AccountedStoppable.

Ltac accounted_step :=
  first
    [ apply accounted_get_from_queue
    | apply accounted_establish_connection
    | apply accounted_queue_get
    | apply accounted_queue_put
    | apply accounted_lift
    | apply accounted_same; reflexivity
    | apply accounted_try_except
    | apply accounted_bind_0; [|intros ?]
    | match goal with
      | |- accounted _ (if ?b then _ else _) => destruct b
      end ].

Section AccountedWorker.
Variable decrypt : value -> value -> result value.
Variable prepare_inner_message :
  value -> value -> value -> value -> value -> result value.
Variable str : value -> string.

Lemma accounted_from_client (message : value) :
  accounted 1
    (ServerWorker.process_message_from_client_and_generate_message_to_trusted
       prepare_inner_message str message).
Proof.
  unfold ServerWorker.process_message_from_client_and_generate_message_to_trusted.
  apply accounted_try_except.
  - unfold ServerWorker.unpack_message_from_client,
      ServerWorker.validate_server_id_match,
      AbstractEntity.validate_message_length.
    repeat accounted_step.
  - by apply accounted_same.
  - unfold ServerWorker.prepare_message_for_trusted_server.
    apply accounted_bind_0; [apply accounted_lift|]. intros partial.
    apply accounted_bind_then; [|intros nested; by apply accounted_same].
    unfold ServerWorker.prepare_nested_message_for_trusted.
    apply accounted_bind_then; [apply accounted_generate_random_key|].
    intros key. repeat accounted_step.
Qed.

Lemma accounted_from_trusted (n : nat) (message : value) :
  accounted n
    (ServerWorker.process_message_from_trusted_and_generate_response_for_client
       decrypt message).
Proof.
  unfold
    ServerWorker.process_message_from_trusted_and_generate_response_for_client,
    ServerWorker.unpack_message_from_trusted,
    ServerWorker.unpack_nested_message_from_trusted,
    ServerWorker.validate_random_value_from_trusted,
    ServerWorker.validate_nested_message_from_trusted,
    AbstractEntity.validate_message_length.
  repeat accounted_step.
Qed.

Lemma accounted_run :
  accounted 1 (ServerWorker.run decrypt prepare_inner_message str).
Proof.
  unfold ServerWorker.run.
  apply accounted_bind_0; [by apply accounted_same|]. intros own_input.
  apply accounted_bind_0; [apply accounted_get_from_queue|]. intros message.
  apply accounted_bind_then; [apply accounted_from_client|].
  intros message_to_trusted.
  destruct (AbstractEntity.is_message_error message_to_trusted).
  - repeat accounted_step.
  - unfold ServerWorker.connect_to_trusted.
    repeat first [apply accounted_from_trusted | accounted_step].
Qed.

End AccountedWorker.

(** X12. What the worker touches.  Whatever the messages and however it
    ends, [run] changes a queue only by a [get] or a [put] that is in
    the log, creates no queue, starts no thread, and draws at most one
    random key; [finish] and the handshake, of any entity, do the same
    and draw none. *)
Theorem worker_run_touches_only_the_queues_it_logs
    (decrypt : value -> value -> result value)
    (prepare_inner_message :
       value -> value -> value -> value -> value -> result value)
    (str : value -> string) :
  accounted 1 (ServerWorker.run decrypt prepare_inner_message str) /\
  (forall (S : Type) (E : AbstractEntity.Entity S)
          (St : AbstractStoppableEntity.Stoppable S),
     accounted 0 (AbstractStoppableEntity.finish : M S unit) /\
     forall queue,
       accounted 0 (AbstractStoppableEntity.get_from_queue queue : M S value)) /\
  (forall (S E : Type) (En : AbstractEntity.Entity E) (endpoint : E),
     accounted 0 (AbstractEntity.establish_connection endpoint : M S value)).
Proof.
  split; [apply accounted_run|]. split.
  - intros S E St. split; [apply accounted_finish|].
    intros queue. apply accounted_get_from_queue.
  - intros S E En endpoint. apply accounted_establish_connection.
Qed.

(** ** A server from its constructor to its stop *)

Lemma get_from_queue_blocked {S} `{AbstractStoppableEntity.Stoppable S}
    (q : nat) (s : S) (w : world) :
  items (queue_at w q) = [] ->
  AbstractStoppableEntity.get_from_queue (VQueue q) s w =
  (Blocked, AbstractStoppableEntity.remember (VQueue q) s, w).
Proof.
  intros Hq. unfold AbstractStoppableEntity.get_from_queue, queue_get.
  unfold bind, assign. by rewrite Hq.
Qed.

Lemma empty_not_full (x : Queue) : items x = [] -> full x = false.
Proof.
  intros Hx. unfold full. rewrite Hx.
  destruct (0 <? maxsize x) eqn:Hpos; [|done].
  apply Z.ltb_lt in Hpos. apply andb_false_iff. right.
  apply Z.eqb_neq. simpl. lia.
Qed.

(** X13. A server from [Server(...)] to its stop.  The constructor
    allocates three queues: the [Queue()] pair of [AbstractEntity], then
    the input queue bounded by [max_connections], which replaces the
    first.  [run] on the new server sets [running], records the input
    queue and waits there.  [finish] then has room for [FINISH] whatever
    [max_connections] is, and the loop, taken up again, takes the marker
    and returns with [running] false: no worker was built, no thread
    started, nothing was put on the output queue. *)
Theorem constructed_server_waits_and_is_stopped_by_finish
    (server_id server_key : value) (max_connections : Z)
    (trusted_server : Endpoint.t) (invoke_workers : bool) (w : world)
    (fuel : nat) :
  let n := next_queue w in
  let own_input := Datatypes.S (Datatypes.S n) in
  let own_output := Datatypes.S n in
  let s := Server.Build own_input own_output [] max_connections
             invoke_workers false server_id server_key trusted_server in
  let waiting := Server.Build own_input own_output [VQueue own_input]
                   max_connections invoke_workers true server_id server_key
                   trusted_server in
  let w0 := allocated max_connections (allocated 0 (allocated 0 w)) in
  let w1 := enqueue own_input finish_signal w0 in
  let w2 := dequeue own_input finish_signal [] w1 in
  Server.__init__ server_id server_key max_connections trusted_server
    invoke_workers tt w = (Returned s, tt, w0) /\
  queue_at w0 own_input = mkQueue max_connections [] /\
  queue_at w0 own_output = mkQueue 0 [] /\
  AbstractServer.run (Datatypes.S fuel) s w0 = (Blocked, waiting, w0) /\
  AbstractStoppableEntity.finish waiting w0 = (Returned tt, waiting, w1) /\
  AbstractServer.run_loop (Datatypes.S fuel) waiting w1 =
    (Returned tt, Server.set_running false waiting, w2) /\
  started w2 = started w /\
  next_queue w2 = Datatypes.S own_input /\
  queue_at w2 own_output = mkQueue 0 [] /\
  log w2 = log w ++ [EvPut own_input finish_signal;
                     EvGet own_input finish_signal].
Proof.
  intros n own_input own_output s waiting w0 w1 w2.
  assert (queue_at w0 own_input = mkQueue max_connections []) as Hinput.
  { subst w0. rewrite queue_at_allocated. simpl.
    by destruct (decide _). }
  assert (queue_at w0 own_output = mkQueue 0 []) as Houtput.
  { subst w0. rewrite queue_at_allocated. simpl.
    destruct (decide _) as [Heq|_]; [unfold own_output in Heq; lia|].
    rewrite queue_at_allocated. simpl.
    by destruct (decide _). }
  assert (items (queue_at w1 own_input) = [finish_signal]) as Hmarker.
  { subst w1. rewrite queue_at_enqueue.
    destruct (decide _); [|done].
    by rewrite Hinput. }
  split_conj; try done.
  - unfold AbstractServer.run. unfold assign at 1. unfold bind at 1.
    simpl AbstractServer.run_loop. unfold attr at 1. unfold bind at 1.
    simpl AbstractServer.running. cbv iota.
    apply bind_blocked. unfold AbstractServer.run_body.
    unfold attr at 1. unfold bind at 1. apply bind_blocked.
    simpl AbstractEntity.input_queue.
    by rewrite get_from_queue_blocked by (by rewrite Hinput).
  - unfold AbstractStoppableEntity.finish, attr. unfold bind at 1.
    simpl AbstractStoppableEntity.put_each. unfold bind at 1.
    rewrite queue_put_returned; [done|].
    apply empty_not_full. by rewrite Hinput.
  - simpl AbstractServer.run_loop. unfold attr at 1. unfold bind at 1.
    simpl AbstractServer.running. cbv iota.
    assert (AbstractServer.run_body waiting w1 =
            (Returned tt, Server.set_running false waiting, w2)) as Hbody.
    { unfold AbstractServer.run_body. unfold attr at 1. unfold bind at 1.
      simpl AbstractEntity.input_queue.
      rewrite (bind_returned _ _ _ _ _ _ _
                 (get_from_queue_returned _ _ _ _ _ Hmarker)).
      change (AbstractStoppableEntity.is_finish_signal finish_signal)
        with true.
      cbv iota.
      destruct (remember_cases (VQueue own_input) waiting)
        as [[_ ->]|[Hnot _]]; [done|].
      destruct Hnot. by left. }
    change (Server.running waiting) with true. cbv iota.
    rewrite (bind_returned _ _ _ _ _ _ _ Hbody).
    by destruct fuel.
  - subst w2 w1. rewrite queue_at_dequeue.
    destruct (decide _) as [Heq|_];
      [unfold own_input, own_output in Heq; lia|].
    rewrite queue_at_enqueue.
    destruct (decide _) as [Heq|_];
      [unfold own_input, own_output in Heq; lia|done].
  - subst w2 w1. by rewrite log_dequeue, log_enqueue, <- app_assoc.
Qed.
